(** * Strategy execution and reconciliation engine of the Binance futures bot

    A shallow embedding of [src/config.py], [src/utils.py] (class
    [Validator]), [src/base_bot.py], [src/market_orders.py],
    [src/limit_orders.py], [src/advanced/stop_limit.py],
    [src/advanced/grid_strategy.py], [src/advanced/twap.py] and
    [src/advanced/oco.py], followed by the properties of the single-order
    bots, the grid controller, the TWAP scheduler and the OCO monitor.

    Conventions of the embedding.
    - A Python [float] is an exact rational ([Qc]); [round(x, n)] is
      rounding to [n] decimals, ties to even, of that exact value.
    - A Python [int] is a [Z]; a [str] is a [string] of ASCII characters.
    - The exchange client ([self.client]) is a record of state-passing
      functions over an arbitrary state type; each call either returns or
      raises an exception.
    - A bot method is a computation that threads the exchange state and
      emits the list of the client calls and sleeps it performs, in order.
      Logging has no effect on the control flow and is left out. *)

From Stdlib Require Import ZArith QArith Qcanon Qround Qabs Lia Lqa Ascii String.
From stdpp Require Import base decidable option list gmap sets strings numbers countable.

Local Open Scope Z_scope.
Local Open Scope Qc_scope.

(** ** Python numbers *)

Module Py.

(** The [float] denoted by a decimal literal or an [int]. *)
Definition float_of_Q (q : Q) : Qc := Q2Qc q.
Definition float_of_int (n : Z) : Qc := Qc_of_Z n.

(** Rounding a rational to the nearest integer, ties to even. *)
Definition round_half_even (q : Q) : Z :=
  let f := Qfloor q in
  match Qcompare (q - inject_Z f) (1 # 2) with
  | Lt => f
  | Gt => (f + 1)%Z
  | Eq => if Z.even f then f else (f + 1)%Z
  end.

Definition pow10 (ndigits : nat) : Q := inject_Z (10 ^ Z.of_nat ndigits).

(** [round(x, ndigits)] for a non-negative [ndigits]. *)
Definition round (x : Qc) (ndigits : nat) : Qc :=
  Q2Qc (inject_Z (round_half_even (this x * pow10 ndigits)) / pow10 ndigits).

(** Exceptions that the modelled code raises or handles.
    [BinanceAPIException] carries the venue's error code; [OtherException]
    stands for every other subclass of [Exception] (a transport error, a
    [BinanceRequestException], ...). *)
Inductive exn : Type :=
  | BinanceAPIException (code : Z)
  | ValueError
  | ZeroDivisionError
  | OtherException.

Inductive res (A : Type) : Type :=
  | Ok (a : A)
  | Raise (e : exn).
Arguments Ok {A} a.
Arguments Raise {A} e.

(** True division [x / y]. *)
Definition truediv (x y : Qc) : res Qc :=
  if decide (y = 0) then Raise ZeroDivisionError else Ok (x / y).

(** [str.upper], [str.isupper] and [str.endswith] on ASCII strings. *)
Definition is_lower (c : ascii) : bool :=
  let n := N_of_ascii c in ((97 <=? n) && (n <=? 122))%N.
Definition is_upper (c : ascii) : bool :=
  let n := N_of_ascii c in ((65 <=? n) && (n <=? 90))%N.
Definition upper_char (c : ascii) : ascii :=
  if is_lower c then ascii_of_N (N_of_ascii c - 32) else c.

Fixpoint upper (s : string) : string :=
  match s with
  | EmptyString => EmptyString
  | String c r => String (upper_char c) (upper r)
  end.

Fixpoint existsb_str (p : ascii -> bool) (s : string) : bool :=
  match s with
  | EmptyString => false
  | String c r => p c || existsb_str p r
  end.

Definition isupper (s : string) : bool :=
  negb (existsb_str is_lower s) && existsb_str is_upper s.

Fixpoint drop_str (n : nat) (s : string) : string :=
  match n, s with
  | O, _ => s
  | S k, EmptyString => EmptyString
  | S k, String _ r => drop_str k r
  end.

Definition endswith (s suffix : string) : bool :=
  (String.length suffix <=? String.length s)%nat
  && bool_decide (drop_str (String.length s - String.length suffix) s = suffix).

(** A value stored under a key of a response dictionary that the code
    reads with [float(...)]: the venue sends numeric strings, a test
    double may send numbers.  A non-empty string is truthy; a number is
    truthy when it is not zero. *)
Inductive value : Type :=
  | VStr (denotes : Qc)
  | VNum (v : Qc).

Definition float (v : value) : Qc :=
  match v with VStr q => q | VNum q => q end.

Definition truthy (v : value) : bool :=
  match v with VStr _ => true | VNum q => negb (bool_decide (q = 0)) end.

End Py.

Export Py.

(** ** The order gateway *)

(** Keyword arguments of [client.futures_create_order]; an argument that a
    call does not pass is [None]. *)
Module Request.
Record t : Type := mk {
  symbol : string;
  side : string;
  type : string;
  quantity : Qc;
  price : option Qc;
  stopPrice : option Qc;
  timeInForce : option string;
  positionSide : string;
  reduceOnly : option bool
}.
End Request.

(** The keys of an order dictionary returned by the venue that the code
    reads.  [executedQty] and [avgPrice] are read with [dict.get] and may
    be absent. *)
Module Order.
Record t : Type := mk {
  orderId : Z;
  side : string;
  price : value;
  status : string;
  executedQty : option value;
  avgPrice : option value
}.
End Order.

(** One observable step of a bot method: a client call with its outcome,
    or a [time.sleep]. *)
Inductive Event : Type :=
  | EvTicker (symbol : string) (r : res value)
  | EvOpenOrders (symbol : option string) (r : res (list Order.t))
  | EvCreateOrder (req : Request.t) (r : res Order.t)
  | EvGetOrder (symbol : string) (orderId : Z) (r : res Order.t)
  | EvCancelOrder (symbol : string) (orderId : Z) (r : res Order.t)
  | EvSleep (seconds : Qc).

(** The methods of [binance.client.Client] that the bots call, over an
    exchange state [S]. *)
Record Client (S : Type) : Type := {
  futures_symbol_ticker : string -> S -> res value * S;
  futures_get_open_orders : option string -> S -> res (list Order.t) * S;
  futures_create_order : Request.t -> S -> res Order.t * S;
  futures_get_order : string -> Z -> S -> res Order.t * S;
  futures_cancel_order : string -> Z -> S -> res Order.t * S
}.
Arguments futures_symbol_ticker {S} _ _ _.
Arguments futures_get_open_orders {S} _ _ _.
Arguments futures_create_order {S} _ _ _.
Arguments futures_get_order {S} _ _ _ _.
Arguments futures_cancel_order {S} _ _ _ _.

(** ** Computations: exchange state, exceptions and the event log *)

Definition M (S A : Type) : Type := S -> res A * S * list Event.

Definition ret {S A} (a : A) : M S A := fun s => (Ok a, s, []).

Definition raise {S A} (e : exn) : M S A := fun s => (Raise e, s, []).

Definition bind {S A B} (m : M S A) (k : A -> M S B) : M S B :=
  fun s =>
    match m s with
    | (Ok a, s1, t1) =>
        match k a s1 with
        | (r, s2, t2) => (r, s2, t1 ++ t2)
        end
    | (Raise e, s1, t1) => (Raise e, s1, t1)
    end.

Notation "x <- m ;; k" := (bind m (fun x => k))
  (at level 20, m at level 99, k at level 200, only parsing).

(** [try: body except BinanceAPIException as e: handler(e.code)]. *)
Definition try_except_api {S A} (body : M S A) (handler : Z -> M S A) : M S A :=
  fun s =>
    match body s with
    | (Raise (BinanceAPIException code), s1, t1) =>
        match handler code s1 with
        | (r, s2, t2) => (r, s2, t1 ++ t2)
        end
    | other => other
    end.

(** A client call, logged with its outcome. *)
Definition call {S A} (f : S -> res A * S) (ev : res A -> Event) : M S A :=
  fun s => match f s with (r, s1) => (r, s1, [ev r]) end.

(** [time.sleep(seconds)]; a negative length is a [ValueError]. *)
Definition sleep {S} (seconds : Qc) : M S unit :=
  fun s =>
    if bool_decide (seconds < 0) then (Raise ValueError, s, [])
    else (Ok tt, s, [EvSleep seconds]).

Definition lift_res {S A} (r : res A) : M S A := fun s => (r, s, []).

(** Projections of an event log. *)
Definition created (evs : list Event) : list Request.t :=
  omap (fun ev => match ev with EvCreateOrder req _ => Some req | _ => None end) evs.

Definition placed (evs : list Event) : list Order.t :=
  omap (fun ev => match ev with EvCreateOrder _ (Ok o) => Some o | _ => None end) evs.

Definition cancelled (evs : list Event) : list Z :=
  omap (fun ev => match ev with EvCancelOrder _ oid _ => Some oid | _ => None end) evs.

Definition slept (evs : list Event) : list Qc :=
  omap (fun ev => match ev with EvSleep d => Some d | _ => None end) evs.

Definition tickers (evs : list Event) : list string :=
  omap (fun ev => match ev with EvTicker sym _ => Some sym | _ => None end) evs.

(** ** [config.py] *)

Module Config.
Definition MIN_QUANTITY : Qc := float_of_Q (1 # 1000).
Definition MIN_PRICE : Qc := float_of_Q (1 # 100).
Definition MAX_LEVERAGE : Z := 125.
End Config.

(** ** [utils.py]: class [Validator] *)

Module Validator.

Definition validate_symbol (symbol : string) : bool :=
  if bool_decide (symbol = EmptyString) then false
  else if negb (isupper symbol) then false
  else if (String.length symbol <? 5)%nat then false
  else if negb (endswith symbol "USDT") then false
  else true.

Definition validate_side (side : string) : bool :=
  bool_decide (upper side ∈ ["BUY"; "SELL"]%string).

Definition validate_quantity (quantity : Qc) : bool :=
  bool_decide (Config.MIN_QUANTITY <= quantity).

Definition validate_price (price : Qc) : bool :=
  bool_decide (Config.MIN_PRICE <= price).

Definition validate_order_type (order_type : string) : bool :=
  bool_decide (upper order_type
               ∈ ["MARKET"; "LIMIT"; "STOP"; "STOP_MARKET"; "TAKE_PROFIT";
                  "TAKE_PROFIT_MARKET"; "TRAILING_STOP_MARKET"]%string).

Definition validate_time_in_force (tif : string) : bool :=
  bool_decide (upper tif ∈ ["GTC"; "IOC"; "FOK"; "GTX"]%string).

End Validator.

(** ** [base_bot.py]: class [BasicBot] *)

Module BasicBot.
Section Bot.
Context {S : Type} (client : Client S).

Definition get_current_price (symbol : string) : M S Qc :=
  try_except_api
    (if negb (Validator.validate_symbol symbol) then raise ValueError
     else
       ticker <- call (futures_symbol_ticker client (upper symbol))
                      (EvTicker (upper symbol)) ;;
       ret (float ticker))
    (fun code =>
       if bool_decide (code = (-1121)%Z) then raise ValueError
       else raise (BinanceAPIException code)).

Definition get_open_orders (symbol : option string) : M S (list Order.t) :=
  match symbol with
  | Some sym =>
      if bool_decide (sym = EmptyString)
      then call (futures_get_open_orders client None) (EvOpenOrders None)
      else call (futures_get_open_orders client (Some (upper sym)))
                (EvOpenOrders (Some (upper sym)))
  | None => call (futures_get_open_orders client None) (EvOpenOrders None)
  end.

Definition create_order (req : Request.t) : M S Order.t :=
  call (futures_create_order client req) (EvCreateOrder req).

Definition get_order (symbol : string) (order_id : Z) : M S Order.t :=
  call (futures_get_order client symbol order_id) (EvGetOrder symbol order_id).

Definition cancel_order (symbol : string) (order_id : Z) : M S Order.t :=
  call (futures_cancel_order client (upper symbol) order_id)
       (EvCancelOrder (upper symbol) order_id).

Definition validate_order_params (symbol side : string) (quantity : Qc)
    (price : option Qc) : bool :=
  if negb (Validator.validate_symbol symbol) then false
  else if negb (Validator.validate_side side) then false
  else if negb (Validator.validate_quantity quantity) then false
  else match price with
       | Some p => if negb (Validator.validate_price p) then false else true
       | None => true
       end.

End Bot.

(** The methods that read the exchange rules and change the leverage.
    They call two further methods of the client, given here as
    state-passing functions.  The exchange information is the list under
    its key ['symbols']; of an entry the code reads the key ['symbol']
    and hands on the other keys as they are. *)
Record SymbolInfo : Type := {
  info_symbol : string;
  info_other : list (string * value)
}.

Section Account.
Context {S R : Type}.
Context (futures_exchange_info : S -> res (list SymbolInfo) * S).
Context (futures_change_leverage : string -> Z -> S -> res R * S).

Definition get_exchange_info (s : S) : res (list SymbolInfo) * S :=
  futures_exchange_info s.

(** [for s in exchange_info['symbols']: if s['symbol'] == symbol.upper():
    return s]. *)
Fixpoint find_symbol (symbol : string) (symbols : list SymbolInfo)
    : option SymbolInfo :=
  match symbols with
  | [] => None
  | info :: symbols' =>
      if bool_decide (info_symbol info = upper symbol) then Some info
      else find_symbol symbol symbols'
  end.

Definition get_symbol_info (symbol : string) (s : S) : option SymbolInfo * S :=
  match get_exchange_info s with
  | (Ok exchange_info, s1) => (find_symbol symbol exchange_info, s1)
  | (Raise _, s1) => (None, s1)
  end.

Definition set_leverage (symbol : string) (leverage : Z) (s : S) : res R * S :=
  if bool_decide (leverage < 1)%Z || bool_decide (Config.MAX_LEVERAGE < leverage)%Z
  then (Raise ValueError, s)
  else futures_change_leverage (upper symbol) leverage s.

End Account.
End BasicBot.

(** ** [advanced/grid_strategy.py]: class [GridBot] *)

Module GridBot.
Section Bot.
Context {S : Type} (client : Client S).

(** The body of [for i in range(grid_levels)] in [create_grid_orders],
    over the remaining indices, with the two result lists built so far. *)
Fixpoint create_grid_loop (symbol : string) (lower_price grid_step
    current_price quantity_per_grid : Qc) (position_side : string)
    (range : list Z) (buy_orders sell_orders : list Order.t)
    : M S (list Order.t * list Order.t) :=
  match range with
  | [] => ret (buy_orders, sell_orders)
  | i :: range' =>
      let grid_price := lower_price + float_of_int i * grid_step in
      let grid_price := round grid_price 2 in
      if bool_decide (grid_price < current_price) then
        buy_orders <-
          try_except_api
            (buy_order <- BasicBot.create_order client
               {| Request.symbol := symbol;
                  Request.side := "BUY";
                  Request.type := "LIMIT";
                  Request.quantity := quantity_per_grid;
                  Request.price := Some grid_price;
                  Request.stopPrice := None;
                  Request.timeInForce := Some "GTC"%string;
                  Request.positionSide := position_side;
                  Request.reduceOnly := None |} ;;
             _ <- sleep (float_of_Q (1 # 10)) ;;
             ret (buy_orders ++ [buy_order]))
            (fun _ => ret buy_orders) ;;
        create_grid_loop symbol lower_price grid_step current_price
          quantity_per_grid position_side range' buy_orders sell_orders
      else if bool_decide (current_price < grid_price) then
        sell_orders <-
          try_except_api
            (sell_order <- BasicBot.create_order client
               {| Request.symbol := symbol;
                  Request.side := "SELL";
                  Request.type := "LIMIT";
                  Request.quantity := quantity_per_grid;
                  Request.price := Some grid_price;
                  Request.stopPrice := None;
                  Request.timeInForce := Some "GTC"%string;
                  Request.positionSide := position_side;
                  Request.reduceOnly := None |} ;;
             _ <- sleep (float_of_Q (1 # 10)) ;;
             ret (sell_orders ++ [sell_order]))
            (fun _ => ret sell_orders) ;;
        create_grid_loop symbol lower_price grid_step current_price
          quantity_per_grid position_side range' buy_orders sell_orders
      else
        create_grid_loop symbol lower_price grid_step current_price
          quantity_per_grid position_side range' buy_orders sell_orders
  end.

Definition create_grid_orders (symbol : string) (lower_price upper_price : Qc)
    (grid_levels : Z) (quantity_per_grid : Qc) (position_side : string)
    : M S (list Order.t * list Order.t) :=
  if bool_decide (upper_price <= lower_price) then raise ValueError
  else if bool_decide (grid_levels < 2)%Z then raise ValueError
  else if negb (BasicBot.validate_order_params symbol "BUY" quantity_per_grid
                  (Some lower_price)) then raise ValueError
  else
    let symbol := upper symbol in
    let position_side := upper position_side in
    let price_range := upper_price - lower_price in
    grid_step <- lift_res (truediv price_range (float_of_int (grid_levels - 1))) ;;
    current_price <- BasicBot.get_current_price client symbol ;;
    create_grid_loop symbol lower_price grid_step current_price
      quantity_per_grid position_side (seqZ 0 grid_levels) [] [].

(** The loop of [monitor_and_rebalance_grid] that fills
    [expected_buy_prices] and [expected_sell_prices]. *)
Fixpoint expected_prices_loop (lower_price grid_step current_price : Qc)
    (range : list Z) (expected_buy_prices expected_sell_prices : gset Qc)
    : gset Qc * gset Qc :=
  match range with
  | [] => (expected_buy_prices, expected_sell_prices)
  | i :: range' =>
      let grid_price := round (lower_price + float_of_int i * grid_step) 2 in
      if bool_decide (grid_price < current_price) then
        expected_prices_loop lower_price grid_step current_price range'
          (expected_buy_prices ∪ {[grid_price]}) expected_sell_prices
      else if bool_decide (current_price < grid_price) then
        expected_prices_loop lower_price grid_step current_price range'
          expected_buy_prices (expected_sell_prices ∪ {[grid_price]})
      else
        expected_prices_loop lower_price grid_step current_price range'
          expected_buy_prices expected_sell_prices
  end.

(** [for price in missing_..._prices]: one replacement order per missing
    price.  The iteration order of a Python set is unspecified; the
    embedding uses the order of [elements]. *)
Fixpoint replace_loop (symbol side : string) (quantity_per_grid : Qc)
    (prices : list Qc) : M S unit :=
  match prices with
  | [] => ret tt
  | price :: prices' =>
      _ <- try_except_api
             (order <- BasicBot.create_order client
                {| Request.symbol := symbol;
                   Request.side := side;
                   Request.type := "LIMIT";
                   Request.quantity := quantity_per_grid;
                   Request.price := Some price;
                   Request.stopPrice := None;
                   Request.timeInForce := Some "GTC"%string;
                   Request.positionSide := "BOTH";
                   Request.reduceOnly := None |} ;;
              sleep (float_of_Q (1 # 10)))
             (fun _ => ret tt) ;;
      replace_loop symbol side quantity_per_grid prices'
  end.

Definition open_prices (side : string) (open_orders : list Order.t) : gset Qc :=
  list_to_set
    (map (fun o => round (float (Order.price o)) 2)
         (filter (fun o => Order.side o = side) open_orders)).

(** One pass of the [while] loop of [monitor_and_rebalance_grid]. *)
Definition rebalance_iteration (symbol : string) (lower_price upper_price : Qc)
    (grid_levels : Z) (quantity_per_grid : Qc) (check_interval : Z) : M S unit :=
  current_price <- BasicBot.get_current_price client symbol ;;
  open_orders <- BasicBot.get_open_orders client (Some symbol) ;;
  grid_step <- lift_res (truediv (upper_price - lower_price)
                                 (float_of_int (grid_levels - 1))) ;;
  let '(expected_buy_prices, expected_sell_prices) :=
    expected_prices_loop lower_price grid_step current_price
      (seqZ 0 grid_levels) ∅ ∅ in
  let open_buy_prices := open_prices "BUY" open_orders in
  let missing_buy_prices := expected_buy_prices ∖ open_buy_prices in
  _ <- replace_loop symbol "BUY" quantity_per_grid (elements missing_buy_prices) ;;
  let open_sell_prices := open_prices "SELL" open_orders in
  let missing_sell_prices := expected_sell_prices ∖ open_sell_prices in
  _ <- replace_loop symbol "SELL" quantity_per_grid (elements missing_sell_prices) ;;
  sleep (float_of_int check_interval).

(** [while iteration < max_iterations], by the number of passes left. *)
Fixpoint rebalance_loop (symbol : string) (lower_price upper_price : Qc)
    (grid_levels : Z) (quantity_per_grid : Qc) (check_interval : Z)
    (passes : nat) : M S unit :=
  match passes with
  | O => ret tt
  | Datatypes.S passes' =>
      _ <- rebalance_iteration symbol lower_price upper_price grid_levels
             quantity_per_grid check_interval ;;
      rebalance_loop symbol lower_price upper_price grid_levels
        quantity_per_grid check_interval passes'
  end.

Definition monitor_and_rebalance_grid (symbol : string)
    (lower_price upper_price : Qc) (grid_levels : Z) (quantity_per_grid : Qc)
    (check_interval max_iterations : Z) : M S unit :=
  let symbol := upper symbol in
  rebalance_loop symbol lower_price upper_price grid_levels quantity_per_grid
    check_interval (Z.to_nat max_iterations).

End Bot.
End GridBot.

(** ** [advanced/twap.py]: class [TWAPBot] *)

Module TWAPBot.

(** [sum(float(order.get('executedQty', 0)) for order in orders)]. *)
Definition executed_qty (order : Order.t) : Qc :=
  float (default (VNum 0) (Order.executedQty order)).

Definition avg_price_of (order : Order.t) : Qc :=
  float (default (VNum 0) (Order.avgPrice order)).

(** [order.get('avgPrice')] used as a condition. *)
Definition has_avg_price (order : Order.t) : bool :=
  match Order.avgPrice order with
  | Some v => truthy v
  | None => false
  end.

Definition sum (xs : list Qc) : Qc := foldl Qcplus 0 xs.

Definition total_executed (orders : list Order.t) : Qc :=
  sum (map executed_qty orders).

Definition total_value (orders : list Order.t) : Qc :=
  sum (map (fun order => avg_price_of order * executed_qty order)
           (filter (fun order => has_avg_price order = true) orders)).

Definition min (xs : list Qc) (first : Qc) : Qc :=
  foldl (fun m x => if bool_decide (x < m) then x else m) first xs.

Definition max (xs : list Qc) (first : Qc) : Qc :=
  foldl (fun m x => if bool_decide (m < x) then x else m) first xs.

Definition res_bind {A B} (r : res A) (k : A -> res B) : res B :=
  match r with
  | Ok a => k a
  | Raise e => Raise e
  end.

(** The dictionary returned by [get_twap_summary], by key. *)
Definition get_twap_summary (orders : list Order.t) : res (gmap string Qc) :=
  if bool_decide (orders = []) then Ok ∅
  else
    let total_qty := total_executed orders in
    let total_value := total_value orders in
    res_bind (if bool_decide (0 < total_qty) then truediv total_value total_qty
              else Ok 0)
    (fun avg_price =>
    let prices := map avg_price_of
                      (filter (fun order => has_avg_price order = true) orders) in
    let min_price := match prices with p :: ps => min ps p | [] => 0 end in
    let max_price := match prices with p :: ps => max ps p | [] => 0 end in
    res_bind (if bool_decide (0 < avg_price)
              then res_bind (truediv (max_price - min_price) avg_price)
                            (fun ratio => Ok (ratio * float_of_int 100))
              else Ok 0)
    (fun price_range_pct =>
    Ok (<["total_orders"%string := float_of_int (Z.of_nat (length orders))]>
        (<["total_quantity"%string := total_qty]>
        (<["average_price"%string := avg_price]>
        (<["min_price"%string := min_price]>
        (<["max_price"%string := max_price]>
        (<["price_range_pct"%string := price_range_pct]> ∅)))))))).

Section Bot.
Context {S : Type} (client : Client S).

(** The body of [for i in range(num_orders)] in [execute_twap], over the
    remaining indices, with [executed_orders] as built so far. *)
Fixpoint twap_loop (symbol side : string) (order_size interval_seconds : Qc)
    (num_orders : Z) (position_side : string) (use_limit : bool)
    (limit_offset_pct : Qc) (range : list Z) (executed_orders : list Order.t)
    : M S (list Order.t) :=
  match range with
  | [] => ret executed_orders
  | i :: range' =>
      attempt <-
        try_except_api
          (current_price <- BasicBot.get_current_price client symbol ;;
           order <-
             (if use_limit then
                let limit_price :=
                  if bool_decide (side = "BUY"%string)
                  then current_price * (1 + limit_offset_pct / float_of_int 100)
                  else current_price * (1 - limit_offset_pct / float_of_int 100) in
                BasicBot.create_order client
                  {| Request.symbol := symbol;
                     Request.side := side;
                     Request.type := "LIMIT";
                     Request.quantity := order_size;
                     Request.price := Some (round limit_price 2);
                     Request.stopPrice := None;
                     Request.timeInForce := Some "GTC"%string;
                     Request.positionSide := position_side;
                     Request.reduceOnly := None |}
              else
                BasicBot.create_order client
                  {| Request.symbol := symbol;
                     Request.side := side;
                     Request.type := "MARKET";
                     Request.quantity := order_size;
                     Request.price := None;
                     Request.stopPrice := None;
                     Request.timeInForce := None;
                     Request.positionSide := position_side;
                     Request.reduceOnly := None |}) ;;
           ret (Some order))
          (fun _ => ret None) ;;
      match attempt with
      | Some order =>
          let executed_orders := executed_orders ++ [order] in
          _ <- (if bool_decide (i < num_orders - 1)%Z
                then sleep interval_seconds else ret tt) ;;
          twap_loop symbol side order_size interval_seconds num_orders
            position_side use_limit limit_offset_pct range' executed_orders
      | None =>
          twap_loop symbol side order_size interval_seconds num_orders
            position_side use_limit limit_offset_pct range' executed_orders
      end
  end.

Definition execute_twap (symbol side : string) (total_quantity : Qc)
    (duration_minutes num_orders : Z) (position_side : string)
    (use_limit : bool) (limit_offset_pct : Qc) : M S (list Order.t) :=
  if negb (BasicBot.validate_order_params symbol side total_quantity None)
  then raise ValueError
  else if bool_decide (num_orders < 1)%Z then raise ValueError
  else if bool_decide (duration_minutes < 1)%Z then raise ValueError
  else
    let symbol := upper symbol in
    let side := upper side in
    let position_side := upper position_side in
    order_size <- lift_res (truediv total_quantity (float_of_int num_orders)) ;;
    interval_seconds <-
      lift_res (truediv (float_of_int (duration_minutes * 60))
                        (float_of_int num_orders)) ;;
    executed_orders <-
      twap_loop symbol side order_size interval_seconds num_orders
        position_side use_limit limit_offset_pct (seqZ 0 num_orders) [] ;;
    let total_executed := total_executed executed_orders in
    avg_price <-
      lift_res (if bool_decide (0 < total_executed)
                then truediv (total_value executed_orders) total_executed
                else Ok 0) ;;
    ret executed_orders.

End Bot.
End TWAPBot.

(** ** [advanced/oco.py]: class [OCOOrderBot] *)

Module OCOOrderBot.
Section Bot.
Context {S : Type} (client : Client S).

Definition place_oco_order (symbol side : string) (quantity take_profit_price
    stop_loss_price : Qc) (position_side : string) : M S (Order.t * Order.t) :=
  if negb (BasicBot.validate_order_params symbol side quantity
             (Some take_profit_price)) then raise ValueError
  else
    let symbol := upper symbol in
    let side := upper side in
    let position_side := upper position_side in
    current_price <- BasicBot.get_current_price client symbol ;;
    tp_order <- BasicBot.create_order client
      {| Request.symbol := symbol;
         Request.side := side;
         Request.type := "LIMIT";
         Request.quantity := quantity;
         Request.price := Some take_profit_price;
         Request.stopPrice := None;
         Request.timeInForce := Some "GTC"%string;
         Request.positionSide := position_side;
         Request.reduceOnly := Some true |} ;;
    _ <- sleep (float_of_Q (1 # 10)) ;;
    sl_order <- BasicBot.create_order client
      {| Request.symbol := symbol;
         Request.side := side;
         Request.type := "STOP_MARKET";
         Request.quantity := quantity;
         Request.price := None;
         Request.stopPrice := Some stop_loss_price;
         Request.timeInForce := None;
         Request.positionSide := position_side;
         Request.reduceOnly := Some true |} ;;
    ret (tp_order, sl_order).

(** What one pass of the [while] loop of [monitor_and_cancel_oco] decides:
    [Some r] is [return r], [None] is falling through to the sleep. *)
Definition oco_check (symbol : string) (tp_order_id sl_order_id : Z)
    : M S (option (option string)) :=
  try_except_api
    (tp_order <- BasicBot.get_order client symbol tp_order_id ;;
     sl_order <- BasicBot.get_order client symbol sl_order_id ;;
     let tp_status := Order.status tp_order in
     let sl_status := Order.status sl_order in
     if bool_decide (tp_status = "FILLED"%string) then
       _ <- BasicBot.cancel_order client symbol sl_order_id ;;
       ret (Some (Some "TP"%string))
     else if bool_decide (sl_status = "FILLED"%string) then
       _ <- BasicBot.cancel_order client symbol tp_order_id ;;
       ret (Some (Some "SL"%string))
     else if bool_decide (tp_status ∈ ["CANCELED"; "EXPIRED"]%string)
             && bool_decide (sl_status ∈ ["CANCELED"; "EXPIRED"]%string) then
       ret (Some None)
     else ret None)
    (fun _ => ret None).

(** [while checks < max_checks], by the number of checks left. *)
Fixpoint oco_loop (symbol : string) (tp_order_id sl_order_id check_interval : Z)
    (checks_left : nat) : M S (option string) :=
  match checks_left with
  | O => ret None
  | Datatypes.S checks_left' =>
      decision <- oco_check symbol tp_order_id sl_order_id ;;
      match decision with
      | Some result => ret result
      | None =>
          _ <- sleep (float_of_int check_interval) ;;
          oco_loop symbol tp_order_id sl_order_id check_interval checks_left'
      end
  end.

Definition monitor_and_cancel_oco (symbol : string) (tp_order_id sl_order_id
    check_interval max_checks : Z) : M S (option string) :=
  let symbol := upper symbol in
  oco_loop symbol tp_order_id sl_order_id check_interval (Z.to_nat max_checks).

End Bot.

(** The loop of [main] over the optional command-line arguments
    [sys.argv[6:]]: the position side and the [--monitor] flag. *)
Definition main_options (argv : list string) : string * bool :=
  foldl (fun '(position_side, monitor) arg =>
           if bool_decide (upper arg ∈ ["BOTH"; "LONG"; "SHORT"]%string)
           then (arg, monitor)
           else if bool_decide (arg = "--monitor"%string)
           then (position_side, true)
           else (position_side, monitor))
        ("BOTH"%string, false) (drop 6 argv).

End OCOOrderBot.

(** ** [market_orders.py]: class [MarketOrderBot] *)

Module MarketOrderBot.
Section Bot.
Context {S : Type} (client : Client S).

Definition place_market_order (symbol side : string) (quantity : Qc)
    (position_side : string) (reduce_only : bool) : M S Order.t :=
  if negb (BasicBot.validate_order_params symbol side quantity None)
  then raise ValueError
  else
    let symbol := upper symbol in
    let side := upper side in
    let position_side := upper position_side in
    BasicBot.create_order client
      {| Request.symbol := symbol;
         Request.side := side;
         Request.type := "MARKET";
         Request.quantity := quantity;
         Request.price := None;
         Request.stopPrice := None;
         Request.timeInForce := None;
         Request.positionSide := position_side;
         Request.reduceOnly := Some reduce_only |}.

Definition place_market_buy (symbol : string) (quantity : Qc) : M S Order.t :=
  place_market_order symbol "BUY" quantity "BOTH" false.

Definition place_market_sell (symbol : string) (quantity : Qc) : M S Order.t :=
  place_market_order symbol "SELL" quantity "BOTH" false.

End Bot.
End MarketOrderBot.

(** ** [limit_orders.py]: class [LimitOrderBot] *)

Module LimitOrderBot.
Section Bot.
Context {S : Type} (client : Client S).

Definition place_limit_order (symbol side : string) (quantity price : Qc)
    (time_in_force position_side : string) (reduce_only : bool) : M S Order.t :=
  if negb (BasicBot.validate_order_params symbol side quantity (Some price))
  then raise ValueError
  else if negb (Validator.validate_time_in_force time_in_force)
  then raise ValueError
  else
    let symbol := upper symbol in
    let side := upper side in
    let time_in_force := upper time_in_force in
    let position_side := upper position_side in
    BasicBot.create_order client
      {| Request.symbol := symbol;
         Request.side := side;
         Request.type := "LIMIT";
         Request.quantity := quantity;
         Request.price := Some price;
         Request.stopPrice := None;
         Request.timeInForce := Some time_in_force;
         Request.positionSide := position_side;
         Request.reduceOnly := Some reduce_only |}.

Definition place_limit_buy (symbol : string) (quantity price : Qc) : M S Order.t :=
  place_limit_order symbol "BUY" quantity price "GTC" "BOTH" false.

Definition place_limit_sell (symbol : string) (quantity price : Qc) : M S Order.t :=
  place_limit_order symbol "SELL" quantity price "GTC" "BOTH" false.

End Bot.
End LimitOrderBot.

(** ** [advanced/stop_limit.py]: class [StopLimitOrderBot] *)

Module StopLimitOrderBot.
Section Bot.
Context {S : Type} (client : Client S).

Definition place_stop_limit_order (symbol side : string) (quantity stop_price
    limit_price : Qc) (time_in_force position_side : string)
    (reduce_only : bool) : M S Order.t :=
  if negb (BasicBot.validate_order_params symbol side quantity (Some limit_price))
  then raise ValueError
  else if negb (Validator.validate_price stop_price) then raise ValueError
  else if negb (Validator.validate_time_in_force time_in_force)
  then raise ValueError
  else
    let symbol := upper symbol in
    let side := upper side in
    let time_in_force := upper time_in_force in
    let position_side := upper position_side in
    BasicBot.create_order client
      {| Request.symbol := symbol;
         Request.side := side;
         Request.type := "STOP";
         Request.quantity := quantity;
         Request.price := Some limit_price;
         Request.stopPrice := Some stop_price;
         Request.timeInForce := Some time_in_force;
         Request.positionSide := position_side;
         Request.reduceOnly := Some reduce_only |}.

End Bot.
End StopLimitOrderBot.

(** ** Decidable equality of the data *)

Global Instance exn_eq_dec : EqDecision exn.
Proof. solve_decision. Defined.
Global Instance res_eq_dec {A} `{EqDecision A} : EqDecision (res A).
Proof. solve_decision. Defined.
Global Instance value_eq_dec : EqDecision value.
Proof. solve_decision. Defined.
Global Instance request_eq_dec : EqDecision Request.t.
Proof. solve_decision. Defined.
Global Instance order_eq_dec : EqDecision Order.t.
Proof. solve_decision. Defined.
Global Instance event_eq_dec : EqDecision Event.
Proof. solve_decision. Defined.

(** ** A simulated venue

    A deterministic exchange used to run the bots on concrete inputs: it
    keeps every order it has accepted, quotes one price, and can be told
    to fail upcoming ticker or placement calls. *)

Module Sim.

Record state : Type := mk {
  last_price : Qc;
  orders : list Order.t;
  next_id : Z;
  ticker_faults : list (option exn);
  create_faults : list (option exn)
}.

Definition is_open (o : Order.t) : bool :=
  bool_decide (Order.status o = "NEW"%string).

Definition ticker (symbol : string) (s : state) : res value * state :=
  match ticker_faults s with
  | Some e :: rest =>
      (Raise e, mk (last_price s) (orders s) (next_id s) rest (create_faults s))
  | None :: rest =>
      (Ok (VStr (last_price s)),
       mk (last_price s) (orders s) (next_id s) rest (create_faults s))
  | [] => (Ok (VStr (last_price s)), s)
  end.

Definition open_orders (symbol : option string) (s : state)
    : res (list Order.t) * state :=
  (Ok (filter (fun o => is_open o = true) (orders s)), s).

(** A limit or stop order rests at its price; a market order fills at once
    at the quoted price. *)
Definition accept (req : Request.t) (s : state) : Order.t :=
  if bool_decide (Request.type req = "MARKET"%string) then
    Order.mk (next_id s) (Request.side req) (VStr 0) "FILLED"
      (Some (VStr (Request.quantity req))) (Some (VStr (last_price s)))
  else
    Order.mk (next_id s) (Request.side req)
      (VStr (default 0 (Request.price req))) "NEW"
      (Some (VStr 0)) (Some (VStr 0)).

Definition create (req : Request.t) (s : state) : res Order.t * state :=
  match create_faults s with
  | Some e :: rest =>
      (Raise e, mk (last_price s) (orders s) (next_id s) (ticker_faults s) rest)
  | None :: rest =>
      (Ok (accept req s),
       mk (last_price s) (orders s ++ [accept req s]) (next_id s + 1)
          (ticker_faults s) rest)
  | [] =>
      (Ok (accept req s),
       mk (last_price s) (orders s ++ [accept req s]) (next_id s + 1)
          (ticker_faults s) [])
  end.

Definition find_order (order_id : Z) (s : state) : option Order.t :=
  List.find (fun o => bool_decide (Order.orderId o = order_id)) (orders s).

(** Error -2013: the order does not exist. *)
Definition get (symbol : string) (order_id : Z) (s : state)
    : res Order.t * state :=
  match find_order order_id s with
  | Some o => (Ok o, s)
  | None => (Raise (BinanceAPIException (-2013)), s)
  end.

Definition with_status (status : string) (o : Order.t) : Order.t :=
  Order.mk (Order.orderId o) (Order.side o) (Order.price o) status
    (Order.executedQty o) (Order.avgPrice o).

(** Only an open order can be cancelled; otherwise error -2011 (unknown
    order sent). *)
Definition cancel (symbol : string) (order_id : Z) (s : state)
    : res Order.t * state :=
  match find_order order_id s with
  | Some o =>
      if is_open o then
        (Ok (with_status "CANCELED" o),
         mk (last_price s)
            (map (fun o' => if bool_decide (Order.orderId o' = order_id)
                            then with_status "CANCELED" o' else o') (orders s))
            (next_id s) (ticker_faults s) (create_faults s))
      else (Raise (BinanceAPIException (-2011)), s)
  | None => (Raise (BinanceAPIException (-2011)), s)
  end.

Definition client : Client state := {|
  futures_symbol_ticker := ticker;
  futures_get_open_orders := open_orders;
  futures_create_order := create;
  futures_get_order := get;
  futures_cancel_order := cancel
|}.

(** A venue quoting [price] with no orders and no faults. *)
Definition quiet (price : Qc) : state := mk price [] 1 [] [].

End Sim.

(** ** Vocabulary of the properties *)

(** Result and event log of a run. *)
Definition result_of {S A} (run : res A * S * list Event) : res A := run.1.1.
Definition events_of {S A} (run : res A * S * list Event) : list Event := run.2.

Definition state_of {S A} (run : res A * S * list Event) : S := run.1.2.

(** The value returned by a run, or [d] if it raised. *)
Definition returned {A} (d : A) (r : res A) : A :=
  match r with
  | Ok a => a
  | Raise _ => d
  end.

(** The value taken by [grid_price] at index [i] of the loops of
    [create_grid_orders] and [monitor_and_rebalance_grid]. *)
Definition price_level (lower_price upper_price : Qc) (grid_levels i : Z) : Qc :=
  round (lower_price
         + float_of_int i
           * ((upper_price - lower_price) / float_of_int (grid_levels - 1))) 2.

(** The keyword arguments of a grid order. *)
Definition grid_order (symbol side : string) (quantity price : Qc)
    (position_side : string) : Request.t :=
  {| Request.symbol := symbol;
     Request.side := side;
     Request.type := "LIMIT";
     Request.quantity := quantity;
     Request.price := Some price;
     Request.stopPrice := None;
     Request.timeInForce := Some "GTC"%string;
     Request.positionSide := position_side;
     Request.reduceOnly := None |}.

(** Every event that a computation emits satisfies [P], whatever the
    state it starts from and however it ends. *)
Definition emits {S A} (P : Event -> Prop) (m : M S A) : Prop :=
  forall s, Forall P (events_of (m s)).

(** What the loop of [create_grid_orders] sends for index [i], if anything. *)
Definition grid_request (symbol : string) (lower_price grid_step current_price
    quantity : Qc) (position_side : string) (i : Z) : option Request.t :=
  let grid_price := round (lower_price + float_of_int i * grid_step) 2 in
  if bool_decide (grid_price < current_price)
  then Some (grid_order symbol "BUY" quantity grid_price position_side)
  else if bool_decide (current_price < grid_price)
  then Some (grid_order symbol "SELL" quantity grid_price position_side)
  else None.

(** Every placement request in the log satisfies [Q]. *)
Definition creates_with (Q : Request.t -> Prop) (ev : Event) : Prop :=
  match ev with
  | EvCreateOrder req _ => Q req
  | _ => True
  end.

(** Every sleep in the log satisfies [Q]. *)
Definition sleeps_with (Q : Qc -> Prop) (ev : Event) : Prop :=
  match ev with
  | EvSleep d => Q d
  | _ => True
  end.

(** The outcome recorded in an event is a success or a
    [BinanceAPIException]; for a ticker call, not the invalid-symbol code
    -1121 that [get_current_price] turns into a [ValueError]. *)
Definition api_outcome {A} (r : res A) : Prop :=
  match r with
  | Ok _ => True
  | Raise (BinanceAPIException _) => True
  | Raise _ => False
  end.

Definition transient (ev : Event) : Prop :=
  match ev with
  | EvTicker _ r => api_outcome r /\ r <> Raise (BinanceAPIException (-1121))
  | EvOpenOrders _ r => api_outcome r
  | EvCreateOrder _ r => api_outcome r
  | EvGetOrder _ _ r => api_outcome r
  | EvCancelOrder _ _ r => api_outcome r
  | EvSleep _ => True
  end.

(** What [get_current_price] raises when the ticker call raises [e]. *)
Definition price_error (e : exn) : exn :=
  match e with
  | BinanceAPIException code =>
      if bool_decide (code = (-1121)%Z) then ValueError
      else BinanceAPIException code
  | _ => e
  end.

(** A run continued by another: the second run's outcome after the
    events [t] of the first. *)
Definition after {S A} (t : list Event) (run : res A * S * list Event)
    : res A * S * list Event :=
  (result_of run, state_of run, t ++ events_of run).

(** The placements (by quantity) and the sleeps (by length) of a log, in
    order. *)
Definition timeline (evs : list Event) : list (Qc + Qc) :=
  omap (fun ev => match ev with
                  | EvCreateOrder req _ => Some (inl (Request.quantity req))
                  | EvSleep d => Some (inr d)
                  | _ => None
                  end) evs.

(** The keyword arguments of the two legs sent by [place_oco_order]. *)
Definition take_profit_leg (symbol side : string) (quantity take_profit_price : Qc)
    (position_side : string) : Request.t :=
  {| Request.symbol := upper symbol;
     Request.side := upper side;
     Request.type := "LIMIT";
     Request.quantity := quantity;
     Request.price := Some take_profit_price;
     Request.stopPrice := None;
     Request.timeInForce := Some "GTC"%string;
     Request.positionSide := upper position_side;
     Request.reduceOnly := Some true |}.

Definition stop_loss_leg (symbol side : string) (quantity stop_loss_price : Qc)
    (position_side : string) : Request.t :=
  {| Request.symbol := upper symbol;
     Request.side := upper side;
     Request.type := "STOP_MARKET";
     Request.quantity := quantity;
     Request.price := None;
     Request.stopPrice := Some stop_loss_price;
     Request.timeInForce := None;
     Request.positionSide := upper position_side;
     Request.reduceOnly := Some true |}.

(** The desired BUY and SELL prices that a pass of
    [monitor_and_rebalance_grid] computes at current price [cur]. *)
Definition expected_prices (lower_price upper_price : Qc) (levels : Z) (cur : Qc)
    : gset Qc * gset Qc :=
  GridBot.expected_prices_loop lower_price
    ((upper_price - lower_price) / float_of_int (levels - 1)) cur
    (seqZ 0 levels) ∅ ∅.

(** The prices for which the pass sends a replacement order of [side]. *)
Definition missing_prices (side : string) (lower_price upper_price : Qc)
    (levels : Z) (cur : Qc) (open_orders : list Order.t) : gset Qc :=
  (if bool_decide (side = "BUY"%string)
   then (expected_prices lower_price upper_price levels cur).1
   else (expected_prices lower_price upper_price levels cur).2)
  ∖ GridBot.open_prices side open_orders.

(** The exact, unrounded level at index [i]. *)
Definition exact_level (lower_price upper_price : Qc) (levels i : Z) : Qc :=
  lower_price
  + float_of_int i * ((upper_price - lower_price) / float_of_int (levels - 1)).

(** The checks of [validate_order_params] hold of a request as it is sent:
    the symbol passes validation, the side is one of the two the venue
    knows and the quantity is not below the minimum. *)
Definition checked_request (req : Request.t) : Prop :=
  Validator.validate_symbol (Request.symbol req) = true
  /\ Request.side req ∈ ["BUY"; "SELL"]%string
  /\ Config.MIN_QUANTITY <= Request.quantity req.

(** A computation that makes one placement call and returns its outcome. *)
Definition sends_once {S} (client : Client S) (req : Request.t) (s : S)
    (run : res Order.t * S * list Event) : Prop :=
  exists r s1,
    futures_create_order client req s = (r, s1)
    /\ run = (r, s1, [EvCreateOrder req r]).

(** The orders of [side] that the venue accepted, in the order of the log. *)
Definition placed_side (side : string) (evs : list Event) : list Order.t :=
  omap (fun ev => match ev with
                  | EvCreateOrder req (Ok o) =>
                      if bool_decide (Request.side req = side) then Some o
                      else None
                  | _ => None
                  end) evs.

(** An event that neither cancels nor queries an order. *)
Definition leaves_orders (ev : Event) : Prop :=
  match ev with
  | EvCancelOrder _ _ _ | EvGetOrder _ _ _ => False
  | _ => True
  end.

(** The keyword arguments of the slice that [execute_twap] builds from the
    price [current_price] it has just fetched. *)
Definition twap_request (symbol side : string) (order_size : Qc)
    (position_side : string) (use_limit : bool) (limit_offset_pct : Qc)
    (current_price : Qc) : Request.t :=
  if use_limit then
    {| Request.symbol := symbol;
       Request.side := side;
       Request.type := "LIMIT";
       Request.quantity := order_size;
       Request.price :=
         Some (round (if bool_decide (side = "BUY"%string)
                      then current_price
                           * (1 + limit_offset_pct / float_of_int 100)
                      else current_price
                           * (1 - limit_offset_pct / float_of_int 100)) 2);
       Request.stopPrice := None;
       Request.timeInForce := Some "GTC"%string;
       Request.positionSide := position_side;
       Request.reduceOnly := None |}
  else
    {| Request.symbol := symbol;
       Request.side := side;
       Request.type := "MARKET";
       Request.quantity := order_size;
       Request.price := None;
       Request.stopPrice := None;
       Request.timeInForce := None;
       Request.positionSide := position_side;
       Request.reduceOnly := None |}.

(** A log in which every placement request is [request price] for the
    price answered by the latest price fetch, that fetch having served no
    other placement; [latest] is the price available at the start. *)
Fixpoint priced_from (request : Qc -> Request.t) (latest : option Qc)
    (evs : list Event) : Prop :=
  match evs with
  | [] => True
  | EvTicker _ (Ok v) :: rest => priced_from request (Some (float v)) rest
  | EvTicker _ (Raise _) :: rest => priced_from request None rest
  | EvCreateOrder req _ :: rest =>
      match latest with
      | Some price => req = request price /\ priced_from request None rest
      | None => False
      end
  | _ :: rest => priced_from request latest rest
  end.

(** The price available after a log. *)
Definition latest_price (latest : option Qc) (evs : list Event) : option Qc :=
  foldl (fun latest ev =>
           match ev with
           | EvTicker _ (Ok v) => Some (float v)
           | EvTicker _ (Raise _) => None
           | EvCreateOrder _ _ => None
           | _ => latest
           end) latest evs.

(** The figures of the summary as [main] of [advanced/twap.py] prints
    them after a run: each one read with [summary.get(key, 0)]. *)
Definition twap_report (orders : list Order.t) : res (list Qc) :=
  TWAPBot.res_bind (TWAPBot.get_twap_summary orders)
    (fun summary =>
       Ok (map (fun key => default 0 (summary !! key))
             ["total_orders"; "total_quantity"; "average_price"; "min_price";
              "max_price"; "price_range_pct"]%string)).

(** What the handler of the status checks in [monitor_and_cancel_oco]
    makes of an exception raised during a pass: a [BinanceAPIException]
    is logged and the pass falls through to the sleep, anything else
    leaves the method. *)
Definition status_handler (e : exn) : res (option (option string)) :=
  match e with
  | BinanceAPIException _ => Ok None
  | _ => Raise e
  end.

(** A computation that never raises a [BinanceAPIException]. *)
Definition never_api {S A} (m : M S A) : Prop :=
  forall s code, result_of (m s) <> Raise (BinanceAPIException code).

(** A fetch of the price or of the open orders that failed with the
    venue's error [code]. *)
Definition fetch_failed (code : Z) (ev : Event) : Prop :=
  match ev with
  | EvTicker _ r => r = Raise (BinanceAPIException code)
  | EvOpenOrders _ r => r = Raise (BinanceAPIException code)
  | _ => False
  end.

(** A computation that raises a [BinanceAPIException] only as the error of
    a fetch, which is then the last event of its log. *)
Definition api_only_from_fetch {S A} (m : M S A) : Prop :=
  forall s code s' evs,
    m s = (Raise (BinanceAPIException code), s', evs) ->
    exists before ev, evs = before ++ [ev] /\ fetch_failed code ev.

(** ** Concrete venues and orders *)

(** A venue quoting 45000 whose second ticker call times out once. *)
Definition venue_with_one_timeout : Sim.state :=
  Sim.mk (float_of_int 45000) [] 1 [None; Some (BinanceAPIException (-1007))] [].

(** A venue quoting 45000 that refuses the second order it receives
    (error -2019, margin is insufficient). *)
Definition venue_refusing_second_order : Sim.state :=
  Sim.mk (float_of_int 45000) [] 1 [] [None; Some (BinanceAPIException (-2019))].

(** An order resting on the book: nothing executed yet. *)
Definition resting_order : Order.t :=
  Order.mk 1 "BUY" (VStr (float_of_int 44000)) "NEW" (Some (VStr 0))
    (Some (VStr 0)).

(** A pair whose take-profit leg (order 1) has filled and whose stop-loss
    leg (order 2) the venue has already expired. *)
Definition pair_with_expired_stop : Sim.state :=
  Sim.mk (float_of_int 46000)
    [Order.mk 1 "SELL" (VStr (float_of_int 46000)) "FILLED"
       (Some (VStr (float_of_Q (1 # 100)))) (Some (VStr (float_of_int 46000)));
     Order.mk 2 "SELL" (VStr 0) "EXPIRED" (Some (VStr 0)) (Some (VStr 0))]
    3 [] [].

(** A ledger of two filled slices of 0.02, at 45000 and at 45100. *)
Definition two_fills : list Order.t :=
  [Order.mk 1 "BUY" (VStr 0) "FILLED" (Some (VStr (float_of_Q (2 # 100))))
     (Some (VStr (float_of_int 45000)));
   Order.mk 2 "BUY" (VStr 0) "FILLED" (Some (VStr (float_of_Q (2 # 100))))
     (Some (VStr (float_of_int 45100)))].

(** A pair whose take-profit leg (order 1) has filled while its stop-loss
    leg (order 2) is still open. *)
Definition pair_with_open_stop : Sim.state :=
  Sim.mk (float_of_int 46000)
    [Order.mk 1 "SELL" (VStr (float_of_int 46000)) "FILLED"
       (Some (VStr (float_of_Q (1 # 100)))) (Some (VStr (float_of_int 46000)));
     Order.mk 2 "SELL" (VStr 0) "NEW" (Some (VStr 0)) (Some (VStr 0))]
    3 [] [].

(** A pair of which the venue has cancelled one leg and expired the
    other. *)
Definition pair_terminated : Sim.state :=
  Sim.mk (float_of_int 46000)
    [Order.mk 1 "SELL" (VStr (float_of_int 46000)) "CANCELED"
       (Some (VStr 0)) (Some (VStr 0));
     Order.mk 2 "SELL" (VStr 0) "EXPIRED" (Some (VStr 0)) (Some (VStr 0))]
    3 [] [].

(** * Properties *)

(** ** Rounding *)

Section RoundFacts.
Local Open Scope Q_scope.

Lemma round_half_even_inject_Z (n : Z) : round_half_even (inject_Z n) = n.
Proof.
  unfold round_half_even. rewrite Qfloor_Z.
  destruct (Qcompare_spec (inject_Z n - inject_Z n) (1 # 2)) as [He|Hl|Hg];
    [exfalso | reflexivity | exfalso];
    generalize dependent (inject_Z n); intros; lra.
Qed.

#[global] Instance round_half_even_proper : Proper (Qeq ==> eq) round_half_even.
Proof.
  intros q1 q2 Hq. unfold round_half_even.
  rewrite (Qfloor_comp _ _ Hq).
  assert (Hc : (q1 - inject_Z (Qfloor q2) ?= 1 # 2)
               = (q2 - inject_Z (Qfloor q2) ?= 1 # 2)).
  { apply Qcompare_comp; [rewrite Hq|]; reflexivity. }
  rewrite Hc. reflexivity.
Qed.

Lemma pow10_pos (n : nat) : 0 < pow10 n.
Proof.
  unfold pow10. change 0 with (inject_Z 0). rewrite <- Zlt_Qlt.
  apply Z.pow_pos_nonneg; lia.
Qed.

End RoundFacts.

Lemma this_round (x : Qc) (n : nat) :
  (this (round x n) == inject_Z (round_half_even (this x * pow10 n)) / pow10 n)%Q.
Proof. unfold round. apply Qred_correct. Qed.

(** Rounding an already rounded price changes nothing. *)
Lemma round_idempotent (x : Qc) (n : nat) : round (round x n) n = round x n.
Proof.
  apply Qc_is_canon. rewrite (this_round (round x n)).
  pose proof (pow10_pos n) as Hp.
  assert (H : (this (round x n) * pow10 n
               == inject_Z (round_half_even (this x * pow10 n)))%Q).
  { rewrite this_round. field. lra. }
  rewrite H, round_half_even_inject_Z. symmetry. apply this_round.
Qed.

(** ** Computations *)

Section MonadFacts.
Context {S : Type}.

Lemma bind_Ok {A B} (m : M S A) (k : A -> M S B) s a s1 t1 :
  m s = (Ok a, s1, t1) -> bind m k s = after t1 (k a s1).
Proof. intros H. unfold bind. rewrite H. by destruct (k a s1) as [[? ?] ?]. Qed.

Lemma after_nil {A} (run : res A * S * list Event) : after [] run = run.
Proof. by destruct run as [[? ?] ?]. Qed.

Lemma after_after {A} t1 t2 (run : res A * S * list Event) :
  after t1 (after t2 run) = after (t1 ++ t2) run.
Proof. unfold after. simpl. by rewrite (assoc_L (++)). Qed.

Lemma after_inv {A} t (run : res A * S * list Event) r s' evs :
  after t run = (r, s', evs) -> exists t2, run = (r, s', t2) /\ evs = t ++ t2.
Proof.
  destruct run as [[? ?] t2]. unfold after, result_of, state_of, events_of.
  simpl. intros [= -> -> <-]. by exists t2.
Qed.

Lemma after_eq {A} t (run : res A * S * list Event) r s' evs :
  run = (r, s', evs) -> after t run = (r, s', t ++ evs).
Proof. by intros ->. Qed.

Lemma bind_Raise {A B} (m : M S A) (k : A -> M S B) s e s1 t1 :
  m s = (Raise e, s1, t1) -> bind m k s = (Raise e, s1, t1).
Proof. intros H. unfold bind. by rewrite H. Qed.

Lemma bind_inv_Ok {A B} (m : M S A) (k : A -> M S B) s b s2 t :
  bind m k s = (Ok b, s2, t) ->
  exists a s1 t1 t2,
    m s = (Ok a, s1, t1) /\ k a s1 = (Ok b, s2, t2) /\ t = t1 ++ t2.
Proof.
  unfold bind. destruct (m s) as [[[a|e] s1] t1]; [|done].
  destruct (k a s1) as [[r s2'] t2] eqn:Hk. intros [= -> -> <-].
  by exists a, s1, t1, t2.
Qed.

Lemma bind_events {A B} (m : M S A) (k : A -> M S B) s :
  events_of (bind m k s)
  = events_of (m s)
    ++ match result_of (m s) with
       | Ok a => events_of (k a (m s).1.2)
       | Raise _ => []
       end.
Proof.
  unfold bind. destruct (m s) as [[[a|e] s1] t1]; simpl.
  - by destruct (k a s1) as [[? ?] ?].
  - by rewrite app_nil_r.
Qed.

Lemma try_except_api_events {A} (body : M S A) (handler : Z -> M S A) s :
  events_of (try_except_api body handler s)
  = events_of (body s)
    ++ match result_of (body s) with
       | Raise (BinanceAPIException code) => events_of (handler code (body s).1.2)
       | _ => []
       end.
Proof.
  unfold try_except_api. destruct (body s) as [[[a|[code| | |]] s1] t1]; simpl;
    rewrite ?app_nil_r; try done.
  by destruct (handler code s1) as [[? ?] ?].
Qed.

Lemma emits_ret {A} P (a : A) : emits P (ret (S:=S) a).
Proof. intros s. constructor. Qed.

Lemma emits_raise {A} P e : emits P (raise (S:=S) (A:=A) e).
Proof. intros s. constructor. Qed.

Lemma emits_lift_res {A} P (r : res A) : emits P (lift_res (S:=S) r).
Proof. intros s. constructor. Qed.

Lemma emits_bind {A B} P (m : M S A) (k : A -> M S B) :
  emits P m -> (forall a, emits P (k a)) -> emits P (bind m k).
Proof.
  intros Hm Hk s. rewrite bind_events. apply Forall_app. split; [apply Hm|].
  destruct (result_of (m s)); [apply Hk | constructor].
Qed.

Lemma emits_try_except_api {A} P (body : M S A) (handler : Z -> M S A) :
  emits P body -> (forall code, emits P (handler code)) ->
  emits P (try_except_api body handler).
Proof.
  intros Hb Hh s. rewrite try_except_api_events. apply Forall_app.
  split; [apply Hb|].
  destruct (result_of (body s)) as [|[]]; try constructor. apply Hh.
Qed.

Lemma emits_call {A} (P : Event -> Prop) (f : S -> res A * S) ev :
  (forall r, P (ev r)) -> emits P (call f ev).
Proof.
  intros H s. unfold call. destruct (f s). repeat constructor. apply H.
Qed.

Lemma emits_sleep (P : Event -> Prop) d : P (EvSleep d) -> emits P (sleep (S:=S) d).
Proof.
  intros H s. unfold sleep. case_bool_decide; repeat constructor. apply H.
Qed.

Lemma emits_if {A} P (b : bool) (m1 m2 : M S A) :
  emits P m1 -> emits P m2 -> emits P (if b then m1 else m2).
Proof. by destruct b. Qed.

End MonadFacts.

Lemma Forall_created (Q : Request.t -> Prop) (evs : list Event) :
  Forall (creates_with Q) evs -> Forall Q (created evs).
Proof.
  induction 1 as [|ev evs Hev _ IH]; [constructor|].
  unfold created in *. destruct ev; simpl; auto.
Qed.

Lemma Forall_slept (Q : Qc -> Prop) (evs : list Event) :
  Forall (sleeps_with Q) evs -> Forall Q (slept evs).
Proof.
  induction 1 as [|ev evs Hev _ IH]; [constructor|].
  unfold slept in *. destruct ev; simpl; auto.
Qed.

Lemma created_app (t1 t2 : list Event) : created (t1 ++ t2) = created t1 ++ created t2.
Proof. apply omap_app. Qed.

Lemma placed_app (t1 t2 : list Event) : placed (t1 ++ t2) = placed t1 ++ placed t2.
Proof. apply omap_app. Qed.

Lemma slept_app (t1 t2 : list Event) : slept (t1 ++ t2) = slept t1 ++ slept t2.
Proof. apply omap_app. Qed.

Lemma tickers_app (t1 t2 : list Event) : tickers (t1 ++ t2) = tickers t1 ++ tickers t2.
Proof. apply omap_app. Qed.

Lemma cancelled_app (t1 t2 : list Event) :
  cancelled (t1 ++ t2) = cancelled t1 ++ cancelled t2.
Proof. apply omap_app. Qed.

(** One step of a proof that a computation emits only events in [P]. *)
Ltac emits_step :=
  first
    [ apply emits_ret | apply emits_raise | apply emits_lift_res
    | apply emits_bind; [|intros ?]
    | apply emits_try_except_api; [|intros ?]
    | apply emits_call; intros ?
    | apply emits_sleep
    | apply emits_if ].

(** ** The grid controller *)

Section GridFacts.
Context {S : Type} (client : Client S).

Lemma get_current_price_emits P symbol :
  (forall sym r, P (EvTicker sym r)) ->
  emits P (BasicBot.get_current_price client symbol).
Proof.
  intros HP. unfold BasicBot.get_current_price.
  repeat emits_step; auto.
Qed.

Lemma get_open_orders_emits P symbol :
  (forall sym r, P (EvOpenOrders sym r)) ->
  emits P (BasicBot.get_open_orders client symbol).
Proof.
  intros HP. unfold BasicBot.get_open_orders.
  destruct symbol as [sym|]; [case_bool_decide|]; repeat emits_step; auto.
Qed.

Lemma create_grid_loop_emits symbol lower step cur qty pside range buys sells :
  emits (creates_with (fun req => Request.positionSide req = pside))
        (GridBot.create_grid_loop client symbol lower step cur qty pside
           range buys sells).
Proof.
  revert buys sells. induction range as [|i range IH]; intros buys sells; simpl.
  - emits_step.
  - repeat case_bool_decide; [| |apply IH];
      (emits_step; [|apply IH]); unfold BasicBot.create_order;
      repeat emits_step; done.
Qed.

Lemma replace_loop_emits symbol side qty prices :
  emits (creates_with (fun req => Request.positionSide req = "BOTH"%string))
        (GridBot.replace_loop client symbol side qty prices).
Proof.
  induction prices as [|price prices IH]; simpl.
  - emits_step.
  - emits_step; [|apply IH]. unfold BasicBot.create_order.
    repeat emits_step; done.
Qed.

Lemma rebalance_iteration_emits symbol lower_price upper_price levels qty interval :
  emits (creates_with (fun req => Request.positionSide req = "BOTH"%string))
        (GridBot.rebalance_iteration client symbol lower_price upper_price levels qty interval).
Proof.
  unfold GridBot.rebalance_iteration.
  emits_step; [by apply get_current_price_emits|].
  emits_step; [by apply get_open_orders_emits|].
  emits_step; [emits_step|].
  destruct (GridBot.expected_prices_loop _ _ _ _ _ _) as [eb es].
  emits_step; [apply replace_loop_emits|].
  emits_step; [apply replace_loop_emits|].
  by emits_step.
Qed.

Lemma rebalance_loop_emits symbol lower_price upper_price levels qty interval n :
  emits (creates_with (fun req => Request.positionSide req = "BOTH"%string))
        (GridBot.rebalance_loop client symbol lower_price upper_price levels qty
           interval n).
Proof.
  induction n as [|n IH]; cbn [GridBot.rebalance_loop].
  - apply emits_ret.
  - apply emits_bind; [apply rebalance_iteration_emits | intros _; apply IH].
Qed.

Lemma create_grid_orders_emits symbol lower_price upper_price levels qty pside :
  emits (creates_with (fun req => Request.positionSide req = upper pside))
        (GridBot.create_grid_orders client symbol lower_price upper_price levels
           qty pside).
Proof.
  unfold GridBot.create_grid_orders.
  repeat (apply emits_if; [apply emits_raise|]).
  emits_step; [emits_step|].
  emits_step; [by apply get_current_price_emits|].
  apply create_grid_loop_emits.
Qed.

(** C10. Every replacement order sent by [monitor_and_rebalance_grid]
    carries [positionSide='BOTH'], for every input and every behaviour of
    the venue, whereas every order sent by [create_grid_orders] carries
    the (upper-cased) [position_side] it was called with. *)
Theorem rebalance_position_side_both symbol lower_price upper_price levels qty
    interval max_iterations s :
  Forall (fun req => Request.positionSide req = "BOTH"%string)
    (created (events_of
       (GridBot.monitor_and_rebalance_grid client symbol lower_price
          upper_price levels qty interval max_iterations s)))
  /\ forall position_side s',
       Forall (fun req => Request.positionSide req = upper position_side)
         (created (events_of
            (GridBot.create_grid_orders client symbol lower_price upper_price
               levels qty position_side s'))).
Proof.
  split.
  - apply Forall_created, rebalance_loop_emits.
  - intros position_side s'. apply Forall_created, create_grid_orders_emits.
Qed.

End GridFacts.

Section CreateGridFacts.
Context {S : Type} (client : Client S).

Lemma sleep_tenth (s : S) :
  sleep (float_of_Q (1 # 10)) s = (Ok tt, s, [EvSleep (float_of_Q (1 # 10))]).
Proof. reflexivity. Qed.

(** A guarded placement sends exactly its request, whether or not the
    venue accepts it. *)
Lemma place_attempt_created {A} req (f : Order.t -> A) (fallback : A) s r s1 t1 :
  try_except_api
    (order <- BasicBot.create_order client req ;;
     _ <- sleep (float_of_Q (1 # 10)) ;;
     ret (f order))
    (fun _ => ret fallback) s = (r, s1, t1) ->
  created t1 = [req].
Proof.
  unfold try_except_api, bind, BasicBot.create_order, call.
  destruct (futures_create_order client req s) as [[o|[code| | |]] s0];
    by intros [= _ _ <-].
Qed.

Lemma create_grid_loop_created symbol lower_price step cur qty pside range
    buys sells s r s' evs :
  GridBot.create_grid_loop client symbol lower_price step cur qty pside range
    buys sells s = (Ok r, s', evs) ->
  created evs = omap (grid_request symbol lower_price step cur qty pside) range.
Proof.
  revert buys sells s r s' evs.
  induction range as [|i range IH]; intros buys sells s r s' evs Hrun.
  - by injection Hrun as _ _ <-.
  - cbn [GridBot.create_grid_loop omap list_omap] in *.
    unfold grid_request at 1.
    repeat case_bool_decide.
    + apply bind_inv_Ok in Hrun as (a & s1 & t1 & t2 & Hat & Hrest & ->).
      apply place_attempt_created in Hat.
      by rewrite created_app, (IH _ _ _ _ _ _ Hrest), Hat.
    + apply bind_inv_Ok in Hrun as (a & s1 & t1 & t2 & Hat & Hrest & ->).
      apply place_attempt_created in Hat.
      by rewrite created_app, (IH _ _ _ _ _ _ Hrest), Hat.
    + by apply IH in Hrun.
Qed.

Lemma created_nil_of_emits {A} (m : M S A) s :
  emits (creates_with (fun _ => False)) m -> created (events_of (m s)) = [].
Proof.
  intros Hm. specialize (Hm s). apply Forall_created in Hm.
  destruct (created (events_of (m s))); [done | by inversion Hm].
Qed.

Lemma get_current_price_created symbol s :
  created (events_of (BasicBot.get_current_price client symbol s)) = [].
Proof. by apply created_nil_of_emits, get_current_price_emits. Qed.

Lemma get_open_orders_created symbol s :
  created (events_of (BasicBot.get_open_orders client symbol s)) = [].
Proof. by apply created_nil_of_emits, get_open_orders_emits. Qed.

Lemma float_of_int_nonzero (n : Z) : n <> 0%Z -> float_of_int n <> 0.
Proof.
  unfold float_of_int. intros Hn H. apply Hn, Z2Qc_inj. by rewrite H, Z2Qc_inj_0.
Qed.

Lemma truediv_nonzero (x y : Qc) : y <> 0 -> truediv x y = Ok (x / y).
Proof. intros Hy. unfold truediv. by case_decide. Qed.

(** What a completed [create_grid_orders] has sent. *)
Lemma create_grid_orders_created symbol lower_price upper_price levels qty pside
    s cur s1 t1 orders s' evs :
  BasicBot.get_current_price client (upper symbol) s = (Ok cur, s1, t1) ->
  GridBot.create_grid_orders client symbol lower_price upper_price levels qty
    pside s = (Ok orders, s', evs) ->
  (2 <= levels)%Z
  /\ created evs
     = omap (grid_request (upper symbol) lower_price
               ((upper_price - lower_price) / float_of_int (levels - 1))
               cur qty (upper pside))
            (seqZ 0 levels).
Proof.
  intros Hprice Hrun. unfold GridBot.create_grid_orders in Hrun.
  case_bool_decide; [done|]. case_bool_decide as Hlv; [done|].
  destruct (BasicBot.validate_order_params _ _ _ _); [|done].
  split; [lia|]. cbn [negb] in Hrun.
  rewrite truediv_nonzero in Hrun by (apply float_of_int_nonzero; lia).
  rewrite (bind_Ok _ _ s _ s [] eq_refl) in Hrun.
  rewrite (bind_Ok _ _ _ _ _ _ Hprice) in Hrun.
  destruct (GridBot.create_grid_loop _ _ _ _ _ _ _ _ _ _ _) as [[r sx] tx] eqn:Hloop.
  unfold after, result_of, state_of, events_of in Hrun. simpl in Hrun.
  injection Hrun as -> -> <-.
  apply create_grid_loop_created in Hloop.
  pose proof (get_current_price_created (upper symbol) s) as Ht1.
  rewrite Hprice in Ht1. simpl in Ht1.
  by rewrite !created_app, Ht1, Hloop.
Qed.

End CreateGridFacts.

(** The loop of [monitor_and_rebalance_grid] collects the grid levels
    strictly below and strictly above the current price. *)
Lemma expected_prices_loop_spec lower_price step cur range eb es :
  GridBot.expected_prices_loop lower_price step cur range eb es
  = (eb ∪ list_to_set
            (filter (fun p => p < cur)
               (map (fun i => round (lower_price + float_of_int i * step) 2) range)),
     es ∪ list_to_set
            (filter (fun p => cur < p)
               (map (fun i => round (lower_price + float_of_int i * step) 2) range))).
Proof.
  revert eb es. induction range as [|i range IH]; intros eb es.
  - simpl. by rewrite !(right_id_L ∅ (∪)).
  - cbn [GridBot.expected_prices_loop map].
    set (p := round (lower_price + float_of_int i * step) 2).
    assert (Hasym : p < cur -> cur < p -> False).
    { intros H1 H2. by apply (Qclt_not_le _ _ H1), Qclt_le_weak. }
    rewrite !filter_cons.
    repeat case_bool_decide; repeat case_decide; try done; try tauto;
      rewrite IH; cbn [list_to_set foldr];
      by rewrite ?(assoc_L (∪)).
Qed.

(** Equality of two concrete rationals, by evaluation. *)
Ltac qc_eq := apply Qc_is_canon; vm_compute; reflexivity.

(** Decide every comparison of concrete rationals in the goal. *)
Ltac qc_decide :=
  repeat match goal with
  | |- context [bool_decide ?P] =>
      first [ rewrite (bool_decide_true P) by (vm_compute; reflexivity)
            | rewrite (bool_decide_false P)
                by (vm_compute; let H := fresh in intros H; discriminate H) ]
  end.

Section CreateGridClaim.
Context {S : Type} (client : Client S).

(** C1. When [create_grid_orders] runs to completion with current price
    [cur], it has sent a BUY limit order for every grid level strictly
    below [cur], a SELL limit order for every level strictly above, and
    nothing else: every order it sent is one of those, so no order is
    priced at [cur].  For lower=44000, upper=46000, levels=5 and
    cur=45000 the orders sent are BUY 44000, BUY 44500, SELL 45500 and
    SELL 46000, and the sets of desired prices that reconciliation
    computes are {44000, 44500} and {45500, 46000}; level 45000 is in
    neither. *)
Theorem create_grid_orders_sides symbol lower_price upper_price levels qty pside
    s cur s1 t1 orders s' evs :
  BasicBot.get_current_price client (upper symbol) s = (Ok cur, s1, t1) ->
  GridBot.create_grid_orders client symbol lower_price upper_price levels qty
    pside s = (Ok orders, s', evs) ->
  let level := price_level lower_price upper_price levels in
  let order side i := grid_order (upper symbol) side qty (level i) (upper pside) in
  (forall i, (0 <= i < levels)%Z -> level i < cur ->
     order "BUY"%string i ∈ created evs)
  /\ (forall i, (0 <= i < levels)%Z -> cur < level i ->
        order "SELL"%string i ∈ created evs)
  /\ (forall req, req ∈ created evs ->
        exists i, (0 <= i < levels)%Z
          /\ (level i < cur /\ req = order "BUY"%string i
              \/ cur < level i /\ req = order "SELL"%string i))
  /\ (forall req, req ∈ created evs -> Request.price req <> Some cur)
  /\ (lower_price = float_of_int 44000 -> upper_price = float_of_int 46000 ->
      levels = 5%Z -> cur = float_of_int 45000 ->
      created evs = [order "BUY"%string 0%Z; order "BUY"%string 1%Z;
                     order "SELL"%string 3%Z; order "SELL"%string 4%Z]
      /\ level 0%Z = float_of_int 44000 /\ level 1%Z = float_of_int 44500
      /\ level 2%Z = cur
      /\ level 3%Z = float_of_int 45500 /\ level 4%Z = float_of_int 46000
      /\ GridBot.expected_prices_loop lower_price
           ((upper_price - lower_price) / float_of_int (levels - 1)) cur
           (seqZ 0 levels) ∅ ∅
         = ({[float_of_int 44000; float_of_int 44500]},
            {[float_of_int 45500; float_of_int 46000]})).
Proof.
  intros Hprice Hrun level order.
  destruct (create_grid_orders_created client _ _ _ _ _ _ _ _ _ _ _ _ _
              Hprice Hrun) as [Hlv Hc].
  assert (Hin : forall req, req ∈ created evs <->
            exists i, (0 <= i < levels)%Z
              /\ (level i < cur /\ req = order "BUY"%string i
                  \/ cur < level i /\ req = order "SELL"%string i)).
  { intros req. rewrite Hc, list_elem_of_omap. split.
    - intros (i & Hi & Hreq). apply elem_of_seqZ in Hi. exists i.
      split; [lia|]. unfold grid_request in Hreq.
      repeat case_bool_decide; simplify_eq; auto.
    - intros (i & Hi & Hreq). exists i. split; [apply elem_of_seqZ; lia|].
      unfold grid_request. fold (level i).
      destruct Hreq as [[Hlt ->]|[Hgt ->]].
      + by rewrite bool_decide_true.
      + rewrite bool_decide_false, bool_decide_true; [done..|].
        intros Hlt. by apply (Qclt_not_le _ _ Hgt), Qclt_le_weak. }
  split_and!.
  - intros i Hi Hlt. apply Hin. eauto.
  - intros i Hi Hgt. apply Hin. eauto.
  - intros req Hreq. by apply Hin.
  - intros req Hreq Heq. apply Hin in Hreq as (i & _ & [[Hlt ->]|[Hgt ->]]);
      simpl in Heq; injection Heq as Heq; rewrite Heq in *;
      by eapply Qclt_not_eq.
  - intros -> -> -> ->. rewrite Hc. split_and!.
    + change (seqZ 0 5) with [0; 1; 2; 3; 4]%Z. cbn [omap list_omap].
      unfold grid_request, order, level, price_level. by qc_decide.
    + qc_eq.
    + qc_eq.
    + qc_eq.
    + qc_eq.
    + qc_eq.
    + rewrite expected_prices_loop_spec.
      change (seqZ 0 5) with [0; 1; 2; 3; 4]%Z. cbn [map].
      rewrite !filter_cons, filter_nil.
      repeat match goal with
      | |- context [decide ?P] =>
          first [ rewrite (decide_True (P:=P)) by (vm_compute; reflexivity)
                | rewrite (decide_False (P:=P))
                    by (vm_compute; let H := fresh in intros H; discriminate H) ]
      end.
      f_equal.
      * replace (round _ 2) with (float_of_int 44000) by qc_eq.
        replace (round _ 2) with (float_of_int 44500) by qc_eq. set_solver.
      * replace (round _ 2) with (float_of_int 45500) by qc_eq.
        replace (round _ 2) with (float_of_int 46000) by qc_eq. set_solver.
Qed.

End CreateGridClaim.

(** The plan of the scenario on the simulated venue quoting 45000: two BUY
    orders, then two SELL orders. *)
Lemma create_grid_orders_sides_witness :
  map (fun req => (Request.side req, this (default 0 (Request.price req))))
    (created (events_of
       (GridBot.create_grid_orders Sim.client "BTCUSDT" (float_of_int 44000)
          (float_of_int 46000) 5 (float_of_Q (1 # 100)) "BOTH"
          (Sim.quiet (float_of_int 45000)))))
  = [("BUY"%string, 44000 # 1); ("BUY"%string, 44500 # 1);
     ("SELL"%string, 45500 # 1); ("SELL"%string, 46000 # 1)]%Q.
Proof.
  set (s0 := Sim.quiet (float_of_int 45000)).
  set (run := GridBot.create_grid_orders Sim.client "BTCUSDT" (float_of_int 44000)
                (float_of_int 46000) 5 (float_of_Q (1 # 100)) "BOTH" s0).
  assert (Hprice : BasicBot.get_current_price Sim.client (upper "BTCUSDT") s0
                   = (Ok (float_of_int 45000), s0,
                      [EvTicker "BTCUSDT" (Ok (VStr (float_of_int 45000)))]))
    by (vm_compute; reflexivity).
  assert (Hrun : run = (Ok (returned ([], []) (result_of run)), state_of run,
                        events_of run))
    by (vm_compute; reflexivity).
  destruct (create_grid_orders_sides Sim.client _ _ _ _ _ _ _ _ _ _ _ _ _
              Hprice Hrun) as (_ & _ & _ & _ & Hscenario).
  destruct (Hscenario eq_refl eq_refl eq_refl eq_refl) as [Hsent _].
  rewrite Hsent. vm_compute. reflexivity.
Defined.

Section RebalanceFetchFacts.
Context {S : Type} (client : Client S).

(** The first [k] passes of the loop, then the remaining ones. *)
Lemma rebalance_loop_split symbol lower_price upper_price levels qty interval
    (k m : nat) s sk tk :
  GridBot.rebalance_loop client symbol lower_price upper_price levels qty
    interval k s = (Ok tt, sk, tk) ->
  GridBot.rebalance_loop client symbol lower_price upper_price levels qty
    interval (k + m) s
  = (let run := GridBot.rebalance_loop client symbol lower_price upper_price
                  levels qty interval m sk in
     (result_of run, state_of run, tk ++ events_of run)).
Proof.
  revert s tk. induction k as [|k IH]; intros s tk Hk.
  - injection Hk as <- <-. simpl.
    by destruct (GridBot.rebalance_loop _ _ _ _ _ _ _ _ _) as [[? ?] ?].
  - cbn [GridBot.rebalance_loop Nat.add] in *.
    apply bind_inv_Ok in Hk as ([] & s1 & t1 & t2 & Hit & Hrest & ->).
    rewrite (bind_Ok _ _ _ _ _ _ Hit), (IH _ _ Hrest).
    unfold after, result_of, state_of, events_of. simpl.
    by rewrite (assoc_L (++)).
Qed.

(** A pass whose price fetch or open-orders fetch raises ends there. *)
Lemma rebalance_iteration_fetch_raises symbol lower_price upper_price levels qty
    interval s e s' t' :
  (BasicBot.get_current_price client symbol s = (Raise e, s', t')
   \/ exists cur s1 t1 t2,
        BasicBot.get_current_price client symbol s = (Ok cur, s1, t1)
        /\ BasicBot.get_open_orders client (Some symbol) s1 = (Raise e, s', t2)
        /\ t' = t1 ++ t2) ->
  GridBot.rebalance_iteration client symbol lower_price upper_price levels qty
    interval s = (Raise e, s', t').
Proof.
  unfold GridBot.rebalance_iteration.
  intros [Hp|(cur & s1 & t1 & t2 & Hp & Ho & ->)].
  - by rewrite (bind_Raise _ _ _ _ _ _ Hp).
  - rewrite (bind_Ok _ _ _ _ _ _ Hp), (bind_Raise _ _ _ _ _ _ Ho).
    reflexivity.
Qed.

End RebalanceFetchFacts.

(** ** The price fetch *)

Section PriceFacts.
Context {S : Type} (client : Client S).

Lemma get_current_price_cases symbol s :
  (Validator.validate_symbol symbol = false
   /\ BasicBot.get_current_price client symbol s = (Raise ValueError, s, []))
  \/ (Validator.validate_symbol symbol = true
      /\ exists r s1,
           futures_symbol_ticker client (upper symbol) s = (r, s1)
           /\ BasicBot.get_current_price client symbol s
              = (match r with
                 | Ok v => Ok (float v)
                 | Raise e => Raise (price_error e)
                 end, s1, [EvTicker (upper symbol) r])).
Proof.
  unfold BasicBot.get_current_price, try_except_api, bind, call, raise, ret.
  destruct (Validator.validate_symbol symbol); [right|left]; simpl; [|done].
  split; [done|].
  destruct (futures_symbol_ticker client (upper symbol) s) as [r s1].
  exists r, s1. split; [done|].
  destruct r as [v|[code| | |]]; simpl; try done.
  by case_bool_decide.
Qed.

Lemma upper_char_fixed (c : ascii) : is_lower c = false -> upper_char c = c.
Proof. unfold upper_char. by intros ->. Qed.

Lemma upper_fixed (symbol : string) :
  existsb_str is_lower symbol = false -> upper symbol = symbol.
Proof.
  induction symbol as [|c r IH]; simpl; [done|].
  intros [Hc Hr]%orb_false_iff. by rewrite upper_char_fixed, IH.
Qed.

(** A symbol that passes validation is already in upper case. *)
Lemma validate_symbol_upper (symbol : string) :
  Validator.validate_symbol symbol = true -> upper symbol = symbol.
Proof.
  unfold Validator.validate_symbol, isupper. case_bool_decide; [done|].
  destruct (existsb_str is_lower symbol) eqn:Hl; simpl; [done|].
  intros _. by apply upper_fixed.
Qed.

Lemma validate_order_params_symbol symbol side quantity price :
  BasicBot.validate_order_params symbol side quantity price = true ->
  Validator.validate_symbol symbol = true.
Proof.
  unfold BasicBot.validate_order_params.
  by destruct (Validator.validate_symbol symbol).
Qed.

End PriceFacts.

(** ** The TWAP scheduler *)

Section TwapFacts.
Context {S : Type} (client : Client S).

Lemma sleep_cases (d : Qc) (s : S) :
  (d < 0 /\ sleep d s = (Raise ValueError, s, []))
  \/ (~ d < 0 /\ sleep d s = (Ok tt, s, [EvSleep d])).
Proof. unfold sleep. case_bool_decide; auto. Qed.

Lemma twap_loop_cons symbol side size interval num pside use_limit pct i range
    acc s :
  Validator.validate_symbol symbol = true ->
  let run := TWAPBot.twap_loop client symbol side size interval num pside
               use_limit pct (i :: range) acc s in
  (exists v req o s1,
     let t1 := [EvTicker (upper symbol) (Ok v); EvCreateOrder req (Ok o)] in
     Request.quantity req = size
     /\ ((i < num - 1)%Z /\ interval < 0 /\ run = (Raise ValueError, s1, t1)
         \/ run = after (t1 ++ (if bool_decide (i < num - 1)%Z
                                then [EvSleep interval] else []))
                    (TWAPBot.twap_loop client symbol side size interval num
                       pside use_limit pct range (acc ++ [o]) s1)))
  \/ (exists t1 s1,
        placed t1 = [] /\ slept t1 = [] /\ length (tickers t1) = 1%nat
        /\ Forall (creates_with (fun req => Request.quantity req = size)) t1
        /\ run = after t1 (TWAPBot.twap_loop client symbol side size interval
                             num pside use_limit pct range acc s1))
  \/ (exists e t1 s1, run = (Raise e, s1, t1) /\ ~ Forall transient t1).
Proof.
  intros Hsym run. subst run. cbn [TWAPBot.twap_loop].
  set (attempt := try_except_api _ _).
  destruct (get_current_price_cases client symbol s)
    as [[Hv _]|(_ & r & s1 & Htick & Hprice)]; [congruence|].
  destruct (attempt s) as [[ra sa] ta] eqn:Hatt.
  pose proof Hatt as Hshape.
  unfold attempt, try_except_api, bind in Hshape. rewrite Hprice in Hshape.
  clearbody attempt.
  destruct r as [v|e].
  - (* the ticker answered *)
    match type of Hshape with
    | context [if use_limit then ?a else ?b] =>
        assert (exists req,
                  (if use_limit then a else b) = BasicBot.create_order client req
                  /\ Request.quantity req = size)
          as (req & Hreq & Hq)
          by (destruct use_limit; eexists; split; reflexivity)
    end.
    rewrite Hreq in Hshape. clear Hreq.
    unfold BasicBot.create_order, call in Hshape.
    destruct (futures_create_order client req s1) as [[o|e] s2].
    + (* the venue accepted the order *)
      injection Hshape as <- <- <-.
      left. exists v, req, o, s2. split; [done|].
      rewrite (bind_Ok _ _ _ _ _ _ Hatt). 
      case_bool_decide as Hlast.
      * destruct (sleep_cases interval s2) as [[Hneg Hs]|[Hpos Hs]].
        -- left. split_and!; [done..|].
           rewrite (bind_Raise _ _ _ _ _ _ Hs). reflexivity.
        -- right. rewrite (bind_Ok _ _ _ _ _ _ Hs), after_after.
           f_equal.
      * right. rewrite (bind_Ok _ _ s2 tt s2 [] eq_refl), after_nil. f_equal.
    + (* the venue refused the order *)
      destruct e as [code| | |]; injection Hshape as <- <- Hta;
        simpl in Hta; subst ta.
      * right; left. eexists _, s2. split_and!; [| | | |by rewrite (bind_Ok _ _ _ _ _ _ Hatt)];
          [done..|]. by repeat constructor.
      * right; right. eexists _, _, _. split; [by apply bind_Raise|].
        intros H. inversion H as [|?? _ H2]. by inversion H2.
      * right; right. eexists _, _, _. split; [by apply bind_Raise|].
        intros H. inversion H as [|?? _ H2]. by inversion H2.
      * right; right. eexists _, _, _. split; [by apply bind_Raise|].
        intros H. inversion H as [|?? _ H2]. by inversion H2.
  - (* the ticker raised *)
    destruct e as [code| | |]; simpl in Hshape.
    + case_bool_decide as Hcode; injection Hshape as <- <- Hta;
        simpl in Hta; subst ta.
      * right; right. eexists _, _, _. split; [by apply bind_Raise|].
        intros H. apply Forall_inv in H. destruct H as [_ H1]. by subst.
      * right; left. eexists _, s1.
        split_and!; [| | | |by rewrite (bind_Ok _ _ _ _ _ _ Hatt)];
          [done..|]. by repeat constructor.
    + injection Hshape as <- <- <-.
      right; right. eexists _, _, _. split; [by apply bind_Raise|].
      intros H. apply Forall_inv in H. by destruct H as [H1 _].
    + injection Hshape as <- <- <-.
      right; right. eexists _, _, _. split; [by apply bind_Raise|].
      intros H. apply Forall_inv in H. by destruct H as [H1 _].
    + injection Hshape as <- <- <-.
      right; right. eexists _, _, _. split; [by apply bind_Raise|].
      intros H. apply Forall_inv in H. by destruct H as [H1 _].
Qed.

Lemma timeline_app (t1 t2 : list Event) :
  timeline (t1 ++ t2) = timeline t1 ++ timeline t2.
Proof. apply omap_app. Qed.

(** The ledger is what was there plus the accepted placements, in order. *)
Lemma twap_loop_ledger symbol side size interval num pside use_limit pct range
    acc s ledger s' evs :
  Validator.validate_symbol symbol = true ->
  TWAPBot.twap_loop client symbol side size interval num pside use_limit pct
    range acc s = (Ok ledger, s', evs) ->
  ledger = acc ++ placed evs.
Proof.
  intros Hsym. revert acc s evs.
  induction range as [|i range IH]; intros acc s evs Hrun.
  - injection Hrun as <- _ <-. by rewrite app_nil_r.
  - destruct (twap_loop_cons symbol side size interval num pside use_limit pct
                i range acc s Hsym)
      as [(v & req & o & s1 & Hq & [(_ & _ & Hr)|Hr])
         |[(t1 & s1 & Hp & _ & _ & _ & Hr)|(e & t1 & s1 & Hr & _)]];
      rewrite Hr in Hrun; try done.
    + apply after_inv in Hrun as (t2 & Hrest & ->). apply IH in Hrest as ->.
      rewrite !placed_app. case_bool_decide; simpl; by rewrite <- (assoc_L (++)).
    + apply after_inv in Hrun as (t2 & Hrest & ->). apply IH in Hrest as ->.
      by rewrite placed_app, Hp.
Qed.

(** Failures that are [BinanceAPIException]s never stop the loop: every
    index is attempted. *)
Lemma twap_loop_transient symbol side size interval num pside use_limit pct
    range acc s r s' evs :
  Validator.validate_symbol symbol = true ->
  ~ interval < 0 ->
  TWAPBot.twap_loop client symbol side size interval num pside use_limit pct
    range acc s = (r, s', evs) ->
  Forall transient evs ->
  (exists ledger, r = Ok ledger) /\ length (tickers evs) = length range.
Proof.
  intros Hsym Hint. revert acc s evs.
  induction range as [|i range IH]; intros acc s evs Hrun Hev.
  - injection Hrun as <- _ <-. eauto.
  - destruct (twap_loop_cons symbol side size interval num pside use_limit pct
                i range acc s Hsym)
      as [(v & req & o & s1 & Hq & [(_ & Hneg & _)|Hr])
         |[(t1 & s1 & _ & _ & Ht & _ & Hr)|(e & t1 & s1 & Hr & Hnt)]];
      try done; rewrite Hr in Hrun.
    + apply after_inv in Hrun as (t2 & Hrest & ->).
      apply Forall_app in Hev as [_ Hev].
      destruct (IH _ _ _ Hrest Hev) as [Hok Hlen]. split; [done|].
      rewrite !tickers_app, !length_app, Hlen. by case_bool_decide.
    + apply after_inv in Hrun as (t2 & Hrest & ->).
      apply Forall_app in Hev as [_ Hev].
      destruct (IH _ _ _ Hrest Hev) as [Hok Hlen]. split; [done|].
      by rewrite tickers_app, length_app, Hlen, Ht.
    + injection Hrun as _ _ <-. done.
Qed.

(** A ledger never has more entries than there were indices to attempt;
    when it has as many, every index placed its order and slept (except
    the last one) for the interval. *)
Lemma twap_loop_timeline symbol side size interval num pside use_limit pct range
    acc s ledger s' evs :
  Validator.validate_symbol symbol = true ->
  TWAPBot.twap_loop client symbol side size interval num pside use_limit pct
    range acc s = (Ok ledger, s', evs) ->
  (length ledger <= length acc + length range)%nat
  /\ (length ledger = (length acc + length range)%nat ->
      timeline evs
      = flat_map (fun i => inl size :: (if bool_decide (i < num - 1)%Z
                                        then [inr interval] else [])) range).
Proof.
  intros Hsym. revert acc s evs.
  induction range as [|i range IH]; intros acc s evs Hrun.
  - injection Hrun as <- _ <-. simpl. split; [lia|done].
  - destruct (twap_loop_cons symbol side size interval num pside use_limit pct
                i range acc s Hsym)
      as [(v & req & o & s1 & Hq & [(_ & _ & Hr)|Hr])
         |[(t1 & s1 & _ & _ & _ & _ & Hr)|(e & t1 & s1 & Hr & _)]];
      rewrite Hr in Hrun; try done.
    + apply after_inv in Hrun as (t2 & Hrest & ->).
      destruct (IH _ _ _ Hrest) as [Hle Heq].
      rewrite length_app in Hle, Heq. simpl in *. split; [lia|].
      intros Hfull. rewrite !timeline_app, Heq by lia.
      cbn [timeline omap list_omap]. rewrite Hq.
      by destruct (bool_decide (i < num - 1)%Z).
    + apply after_inv in Hrun as (t2 & Hrest & ->).
      destruct (IH _ _ _ Hrest) as [Hle Heq]. simpl. split; lia.
Qed.

Lemma twap_loop_emits symbol side size interval num pside use_limit pct range
    acc :
  emits (fun ev => creates_with (fun req => Request.quantity req = size) ev
                   /\ sleeps_with (fun d => d = interval) ev)
        (TWAPBot.twap_loop client symbol side size interval num pside
           use_limit pct range acc).
Proof.
  revert acc. induction range as [|i range IH]; intros acc;
    cbn [TWAPBot.twap_loop].
  - apply emits_ret.
  - apply emits_bind.
    + apply emits_try_except_api; [|intros; apply emits_ret].
      apply emits_bind; [by apply get_current_price_emits|intros cur].
      apply emits_bind; [|intros; apply emits_ret].
      destruct use_limit; unfold BasicBot.create_order;
        by apply emits_call.
    + intros [order|]; [|apply IH].
      apply emits_bind; [|intros; apply IH].
      case_bool_decide; [by apply emits_sleep | apply emits_ret].
Qed.

End TwapFacts.

Section TwapClaims.
Context {S : Type} (client : Client S).

Lemma float_of_int_pos (n : Z) : (0 < n)%Z -> 0 < float_of_int n.
Proof. intros Hn. unfold float_of_int. by rewrite <- Z2Qc_inj_0, <- Z2Qc_inj_lt. Qed.

Lemma interval_nonneg (dur num : Z) :
  (1 <= dur)%Z -> (1 <= num)%Z ->
  ~ float_of_int (dur * 60) / float_of_int num < 0.
Proof.
  intros Hd Hn. apply Qcle_not_lt, Qclt_le_weak.
  apply Qcmult_pos_pos; [|apply Qcinv_pos]; apply float_of_int_pos; lia.
Qed.

(** After its checks, [execute_twap] is its loop: the summary it computes
    for the log cannot raise. *)
Lemma execute_twap_unfold symbol side total dur num pside use_limit pct s :
  BasicBot.validate_order_params symbol side total None = true ->
  (1 <= num)%Z -> (1 <= dur)%Z ->
  TWAPBot.execute_twap client symbol side total dur num pside use_limit pct s
  = TWAPBot.twap_loop client (upper symbol) (upper side)
      (total / float_of_int num) (float_of_int (dur * 60) / float_of_int num)
      num (upper pside) use_limit pct (seqZ 0 num) [] s.
Proof.
  intros Hv Hn Hd. unfold TWAPBot.execute_twap. rewrite Hv. cbn [negb].
  rewrite !bool_decide_false by lia.
  rewrite !truediv_nonzero by (apply float_of_int_nonzero; lia).
  rewrite (bind_Ok _ _ s _ s [] eq_refl), after_nil.
  rewrite (bind_Ok _ _ s _ s [] eq_refl), after_nil.
  unfold bind.
  destruct (TWAPBot.twap_loop _ _ _ _ _ _ _ _ _ _ _ s) as [[[ledger|e] s1] t1];
    [|done].
  case_bool_decide as Hpos.
  - rewrite truediv_nonzero; [simpl; by rewrite app_nil_r|].
    intros Hz. rewrite Hz in Hpos. by apply (Qclt_not_eq _ _ Hpos).
  - simpl. by rewrite app_nil_r.
Qed.

Lemma execute_twap_invalid symbol side total dur num pside use_limit pct s :
  BasicBot.validate_order_params symbol side total None = false
  \/ (num < 1)%Z \/ (dur < 1)%Z ->
  TWAPBot.execute_twap client symbol side total dur num pside use_limit pct s
  = (Raise ValueError, s, []).
Proof.
  unfold TWAPBot.execute_twap.
  destruct (BasicBot.validate_order_params _ _ _ _); cbn [negb]; [|done].
  intros [?|[?|?]]; [done| |]; repeat case_bool_decide; done || lia.
Qed.

Lemma execute_twap_cases symbol side total dur num pside use_limit pct s :
  (TWAPBot.execute_twap client symbol side total dur num pside use_limit pct s
   = (Raise ValueError, s, []))
  \/ (BasicBot.validate_order_params symbol side total None = true
      /\ (1 <= num)%Z /\ (1 <= dur)%Z
      /\ Validator.validate_symbol (upper symbol) = true
      /\ TWAPBot.execute_twap client symbol side total dur num pside use_limit
           pct s
         = TWAPBot.twap_loop client (upper symbol) (upper side)
             (total / float_of_int num)
             (float_of_int (dur * 60) / float_of_int num)
             num (upper pside) use_limit pct (seqZ 0 num) [] s).
Proof.
  destruct (BasicBot.validate_order_params symbol side total None) eqn:Hv;
    [|left; apply execute_twap_invalid; auto].
  destruct (decide (num < 1)%Z); [left; apply execute_twap_invalid; auto|].
  destruct (decide (dur < 1)%Z); [left; apply execute_twap_invalid; auto|].
  right. split_and!; [done|lia|lia| |apply execute_twap_unfold; done || lia].
  apply validate_order_params_symbol in Hv.
  by rewrite (validate_symbol_upper _ Hv).
Qed.

(** C3, as the code has it.  When [execute_twap] returns, its ledger is
    exactly the list of the orders the venue accepted, in order: a slice
    whose placement failed leaves no entry.  A slice that fails with a
    [BinanceAPIException] (other than the invalid-symbol error of the
    price fetch) does not abort the schedule: if every failure of the run
    is of that kind, the call returns a ledger and has attempted every
    slice. *)
Theorem twap_ledger_records_successes symbol side total dur num pside use_limit
    pct s r s' evs :
  TWAPBot.execute_twap client symbol side total dur num pside use_limit pct s
  = (r, s', evs) ->
  (forall ledger, r = Ok ledger -> ledger = placed evs)
  /\ (BasicBot.validate_order_params symbol side total None = true ->
      (1 <= num)%Z -> (1 <= dur)%Z -> Forall transient evs ->
      (exists ledger, r = Ok ledger)
      /\ length (tickers evs) = Z.to_nat num).
Proof.
  intros Hrun. split.
  - intros ledger ->.
    destruct (execute_twap_cases symbol side total dur num pside use_limit pct s)
      as [Hbad|(_ & _ & _ & Hsym & Hloop)]; rewrite Hrun in *; [done|].
    symmetry in Hloop. by apply twap_loop_ledger in Hloop.
  - intros Hv Hn Hd Hev.
    rewrite (execute_twap_unfold _ _ _ _ _ _ _ _ _ Hv Hn Hd) in Hrun.
    assert (Hsym : Validator.validate_symbol (upper symbol) = true).
    { apply validate_order_params_symbol in Hv.
      by rewrite (validate_symbol_upper _ Hv). }
    destruct (twap_loop_transient client _ _ _ _ _ _ _ _ _ _ _ _ _ _ Hsym
                (interval_nonneg dur num Hd Hn) Hrun Hev) as [Hok Hlen].
    by rewrite length_seqZ in Hlen.
Qed.

(** C8. Every order that [execute_twap] sends has quantity
    [total_quantity / num_orders], the last one included, and every sleep
    between slices lasts [duration_minutes * 60 / num_orders] seconds.
    When every slice is placed, the run is: a placement, then for every
    slice but the last a sleep of one interval before the next placement.
    For total=0.1, duration=10 minutes, slices=5 this is five orders of
    0.02 with four sleeps of 120 seconds between them. *)
Theorem twap_slices_equal symbol side total dur num pside use_limit pct s r s'
    evs :
  TWAPBot.execute_twap client symbol side total dur num pside use_limit pct s
  = (r, s', evs) ->
  let order_size := total / float_of_int num in
  let interval_seconds := float_of_int (dur * 60) / float_of_int num in
  Forall (fun req => Request.quantity req = order_size) (created evs)
  /\ Forall (fun d => d = interval_seconds) (slept evs)
  /\ (forall ledger, r = Ok ledger -> length ledger = Z.to_nat num ->
      timeline evs
      = flat_map (fun i => inl order_size
                           :: (if bool_decide (i < num - 1)%Z
                               then [inr interval_seconds] else []))
                 (seqZ 0 num))
  /\ (total = float_of_Q (1 # 10) -> dur = 10%Z -> num = 5%Z ->
      order_size = float_of_Q (2 # 100)
      /\ interval_seconds = float_of_int 120
      /\ forall ledger, r = Ok ledger -> length ledger = 5%nat ->
         timeline evs
         = [inl (float_of_Q (2 # 100)); inr (float_of_int 120);
            inl (float_of_Q (2 # 100)); inr (float_of_int 120);
            inl (float_of_Q (2 # 100)); inr (float_of_int 120);
            inl (float_of_Q (2 # 100)); inr (float_of_int 120);
            inl (float_of_Q (2 # 100))]).
Proof.
  intros Hrun order_size interval_seconds.
  assert (Hgeneral :
    Forall (fun req => Request.quantity req = order_size) (created evs)
    /\ Forall (fun d => d = interval_seconds) (slept evs)
    /\ (forall ledger, r = Ok ledger -> length ledger = Z.to_nat num ->
        timeline evs
        = flat_map (fun i => inl order_size
                             :: (if bool_decide (i < num - 1)%Z
                                 then [inr interval_seconds] else []))
                   (seqZ 0 num))).
  { subst order_size interval_seconds.
    destruct (execute_twap_cases symbol side total dur num pside use_limit pct s)
      as [Hbad|(Hv & Hn & Hd & Hsym & Hloop)]; rewrite Hrun in *.
    - injection Hbad as -> -> ->. split_and!; [constructor..|done].
    - symmetry in Hloop.
      pose proof (twap_loop_emits client (upper symbol) (upper side)
                    (total / float_of_int num)
                    (float_of_int (dur * 60) / float_of_int num) num
                    (upper pside) use_limit pct (seqZ 0 num) [] s) as Hem.
      unfold events_of in Hem. rewrite Hloop in Hem. simpl in Hem.
      split_and!.
      + apply Forall_created. eapply Forall_impl; [|exact Hem]. by intros ? [? ?].
      + apply Forall_slept. eapply Forall_impl; [|exact Hem]. by intros ? [? ?].
      + intros ledger -> Hlen.
        destruct (twap_loop_timeline client _ _ _ _ _ _ _ _ _ _ _ _ _ _ Hsym
                    Hloop) as [_ Heq].
        apply Heq. by rewrite length_seqZ. }
  destruct Hgeneral as (Hq & Hs & Ht). split_and!; [done..|].
  intros -> -> ->. subst order_size interval_seconds.
  assert (Hsize : float_of_Q (1 # 10) / float_of_int 5 = float_of_Q (2 # 100))
    by qc_eq.
  assert (Hint : float_of_int (10 * 60) / float_of_int 5 = float_of_int 120)
    by qc_eq.
  split_and!; [done..|].
  intros ledger Hr Hlen. rewrite (Ht ledger Hr Hlen), Hsize, Hint.
  reflexivity.
Qed.

End TwapClaims.

(** Every failure in a concrete log is a [BinanceAPIException]. *)
Ltac transient_log :=
  repeat (constructor; [simpl; first [done | split; done] |]); constructor.

(** Three slices on a venue that refuses the second order: the ledger is
    the list of accepted orders and all three slices are attempted. *)
Lemma twap_ledger_records_successes_witness :
  let run := TWAPBot.execute_twap Sim.client "BTCUSDT" "BUY" (float_of_Q (3 # 10))
               10 3 "BOTH" false (float_of_Q (1 # 10))
               venue_refusing_second_order in
  returned [] (result_of run) = placed (events_of run)
  /\ length (tickers (events_of run)) = 3%nat.
Proof.
  intros run.
  assert (Hrun : run = (result_of run, state_of run, events_of run))
    by (by destruct run as [[? ?] ?]).
  destruct (twap_ledger_records_successes Sim.client _ _ _ _ _ _ _ _ _ _ _ _
              Hrun) as [Hledger Hall].
  split.
  - rewrite <- (Hledger (returned [] (result_of run))); [done|].
    vm_compute. reflexivity.
  - apply Hall; [vm_compute; reflexivity | lia | lia |].
    vm_compute. transient_log.
Defined.

(** C3, counterexample.  Three slices are attempted and the venue refuses
    the second one; [execute_twap] completes, but its ledger has two
    entries, not one per attempted slice: the failed slice is not
    recorded. *)
Lemma twap_failed_slice_not_recorded :
  let run := TWAPBot.execute_twap Sim.client "BTCUSDT" "BUY" (float_of_Q (3 # 10))
               10 3 "BOTH" false (float_of_Q (1 # 10))
               venue_refusing_second_order in
  result_of run = Ok (returned [] (result_of run))
  /\ length (created (events_of run)) = 3%nat
  /\ length (returned [] (result_of run)) = 2%nat.
Proof. vm_compute. auto. Qed.

(** The plan of the scenario on the simulated venue: five orders of 0.02,
    120 seconds apart. *)
Lemma twap_slices_equal_witness :
  timeline (events_of
    (TWAPBot.execute_twap Sim.client "BTCUSDT" "BUY" (float_of_Q (1 # 10))
       10 5 "BOTH" false (float_of_Q (1 # 10)) (Sim.quiet (float_of_int 45000))))
  = [inl (float_of_Q (2 # 100)); inr (float_of_int 120);
     inl (float_of_Q (2 # 100)); inr (float_of_int 120);
     inl (float_of_Q (2 # 100)); inr (float_of_int 120);
     inl (float_of_Q (2 # 100)); inr (float_of_int 120);
     inl (float_of_Q (2 # 100))].
Proof.
  set (run := TWAPBot.execute_twap _ _ _ _ _ _ _ _ _ _).
  assert (Hrun : run = (result_of run, state_of run, events_of run))
    by (by destruct run as [[? ?] ?]).
  destruct (twap_slices_equal Sim.client _ _ _ _ _ _ _ _ _ _ _ _ Hrun)
    as (_ & _ & _ & Hscenario).
  destruct (Hscenario eq_refl eq_refl eq_refl) as (_ & _ & Htimeline).
  apply (Htimeline (returned [] (result_of run))); vm_compute; reflexivity.
Defined.

(** ** The TWAP summary *)

Lemma pos_nonzero (x : Qc) : 0 < x -> x <> 0.
Proof. intros Hpos ->. by apply (Qclt_not_eq _ _ Hpos). Qed.

(** C4, as the code has it.  On an empty ledger [get_twap_summary]
    returns the empty dictionary: no field is present.  On every ledger
    it returns a dictionary, that is, no division by zero is ever raised;
    for a ledger that is not empty all six fields are present,
    [total_orders] is the number of entries, and when the total filled
    quantity is zero, [total_quantity], [average_price] and
    [price_range_pct] are zero. *)
Theorem twap_summary_guarded :
  TWAPBot.get_twap_summary [] = Ok ∅
  /\ forall orders, exists d,
       TWAPBot.get_twap_summary orders = Ok d
       /\ (orders <> [] ->
           dom d = {[ "total_orders"; "total_quantity"; "average_price";
                      "min_price"; "max_price"; "price_range_pct" ]}%string
           /\ d !! "total_orders"%string
              = Some (float_of_int (Z.of_nat (length orders)))
           /\ (TWAPBot.total_executed orders = 0 ->
               d !! "total_quantity"%string = Some 0
               /\ d !! "average_price"%string = Some 0
               /\ d !! "price_range_pct"%string = Some 0)).
Proof.
  split; [reflexivity|]. intros orders. unfold TWAPBot.get_twap_summary.
  case_bool_decide as Hempty; [by exists ∅|].
  set (avg := if bool_decide (0 < TWAPBot.total_executed orders) then _ else _).
  assert (exists a, avg = Ok a
                    /\ (TWAPBot.total_executed orders = 0 -> a = 0))
    as (a & -> & Ha).
  { subst avg. case_bool_decide as Hpos.
    - rewrite truediv_nonzero by by apply pos_nonzero. eexists. split; [done|].
      intros Hz. rewrite Hz in Hpos. by apply pos_nonzero in Hpos.
    - by exists 0. }
  cbn [TWAPBot.res_bind].
  set (pct := if bool_decide (0 < a) then _ else _).
  assert (exists p, pct = Ok p /\ (a = 0 -> p = 0)) as (p & -> & Hp).
  { subst pct. case_bool_decide as Hpos.
    - rewrite truediv_nonzero by by apply pos_nonzero. eexists. split; [done|].
      intros Hz. rewrite Hz in Hpos. by apply pos_nonzero in Hpos.
    - by exists 0. }
  cbn [TWAPBot.res_bind]. eexists. split; [done|]. intros _. split_and!.
  - rewrite !dom_insert_L, dom_empty_L. set_solver.
  - by rewrite lookup_insert_eq.
  - intros Hz. split_and!.
    + rewrite lookup_insert_ne, lookup_insert_eq by done. by rewrite Hz.
    + do 2 (rewrite lookup_insert_ne by done). rewrite lookup_insert_eq.
      f_equal. auto.
    + do 5 (rewrite lookup_insert_ne by done). rewrite lookup_insert_eq.
      f_equal. auto.
Qed.

(** The summary of a ledger holding one order of which nothing was
    filled. *)
Lemma twap_summary_guarded_witness :
  exists d, TWAPBot.get_twap_summary [resting_order] = Ok d
            /\ d !! "total_orders"%string = Some (float_of_int 1)
            /\ d !! "average_price"%string = Some 0.
Proof.
  destruct (proj2 twap_summary_guarded [resting_order]) as (d & Hd & Hfields).
  exists d. split; [exact Hd|].
  destruct (Hfields ltac:(discriminate)) as (_ & Hcount & Hzero).
  split; [exact Hcount|].
  destruct Hzero as (_ & Havg & _); [apply Qc_is_canon; reflexivity|exact Havg].
Defined.

(** C4, counterexample.  The summary of the empty ledger has none of the
    six fields: where the claim expects them present and zero, every
    lookup fails. *)
Lemma twap_summary_empty_has_no_fields :
  match TWAPBot.get_twap_summary [] with
  | Ok d =>
      Forall (fun key => d !! key = None)
        ["total_orders"; "total_quantity"; "average_price";
         "min_price"; "max_price"; "price_range_pct"]%string
  | Raise _ => False
  end.
Proof. simpl. repeat constructor. Qed.

(** ** The OCO pair *)

Section OcoPlaceClaim.
Context {S : Type} (client : Client S).

(** [place_oco_order] is rejected by validation, before any call to the
    venue, exactly when [validate_order_params] rejects the symbol, side,
    quantity and take-profit price. *)
Lemma place_oco_order_rejected symbol side qty tp sl pside s :
  OCOOrderBot.place_oco_order client symbol side qty tp sl pside s
  = (Raise ValueError, s, [])
  <-> BasicBot.validate_order_params symbol side qty (Some tp) = false.
Proof.
  unfold OCOOrderBot.place_oco_order.
  destruct (BasicBot.validate_order_params symbol side qty (Some tp)) eqn:Hv;
    cbn [negb]; [|done].
  split; [|done]. intros Hrun. exfalso.
  apply validate_order_params_symbol in Hv.
  destruct (get_current_price_cases client (upper symbol) s)
    as [[Hbad _]|(_ & r & s1 & _ & Hprice)].
  { by rewrite (validate_symbol_upper _ Hv), Hv in Hbad. }
  destruct r as [v|e].
  - rewrite (bind_Ok _ _ _ _ _ _ Hprice) in Hrun.
    apply after_inv in Hrun as (t2 & _ & Ht). discriminate Ht.
  - rewrite (bind_Raise _ _ _ _ _ _ Hprice) in Hrun. discriminate Hrun.
Qed.

(** C9. Validation in [place_oco_order] does not depend on
    [stop_loss_price]: the call is rejected before any call to the venue
    exactly when symbol, side, quantity or take-profit price is invalid, so
    it is rejected for one stop-loss price if and only if it is for any
    other.  When validation passes, the price fetch succeeds and the venue
    accepts the take-profit leg, the stop-loss leg is sent with
    [stopPrice] equal to the given [stop_loss_price], whatever its value. *)
Theorem oco_stop_loss_unchecked symbol side qty tp sl pside s :
  (OCOOrderBot.place_oco_order client symbol side qty tp sl pside s
   = (Raise ValueError, s, [])
   <-> BasicBot.validate_order_params symbol side qty (Some tp) = false)
  /\ (forall sl',
        OCOOrderBot.place_oco_order client symbol side qty tp sl' pside s
        = (Raise ValueError, s, [])
        <-> OCOOrderBot.place_oco_order client symbol side qty tp sl pside s
            = (Raise ValueError, s, []))
  /\ (forall cur s1 t1 tp_order s2,
        BasicBot.validate_order_params symbol side qty (Some tp) = true ->
        BasicBot.get_current_price client (upper symbol) s = (Ok cur, s1, t1) ->
        futures_create_order client (take_profit_leg symbol side qty tp pside) s1
        = (Ok tp_order, s2) ->
        created (events_of
          (OCOOrderBot.place_oco_order client symbol side qty tp sl pside s))
        = [take_profit_leg symbol side qty tp pside;
           stop_loss_leg symbol side qty sl pside]
        /\ Request.stopPrice (stop_loss_leg symbol side qty sl pside) = Some sl).
Proof.
  split_and!.
  - apply place_oco_order_rejected.
  - intros sl'. by rewrite !place_oco_order_rejected.
  - intros cur s1 t1 tp_order s2 Hv Hprice Htp. split; [|done].
    unfold OCOOrderBot.place_oco_order. rewrite Hv. cbn [negb].
    rewrite (bind_Ok _ _ _ _ _ _ Hprice).
    pose proof (get_current_price_created client (upper symbol) s) as Ht1.
    rewrite Hprice in Ht1. simpl in Ht1.
    unfold bind, BasicBot.create_order, call.
    fold (take_profit_leg symbol side qty tp pside).
    fold (stop_loss_leg symbol side qty sl pside).
    rewrite Htp, sleep_tenth.
    destruct (futures_create_order client (stop_loss_leg _ _ _ _ _) s2)
      as [[sl_order|e] s3]; unfold after, events_of; simpl;
      by rewrite created_app, Ht1.
Qed.

End OcoPlaceClaim.

(** The stop-loss price -5 is sent to the venue as it is. *)
Lemma oco_stop_loss_unchecked_witness :
  map Request.stopPrice
    (created (events_of
       (OCOOrderBot.place_oco_order Sim.client "BTCUSDT" "SELL"
          (float_of_Q (1 # 100)) (float_of_int 46000) (float_of_int (-5))
          "BOTH" (Sim.quiet (float_of_int 45000)))))
  = [None; Some (float_of_int (-5))].
Proof.
  set (s0 := Sim.quiet (float_of_int 45000)).
  destruct (oco_stop_loss_unchecked Sim.client "BTCUSDT" "SELL"
              (float_of_Q (1 # 100)) (float_of_int 46000) (float_of_int (-5))
              "BOTH" s0) as (_ & _ & Hsent).
  destruct (Hsent (float_of_int 45000) s0
              [EvTicker "BTCUSDT" (Ok (VStr (float_of_int 45000)))]
              (Sim.accept (take_profit_leg "BTCUSDT" "SELL" (float_of_Q (1 # 100))
                             (float_of_int 46000) "BOTH") s0)
              (Sim.create
                 (take_profit_leg "BTCUSDT" "SELL" (float_of_Q (1 # 100))
                    (float_of_int 46000) "BOTH") s0).2)
    as [-> _]; [vm_compute; reflexivity..|].
  reflexivity.
Defined.

Section OcoMonitorFacts.
Context {S : Type} (client : Client S).

(** The intended path: the take-profit leg is seen FILLED and the venue
    acknowledges the cancellation of the stop-loss leg.  The monitor
    returns ['TP'] after that single cancel. *)
Lemma oco_loop_take_profit_filled symbol tp_id sl_id interval n s tp_order s1
    sl_order s2 ack s3 :
  futures_get_order client symbol tp_id s = (Ok tp_order, s1) ->
  futures_get_order client symbol sl_id s1 = (Ok sl_order, s2) ->
  Order.status tp_order = "FILLED"%string ->
  futures_cancel_order client (upper symbol) sl_id s2 = (Ok ack, s3) ->
  OCOOrderBot.oco_loop client symbol tp_id sl_id interval (Datatypes.S n) s
  = (Ok (Some "TP"%string), s3,
     [EvGetOrder symbol tp_id (Ok tp_order);
      EvGetOrder symbol sl_id (Ok sl_order);
      EvCancelOrder (upper symbol) sl_id (Ok ack)]).
Proof.
  intros Htp Hsl Hfilled Hcancel. cbn [OCOOrderBot.oco_loop].
  unfold OCOOrderBot.oco_check, try_except_api, bind, BasicBot.get_order,
    BasicBot.cancel_order, call.
  rewrite Htp, Hsl, Hfilled. cbn [bool_decide decide_rel].
  rewrite bool_decide_true by done. by rewrite Hcancel.
Qed.

(** The defect: when that cancellation raises a [BinanceAPIException],
    the handler meant for the status queries swallows it, and the monitor
    sleeps and starts over, so the next pass cancels again. *)
Lemma oco_loop_cancel_refused symbol tp_id sl_id interval n s tp_order s1
    sl_order s2 code s3 :
  futures_get_order client symbol tp_id s = (Ok tp_order, s1) ->
  futures_get_order client symbol sl_id s1 = (Ok sl_order, s2) ->
  Order.status tp_order = "FILLED"%string ->
  futures_cancel_order client (upper symbol) sl_id s2
  = (Raise (BinanceAPIException code), s3) ->
  ~ float_of_int interval < 0 ->
  OCOOrderBot.oco_loop client symbol tp_id sl_id interval (Datatypes.S n) s
  = after [EvGetOrder symbol tp_id (Ok tp_order);
           EvGetOrder symbol sl_id (Ok sl_order);
           EvCancelOrder (upper symbol) sl_id (Raise (BinanceAPIException code));
           EvSleep (float_of_int interval)]
      (OCOOrderBot.oco_loop client symbol tp_id sl_id interval n s3).
Proof.
  intros Htp Hsl Hfilled Hcancel Hint. cbn [OCOOrderBot.oco_loop].
  unfold OCOOrderBot.oco_check, try_except_api, bind at 1 2 3 4,
    BasicBot.get_order, BasicBot.cancel_order, call.
  rewrite Htp, Hsl, Hfilled. rewrite bool_decide_true by done.
  rewrite Hcancel. cbn [ret app].
  destruct (sleep_cases (float_of_int interval) s3) as [[? _]|[_ Hs]]; [done|].
  unfold bind. rewrite Hs.
  by destruct (OCOOrderBot.oco_loop _ _ _ _ _ _ _) as [[? ?] ?].
Qed.

End OcoMonitorFacts.

(** C7, the code at the failing input.  The take-profit leg is FILLED at
    every check, and the venue answers the cancellation of the already
    expired stop-loss leg with error -2011.  The monitor issues that
    cancel at each of its three checks and ends with [None], the value of
    a timeout, instead of one cancel and ['TP']. *)
Theorem oco_cancel_repeated_after_fill :
  let run := OCOOrderBot.monitor_and_cancel_oco Sim.client "BTCUSDT" 1 2 5 3
               pair_with_expired_stop in
  result_of run = Ok None
  /\ cancelled (events_of run) = [2; 2; 2]%Z
  /\ Forall (fun ev => match ev with
                       | EvGetOrder _ 1 r =>
                           exists o, r = Ok o /\ Order.status o = "FILLED"%string
                       | EvCancelOrder _ _ r =>
                           r = Raise (BinanceAPIException (-2011))
                       | _ => True
                       end) (events_of run).
Proof.
  vm_compute. split_and!; [done..|].
  repeat (constructor; [first [done | by eexists]|]). constructor.
Qed.

(** ** Reconciliation of the grid *)

Section RebalanceFacts.
Context {S : Type} (client : Client S).

Lemma replace_loop_created symbol side qty prices s s' evs :
  GridBot.replace_loop client symbol side qty prices s = (Ok tt, s', evs) ->
  created evs = map (fun p => grid_order symbol side qty p "BOTH") prices.
Proof.
  revert s evs. induction prices as [|p prices IH]; intros s evs Hrun.
  - by injection Hrun as _ <-.
  - cbn [GridBot.replace_loop map] in *.
    apply bind_inv_Ok in Hrun as ([] & s1 & t1 & t2 & Hat & Hrest & ->).
    rewrite created_app, (IH _ _ Hrest). f_equal.
    revert Hat. unfold try_except_api, bind, BasicBot.create_order, call.
    destruct (futures_create_order client _ s) as [[o|[code| | |]] s0];
      rewrite ?sleep_tenth; by intros [= _ <-].
Qed.

Lemma replace_loop_nil symbol side qty s :
  GridBot.replace_loop client symbol side qty [] s = (Ok tt, s, []).
Proof. reflexivity. Qed.

(** Every expected price is a rounded price. *)
Lemma expected_prices_rounded lower_price upper_price levels cur p :
  p ∈ (expected_prices lower_price upper_price levels cur).1
  \/ p ∈ (expected_prices lower_price upper_price levels cur).2 ->
  round p 2 = p.
Proof.
  unfold expected_prices. rewrite expected_prices_loop_spec. simpl.
  rewrite !elem_of_union, !elem_of_list_to_set, !list_elem_of_filter,
    !list_elem_of_fmap.
  intros [[H|(_ & i & -> & _)]|[H|(_ & i & -> & _)]];
    try (by apply elem_of_empty in H); apply round_idempotent.
Qed.

Lemma elem_of_open_prices side open_orders p :
  p ∈ GridBot.open_prices side open_orders
  <-> exists o, o ∈ open_orders /\ Order.side o = side
                /\ p = round (float (Order.price o)) 2.
Proof.
  unfold GridBot.open_prices.
  rewrite elem_of_list_to_set, list_elem_of_fmap.
  split.
  - intros (o & -> & [Hside Ho]%list_elem_of_filter). eauto.
  - intros (o & Ho & Hside & ->). exists o. split; [done|].
    by apply list_elem_of_filter.
Qed.

(** What a completed pass has sent: one order per missing price. *)
Lemma rebalance_iteration_created symbol lower_price upper_price levels qty
    interval s cur s1 t1 open_orders s2 t2 s' evs :
  BasicBot.get_current_price client symbol s = (Ok cur, s1, t1) ->
  BasicBot.get_open_orders client (Some symbol) s1 = (Ok open_orders, s2, t2) ->
  GridBot.rebalance_iteration client symbol lower_price upper_price levels qty
    interval s = (Ok tt, s', evs) ->
  created evs
  = map (fun p => grid_order symbol "BUY" qty p "BOTH")
        (elements (missing_prices "BUY" lower_price upper_price levels cur
                     open_orders))
    ++ map (fun p => grid_order symbol "SELL" qty p "BOTH")
           (elements (missing_prices "SELL" lower_price upper_price levels cur
                        open_orders)).
Proof.
  intros Hprice Hopen Hrun. unfold GridBot.rebalance_iteration in Hrun.
  rewrite (bind_Ok _ _ _ _ _ _ Hprice) in Hrun.
  apply after_inv in Hrun as (ta & Hrun & ->).
  rewrite (bind_Ok _ _ _ _ _ _ Hopen) in Hrun.
  apply after_inv in Hrun as (tb & Hrun & ->).
  apply bind_inv_Ok in Hrun as (step & s3 & t3 & t4 & Hstep & Hrun & ->).
  unfold lift_res, truediv in Hstep. case_decide; [done|].
  injection Hstep as <- <- <-.
  unfold missing_prices, expected_prices. cbn [bool_decide decide_rel].
  rewrite !bool_decide_true by done.
  rewrite bool_decide_false by done.
  destruct (GridBot.expected_prices_loop _ _ _ _ _ _) as [eb es].
  apply bind_inv_Ok in Hrun as ([] & s4 & t5 & t6 & Hbuy & Hrun & ->).
  apply bind_inv_Ok in Hrun as ([] & s5 & t7 & t8 & Hsell & Hrun & ->).
  apply replace_loop_created in Hbuy, Hsell.
  pose proof (get_current_price_created client symbol s) as Hc1.
  pose proof (get_open_orders_created client (Some symbol) s1) as Hc2.
  rewrite Hprice in Hc1. rewrite Hopen in Hc2. simpl in Hc1, Hc2.
  destruct (sleep_cases (float_of_int interval) s5) as [[_ Hs]|[_ Hs]];
    rewrite Hs in Hrun; [done|]. injection Hrun as _ <-.
  rewrite !created_app, Hc1, Hc2, Hbuy, Hsell. simpl.
  by rewrite ?app_nil_r.
Qed.

(** A pass for which nothing is missing sends no order. *)
Lemma rebalance_iteration_nothing_missing symbol lower_price upper_price levels
    qty interval s cur s1 t1 open_orders s2 t2 :
  BasicBot.get_current_price client symbol s = (Ok cur, s1, t1) ->
  BasicBot.get_open_orders client (Some symbol) s1 = (Ok open_orders, s2, t2) ->
  missing_prices "BUY" lower_price upper_price levels cur open_orders = ∅ ->
  missing_prices "SELL" lower_price upper_price levels cur open_orders = ∅ ->
  created (events_of
    (GridBot.rebalance_iteration client symbol lower_price upper_price levels
       qty interval s)) = [].
Proof.
  intros Hprice Hopen Hbuy Hsell. unfold GridBot.rebalance_iteration.
  rewrite (bind_Ok _ _ _ _ _ _ Hprice), (bind_Ok _ _ _ _ _ _ Hopen).
  pose proof (get_current_price_created client symbol s) as Hc1.
  pose proof (get_open_orders_created client (Some symbol) s1) as Hc2.
  rewrite Hprice in Hc1. rewrite Hopen in Hc2. simpl in Hc1, Hc2.
  unfold after at 1 2, events_of at 1 2. simpl.
  rewrite !created_app, Hc1, Hc2. simpl.
  unfold truediv. case_decide; [done|].
  rewrite (bind_Ok _ _ s2 _ s2 [] eq_refl), after_nil.
  revert Hbuy Hsell. unfold missing_prices, expected_prices.
  rewrite !bool_decide_true by done. rewrite bool_decide_false by done.
  destruct (GridBot.expected_prices_loop _ _ _ _ _ _) as [eb es]. simpl.
  intros -> ->. rewrite elements_empty.
  rewrite (bind_Ok _ _ s2 _ s2 [] eq_refl), after_nil.
  rewrite (bind_Ok _ _ s2 _ s2 [] eq_refl), after_nil.
  by destruct (sleep_cases (float_of_int interval) s2) as [[_ ->]|[_ ->]].
Qed.

(** C6. Take a pass of the reconciliation that completes, and let the next
    pass see the same current price and an open-order list that still
    contains every order that was open and, for every order the first
    pass sent, an open order of that side at that price.  Then the second
    pass finds no BUY price and no SELL price missing, and sends no
    order. *)
Theorem rebalance_idempotent symbol lower_price upper_price levels qty interval
    s cur s1 t1 open_orders s2 t2 s3 evs1 s4 t4 open_orders' s5 t5 :
  BasicBot.get_current_price client symbol s = (Ok cur, s1, t1) ->
  BasicBot.get_open_orders client (Some symbol) s1 = (Ok open_orders, s2, t2) ->
  GridBot.rebalance_iteration client symbol lower_price upper_price levels qty
    interval s = (Ok tt, s3, evs1) ->
  BasicBot.get_current_price client symbol s3 = (Ok cur, s4, t4) ->
  BasicBot.get_open_orders client (Some symbol) s4 = (Ok open_orders', s5, t5) ->
  open_orders ⊆ open_orders' ->
  (forall req, req ∈ created evs1 ->
     exists o, o ∈ open_orders' /\ Order.side o = Request.side req
               /\ Some (float (Order.price o)) = Request.price req) ->
  missing_prices "BUY" lower_price upper_price levels cur open_orders' = ∅
  /\ missing_prices "SELL" lower_price upper_price levels cur open_orders' = ∅
  /\ created (events_of
       (GridBot.rebalance_iteration client symbol lower_price upper_price
          levels qty interval s3)) = [].
Proof.
  intros Hprice Hopen Hrun Hprice' Hopen' Hkept Hreported.
  pose proof (rebalance_iteration_created _ _ _ _ _ _ _ _ _ _ _ _ _ _ _
                Hprice Hopen Hrun) as Hsent.
  assert (Hnone : forall side,
            side = "BUY"%string \/ side = "SELL"%string ->
            missing_prices side lower_price upper_price levels cur open_orders'
            = ∅).
  { intros side Hside. apply set_eq. intros p. split; [|set_solver].
    intros Hp. exfalso. unfold missing_prices in Hp.
    apply elem_of_difference in Hp as [Hexp Hnot]. apply Hnot.
    assert (Hround : round p 2 = p).
    { apply (expected_prices_rounded lower_price upper_price levels cur).
      destruct Hside as [-> | ->]; [left|right]; done. }
    destruct (decide (p ∈ GridBot.open_prices side open_orders)) as [Hin|Hout].
    - apply elem_of_open_prices in Hin as (o & Ho & Hs & Hpo).
      apply elem_of_open_prices. exists o. split; [by apply Hkept|done].
    - destruct (Hreported (grid_order symbol side qty p "BOTH"))
        as (o & Ho & Hs & Hpo).
      { rewrite Hsent, elem_of_app, !list_elem_of_fmap.
        destruct Hside as [-> | ->]; [left|right]; exists p;
          (split; [done|]); apply elem_of_elements, elem_of_difference; done. }
      apply elem_of_open_prices. exists o. split_and!; [done..|].
      simpl in Hpo. injection Hpo as ->. done. }
  split_and!; [apply Hnone; auto..|].
  eapply rebalance_iteration_nothing_missing; eauto.
Qed.

End RebalanceFacts.

(** On the simulated venue the first pass sends the four orders of the
    grid and the second pass sends none. *)
Lemma rebalance_idempotent_witness :
  let pass := GridBot.rebalance_iteration Sim.client "BTCUSDT"
                (float_of_int 44000) (float_of_int 46000) 5
                (float_of_Q (1 # 100)) 30 in
  let first := pass (Sim.quiet (float_of_int 45000)) in
  length (created (events_of first)) = 4%nat
  /\ created (events_of (pass (state_of first))) = [].
Proof.
  intros pass first. split; [vm_compute; reflexivity|].
  set (s0 := Sim.quiet (float_of_int 45000)).
  set (s3 := state_of first).
  set (price := BasicBot.get_current_price Sim.client "BTCUSDT").
  set (orders := BasicBot.get_open_orders Sim.client (Some "BTCUSDT"%string)).
  assert (H1 : price s0 = (Ok (float_of_int 45000), s0, events_of (price s0)))
    by (vm_compute; reflexivity).
  assert (H2 : orders s0 = (Ok [], s0, events_of (orders s0)))
    by (vm_compute; reflexivity).
  assert (H3 : first = (Ok tt, s3, events_of first))
    by (vm_compute; reflexivity).
  assert (H4 : price s3 = (Ok (float_of_int 45000), s3, events_of (price s3)))
    by (vm_compute; reflexivity).
  assert (H5 : orders s3
               = (Ok (returned [] (result_of (orders s3))), s3,
                  events_of (orders s3)))
    by (vm_compute; reflexivity).
  assert (H6 : Forall (fun req =>
                 Exists (fun o => Order.side o = Request.side req
                                  /\ Some (float (Order.price o))
                                     = Request.price req)
                        (returned [] (result_of (orders s3))))
               (created (events_of first)))
    by (apply (bool_decide_unpack _); vm_compute; exact I).
  subst price orders s3 first pass s0.
  refine (proj2 (proj2 (rebalance_idempotent Sim.client _ _ _ _ _ _ _ _ _ _ _
                          _ _ _ _ _ _ _ _ _ H1 H2 H3 H4 H5 _ _))).
  - apply list_subseteq_nil.
  - intros req Hreq. rewrite Forall_forall in H6.
    apply list_elem_of_In, H6, Exists_exists in Hreq as (o & Ho & Hside & Hp).
    apply list_elem_of_In in Ho. eauto.
Defined.

(** ** The grid levels *)

(** Linear arithmetic on [Qc], by way of [Q]. *)
Ltac qc_linear :=
  unfold Qcle, Qclt, Qcminus, Qcplus, Qcopp, Q2Qc in *; cbn [this] in *;
  rewrite ?Qred_correct in *; lra.

Section RoundOrder.
Local Open Scope Q_scope.

Lemma round_half_even_mono (q1 q2 : Q) :
  q1 <= q2 -> (round_half_even q1 <= round_half_even q2)%Z.
Proof.
  intros Hle.
  pose proof (Qfloor_resp_le _ _ Hle) as Hfloor.
  pose proof (Qfloor_le q1) as Hlo1. pose proof (Qlt_floor q1) as Hhi1.
  pose proof (Qfloor_le q2) as Hlo2. pose proof (Qlt_floor q2) as Hhi2.
  rewrite inject_Z_plus in Hhi1, Hhi2. change (inject_Z 1) with 1 in *.
  unfold round_half_even.
  destruct (Z.eq_dec (Qfloor q1) (Qfloor q2)) as [Heq|Hne].
  - rewrite Heq in *.
    destruct (Qcompare_spec (q1 - inject_Z (Qfloor q2)) (1 # 2));
      destruct (Qcompare_spec (q2 - inject_Z (Qfloor q2)) (1 # 2));
      destruct (Z.even (Qfloor q2)); try lia; exfalso;
      generalize dependent (inject_Z (Qfloor q2)); intros; lra.
  - assert (Qfloor q1 + 1 <= Qfloor q2)%Z by lia.
    destruct (Qcompare_spec (q1 - inject_Z (Qfloor q1)) (1 # 2));
      destruct (Qcompare_spec (q2 - inject_Z (Qfloor q2)) (1 # 2));
      destruct (Z.even (Qfloor q1)); destruct (Z.even (Qfloor q2)); lia.
Qed.

End RoundOrder.

(** Rounding keeps the order of prices. *)
Lemma round_mono (x y : Qc) (n : nat) : x <= y -> round x n <= round y n.
Proof.
  intros Hle. unfold Qcle. rewrite !this_round.
  pose proof (pow10_pos n) as Hp.
  assert (Hscaled : (this x * pow10 n <= this y * pow10 n)%Q).
  { apply Qmult_le_compat_r; [exact Hle|]. by apply Qlt_le_weak. }
  apply round_half_even_mono in Hscaled.
  apply Qmult_le_compat_r; [by rewrite <- Zle_Qle|].
  apply Qlt_le_weak, Qinv_lt_0_compat, Hp.
Qed.

Lemma round_min_price : round Config.MIN_PRICE 2 = Config.MIN_PRICE.
Proof. qc_eq. Qed.

Section LevelClaim.
Context {S : Type} (client : Client S).

Lemma float_of_int_le (n m : Z) : (n <= m)%Z -> float_of_int n <= float_of_int m.
Proof. intros H. unfold float_of_int. by apply (proj1 (Z2Qc_inj_le n m)). Qed.

Lemma float_of_int_nonneg (n : Z) : (0 <= n)%Z -> 0 <= float_of_int n.
Proof.
  intros H. unfold float_of_int. rewrite <- Z2Qc_inj_0.
  by apply (proj1 (Z2Qc_inj_le 0 n)).
Qed.

Lemma exact_level_first lower_price upper_price levels :
  exact_level lower_price upper_price levels 0 = lower_price.
Proof. unfold exact_level, float_of_int. rewrite Z2Qc_inj_0. ring. Qed.

Lemma step_pos lower_price upper_price levels :
  (2 <= levels)%Z -> lower_price < upper_price ->
  0 < (upper_price - lower_price) / float_of_int (levels - 1).
Proof.
  intros Hl Hlt. apply Qcmult_pos_pos.
  - qc_linear.
  - apply Qcinv_pos, float_of_int_pos. lia.
Qed.

Lemma exact_level_step lower_price upper_price levels i j :
  exact_level lower_price upper_price levels j
  - exact_level lower_price upper_price levels i
  = float_of_int (j - i)
    * ((upper_price - lower_price) / float_of_int (levels - 1)).
Proof.
  unfold exact_level, float_of_int. rewrite (Z2Qc_inj_sub j i).
  generalize ((upper_price - lower_price) / Qc_of_Z (levels - 1)).
  intros step. ring.
Qed.

Lemma exact_level_mono lower_price upper_price levels i j :
  (2 <= levels)%Z -> lower_price < upper_price -> (i <= j)%Z ->
  exact_level lower_price upper_price levels i
  <= exact_level lower_price upper_price levels j.
Proof.
  intros Hl Hlt Hij.
  pose proof (exact_level_step lower_price upper_price levels i j) as Hstep.
  assert (0 <= float_of_int (j - i)
               * ((upper_price - lower_price) / float_of_int (levels - 1))).
  { apply Qcmult_nonneg_nonneg; [|by apply Qclt_le_weak, step_pos].
    apply float_of_int_nonneg. lia. }
  rewrite <- Hstep in H. qc_linear.
Qed.

(** The first price is the rounded lower bound, and the prices do not
    decrease with the index. *)
Lemma price_level_first lower_price upper_price levels :
  price_level lower_price upper_price levels 0 = round lower_price 2.
Proof.
  change (price_level lower_price upper_price levels 0)
    with (round (exact_level lower_price upper_price levels 0) 2).
  by rewrite exact_level_first.
Qed.

Lemma price_level_mono lower_price upper_price levels i j :
  (2 <= levels)%Z -> lower_price < upper_price -> (i <= j)%Z ->
  price_level lower_price upper_price levels i
  <= price_level lower_price upper_price levels j.
Proof. intros Hl Hlt Hij. by apply round_mono, exact_level_mono. Qed.

Lemma size_list_to_set_le (prices : list Qc) :
  (size (list_to_set prices : gset Qc) <= length prices)%nat.
Proof.
  induction prices as [|p prices IH]; cbn [list_to_set length].
  - by rewrite size_empty.
  - rewrite size_union_alt, size_singleton.
    pose proof (subseteq_size (list_to_set prices ∖ {[p]})
                  (list_to_set prices : gset Qc)) as Hsub.
    etrans; [apply Nat.add_le_mono_l, Hsub, subseteq_difference_l; done|]. lia.
Qed.

(** The prices of the orders that the loop of [create_grid_orders] sends:
    the computed prices, that of the current price left out. *)
Lemma grid_request_prices symbol lower_price step cur qty pside range :
  map Request.price (omap (grid_request symbol lower_price step cur qty pside)
                          range)
  = map Some (filter (fun p => p <> cur)
                (map (fun i => round (lower_price + float_of_int i * step) 2)
                     range)).
Proof.
  induction range as [|i range IH]; [done|].
  cbn [omap list_omap map]. rewrite filter_cons. unfold grid_request at 1.
  set (p := round (lower_price + float_of_int i * step) 2).
  destruct (decide (p < cur)) as [Hlt|Hnlt].
  - rewrite (bool_decide_true _ Hlt), decide_True by by apply Qclt_not_eq.
    cbn [map Request.price grid_order]. by rewrite IH.
  - rewrite (bool_decide_false _ Hnlt).
    destruct (decide (cur < p)) as [Hgt|Hngt].
    + rewrite (bool_decide_true _ Hgt), decide_True;
        [|intros Heq; apply (Qclt_not_eq _ _ Hgt); by symmetry].
      cbn [map Request.price grid_order]. by rewrite IH.
    + rewrite (bool_decide_false _ Hngt), decide_False; [done|].
      intros Hne. apply Hne, Qcle_antisym; by apply Qcnot_lt_le.
Qed.

(** C5, as the code has it.  For a plan with at least two levels and
    [lower_price < upper_price], both loops compute one price per index,
    [round(lower_price + i * step, 2)] with
    [step = (upper_price - lower_price) / (levels - 1)]: [levels] prices,
    each unchanged by rounding again, the first one [round(lower_price,
    2)], in an order that never decreases.  The set of these prices has
    at least one and at most [levels] members.  The orders that a
    completed [create_grid_orders] has sent are priced at exactly these
    prices, that of the current price left out; every order that a
    completed pass of the reconciliation sends is priced at one of them,
    and the expected prices of a pass are these prices, the current price
    excepted. *)
Theorem price_levels_computed lower_price upper_price levels :
  (2 <= levels)%Z -> lower_price < upper_price ->
  let level := price_level lower_price upper_price levels in
  let computed := map level (seqZ 0 levels) in
  length computed = Z.to_nat levels
  /\ level 0%Z = round lower_price 2
  /\ Forall (fun p => round p 2 = p) computed
  /\ (forall i j, (0 <= i)%Z -> (i <= j)%Z -> (j < levels)%Z ->
        level i <= level j)
  /\ (1 <= size (list_to_set computed : gset Qc)
      /\ size (list_to_set computed : gset Qc) <= Z.to_nat levels)%nat
  /\ (forall symbol qty position_side s cur s1 t1 orders s' evs,
        BasicBot.get_current_price client (upper symbol) s = (Ok cur, s1, t1) ->
        GridBot.create_grid_orders client symbol lower_price upper_price levels
          qty position_side s = (Ok orders, s', evs) ->
        map Request.price (created evs)
        = map Some (filter (fun p => p <> cur) computed))
  /\ (forall symbol qty interval s cur s1 t1 open_orders s2 t2 s' evs,
        BasicBot.get_current_price client symbol s = (Ok cur, s1, t1) ->
        BasicBot.get_open_orders client (Some symbol) s1
        = (Ok open_orders, s2, t2) ->
        GridBot.rebalance_iteration client symbol lower_price upper_price levels
          qty interval s = (Ok tt, s', evs) ->
        forall req, req ∈ created evs ->
          exists p, Request.price req = Some p /\ p ∈ computed /\ p <> cur)
  /\ (forall cur p,
        p ∈ (expected_prices lower_price upper_price levels cur).1
            ∪ (expected_prices lower_price upper_price levels cur).2
        <-> p ∈ computed /\ p <> cur).
Proof.
  intros Hl Hlt level computed.
  assert (Hlen : length computed = Z.to_nat levels).
  { unfold computed. by rewrite length_map, length_seqZ. }
  assert (Hexpected : forall cur p,
            p ∈ (expected_prices lower_price upper_price levels cur).1
                ∪ (expected_prices lower_price upper_price levels cur).2
            <-> p ∈ computed /\ p <> cur).
  { intros cur p. unfold expected_prices. rewrite expected_prices_loop_spec.
    simpl. rewrite !(left_id_L ∅ (∪)), elem_of_union,
      !elem_of_list_to_set, !list_elem_of_filter.
    change (map _ (seqZ 0 levels)) with computed.
    split.
    - intros [[Hlt' Hp]|[Hgt Hp]]; (split; [done|]); intros ->;
        by apply (Qclt_not_eq _ _ ltac:(eassumption)).
    - intros [Hp Hne].
      destruct (Qclt_le_dec p cur) as [?|Hle]; [by left|right].
      split; [|done]. apply Qcle_lt_or_eq in Hle as [?|?]; [done|].
      by destruct Hne. }
  split; [done|].
  split; [apply price_level_first|].
  split.
  { apply Forall_forall. intros p (i & <- & _)%in_map_iff.
    apply round_idempotent. }
  split. { intros i j _ Hij _. by apply price_level_mono. }
  split.
  { split; [|rewrite <- Hlen; apply size_list_to_set_le].
    assert (Hin : level 0%Z ∈ (list_to_set computed : gset Qc)).
    { apply elem_of_list_to_set, list_elem_of_fmap. exists 0%Z.
      split; [done|]. apply elem_of_seqZ. lia. }
    destruct (size (list_to_set computed : gset Qc)) eqn:Hsize; [|lia].
    apply size_empty_inv in Hsize. by apply Hsize in Hin. }
  split.
  { intros symbol qty position_side s cur s1 t1 orders s' evs Hprice Hrun.
    destruct (create_grid_orders_created client _ _ _ _ _ _ _ _ _ _ _ _ _
                Hprice Hrun) as [_ ->].
    apply grid_request_prices. }
  split; [|done].
  intros symbol qty interval s cur s1 t1 open_orders s2 t2 s' evs Hprice Hopen
    Hrun req.
  rewrite (rebalance_iteration_created client _ _ _ _ _ _ _ _ _ _ _ _ _ _ _
             Hprice Hopen Hrun).
  intros [(p & -> & Hp)%list_elem_of_fmap|(p & -> & Hp)%list_elem_of_fmap]
    %elem_of_app; apply elem_of_elements in Hp; unfold missing_prices in Hp;
    [rewrite bool_decide_true in Hp by done
    |rewrite bool_decide_false in Hp by done];
    apply elem_of_difference in Hp as [Hexp _]; exists p;
    (split; [done|]); apply Hexpected, elem_of_union; auto.
Qed.

End LevelClaim.

(** The plan 44000..46000 with five levels on the simulated venue quoting
    45000: the orders sent are priced at the four computed levels other
    than 45000. *)
Lemma price_levels_computed_witness :
  map (fun req => this (default 0 (Request.price req)))
    (created (events_of
       (GridBot.create_grid_orders Sim.client "BTCUSDT" (float_of_int 44000)
          (float_of_int 46000) 5 (float_of_Q (1 # 100)) "BOTH"
          (Sim.quiet (float_of_int 45000)))))
  = [44000 # 1; 44500 # 1; 45500 # 1; 46000 # 1]%Q.
Proof.
  set (s0 := Sim.quiet (float_of_int 45000)).
  set (run := GridBot.create_grid_orders Sim.client "BTCUSDT" (float_of_int 44000)
                (float_of_int 46000) 5 (float_of_Q (1 # 100)) "BOTH" s0).
  assert (Hprice : BasicBot.get_current_price Sim.client (upper "BTCUSDT") s0
                   = (Ok (float_of_int 45000), s0,
                      [EvTicker "BTCUSDT" (Ok (VStr (float_of_int 45000)))]))
    by (vm_compute; reflexivity).
  assert (Hrun : run = (Ok (returned ([], []) (result_of run)), state_of run,
                        events_of run))
    by (vm_compute; reflexivity).
  destruct (price_levels_computed Sim.client (float_of_int 44000)
              (float_of_int 46000) 5 ltac:(lia) ltac:(vm_compute; reflexivity))
    as (_ & _ & _ & _ & _ & Hsent & _).
  specialize (Hsent _ _ _ _ _ _ _ _ _ _ Hprice Hrun).
  rewrite <- (map_map Request.price (fun o => this (default 0 o))), Hsent.
  vm_compute. reflexivity.
Defined.

(** C5, counterexample.  The plan lower=1.00, upper=1.01 with four levels
    is valid, but its four computed prices are 1.00, 1.00, 1.01 and 1.01:
    the set of computed levels has two members, not four; seen from a
    current price of 0.50 all of them are expected SELL prices. *)
Lemma price_levels_collide :
  let lower_price := float_of_int 1 in
  let upper_price := float_of_Q (101 # 100) in
  let expected := expected_prices lower_price upper_price 4 (float_of_Q (1 # 2)) in
  BasicBot.validate_order_params "BTCUSDT" "BUY" (float_of_Q (1 # 100))
    (Some lower_price) = true
  /\ lower_price < upper_price
  /\ map (fun i => this (price_level lower_price upper_price 4 i)) (seqZ 0 4)
     = [1; 1; 101 # 100; 101 # 100]%Q
  /\ size expected.1 = 0%nat
  /\ size expected.2 = 2%nat.
Proof. vm_compute. auto. Qed.

(** ** Errors during reconciliation *)

Section RebalanceFetchClaim.
Context {S : Type} (client : Client S).

Lemma result_of_after {A} (t : list Event) (run : res A * S * list Event) :
  result_of (after t run) = result_of run.
Proof. reflexivity. Qed.

Lemma events_of_after {A} (t : list Event) (run : res A * S * list Event) :
  events_of (after t run) = t ++ events_of run.
Proof. reflexivity. Qed.

Lemma run_eta {A} (run : res A * S * list Event) (a : A) :
  result_of run = Ok a -> run = (Ok a, state_of run, events_of run).
Proof.
  destruct run as [[r s] t]. unfold result_of, state_of, events_of.
  cbn [fst snd]. by intros ->.
Qed.

(** A replacement loop in which the venue answers every placement with an
    order or a [BinanceAPIException] runs to its end. *)
Lemma replace_loop_transient symbol side qty prices s :
  Forall transient
    (events_of (GridBot.replace_loop client symbol side qty prices s)) ->
  result_of (GridBot.replace_loop client symbol side qty prices s) = Ok tt.
Proof.
  revert s. induction prices as [|p prices IH]; intros s;
    cbn [GridBot.replace_loop]; [done|].
  set (attempt := try_except_api _ _).
  assert (Hatt : (exists s1 t1, attempt s = (Ok tt, s1, t1))
                 \/ (exists e s1 t1, attempt s = (Raise e, s1, t1)
                                     /\ ~ Forall transient t1)).
  { subst attempt. unfold try_except_api, bind, BasicBot.create_order, call.
    destruct (futures_create_order client _ s) as [[o|[code| | |]] s0];
      rewrite ?sleep_tenth; cbn;
      try (left; eexists _, _; reflexivity);
      right; eexists _, _, _; (split; [reflexivity|]);
      intros Hbad; inversion Hbad as [|? ? Hev _]; exact Hev. }
  clearbody attempt.
  destruct Hatt as [(s1 & t1 & Hat)|(e & s1 & t1 & Hat & Hbad)].
  - rewrite (bind_Ok _ _ _ _ _ _ Hat), result_of_after, events_of_after.
    intros [_ Hrest]%Forall_app. by apply IH.
  - rewrite (bind_Raise _ _ _ _ _ _ Hat). intros Hev. by destruct Hbad.
Qed.

(** A pass whose two fetches answer and in which the venue answers every
    placement with an order or a [BinanceAPIException] completes. *)
Lemma rebalance_iteration_transient symbol lower_price upper_price levels qty
    interval s cur s1 t1 open_orders s2 t2 :
  BasicBot.get_current_price client symbol s = (Ok cur, s1, t1) ->
  BasicBot.get_open_orders client (Some symbol) s1 = (Ok open_orders, s2, t2) ->
  levels <> 1%Z -> (0 <= interval)%Z ->
  Forall transient
    (events_of (GridBot.rebalance_iteration client symbol lower_price
                  upper_price levels qty interval s)) ->
  result_of (GridBot.rebalance_iteration client symbol lower_price upper_price
               levels qty interval s) = Ok tt.
Proof.
  intros Hprice Hopen Hlevels Hinterval.
  unfold GridBot.rebalance_iteration.
  rewrite (bind_Ok _ _ _ _ _ _ Hprice), (bind_Ok _ _ _ _ _ _ Hopen), after_after.
  rewrite truediv_nonzero by (apply float_of_int_nonzero; lia).
  rewrite (bind_Ok _ _ s2 _ s2 [] eq_refl), after_nil.
  destruct (GridBot.expected_prices_loop _ _ _ _ _ _) as [eb es].
  rewrite result_of_after, events_of_after.
  intros [_ Hev]%Forall_app.
  rewrite bind_events in Hev. apply Forall_app in Hev as [Hbuy Hev].
  apply replace_loop_transient, run_eta in Hbuy.
  rewrite Hbuy in Hev. unfold result_of at 1 in Hev. cbn [fst snd] in Hev.
  rewrite (bind_Ok _ _ _ _ _ _ Hbuy), result_of_after.
  rewrite bind_events in Hev. apply Forall_app in Hev as [Hsell _].
  apply replace_loop_transient, run_eta in Hsell.
  rewrite (bind_Ok _ _ _ _ _ _ Hsell), result_of_after.
  destruct (sleep_cases (float_of_int interval)
              (state_of (GridBot.replace_loop client symbol "SELL" qty
                           (elements (es ∖ GridBot.open_prices "SELL" open_orders))
                           (state_of (GridBot.replace_loop client symbol "BUY" qty
                              (elements (eb ∖ GridBot.open_prices "BUY" open_orders))
                              s2)))))
    as [[Hneg _]|[_ ->]]; [|done].
  exfalso. apply (Qcle_not_lt _ _ (float_of_int_nonneg interval Hinterval) Hneg).
Qed.

(** C2, as the code has it.  Let the first [k] passes of
    [monitor_and_rebalance_grid] complete, with fewer than
    [max_iterations] passes run so far.  If in the next pass the price
    fetch or the open-orders fetch raises [e], the whole call ends with
    [e] right there: its log is the log of the [k] passes followed by the
    failed fetch, so no later pass runs and the fetch is not retried.
    Placement failures are another matter, they are caught inside the
    pass: if both fetches of the next pass answer and the venue answers
    each placement with an order or with a [BinanceAPIException], the pass
    completes, having sent one order for every missing price, and the
    loop goes on after it. *)
Theorem rebalance_fetch_error_propagates symbol lower_price upper_price levels
    qty interval max_iterations (k : nat) s sk tk :
  (Z.of_nat k < max_iterations)%Z ->
  GridBot.rebalance_loop client (upper symbol) lower_price upper_price levels
    qty interval k s = (Ok tt, sk, tk) ->
  (forall e s' t',
     (BasicBot.get_current_price client (upper symbol) sk = (Raise e, s', t')
      \/ exists cur s1 t1 t2,
           BasicBot.get_current_price client (upper symbol) sk = (Ok cur, s1, t1)
           /\ BasicBot.get_open_orders client (Some (upper symbol)) s1
              = (Raise e, s', t2)
           /\ t' = t1 ++ t2) ->
     GridBot.monitor_and_rebalance_grid client symbol lower_price upper_price
       levels qty interval max_iterations s = (Raise e, s', tk ++ t'))
  /\ (forall cur s1 t1 open_orders s2 t2,
        BasicBot.get_current_price client (upper symbol) sk = (Ok cur, s1, t1) ->
        BasicBot.get_open_orders client (Some (upper symbol)) s1
        = (Ok open_orders, s2, t2) ->
        levels <> 1%Z -> (0 <= interval)%Z ->
        let pass := GridBot.rebalance_iteration client (upper symbol)
                      lower_price upper_price levels qty interval sk in
        Forall transient (events_of pass) ->
        created (events_of pass)
        = map (fun p => grid_order (upper symbol) "BUY" qty p "BOTH")
              (elements (missing_prices "BUY" lower_price upper_price levels
                           cur open_orders))
          ++ map (fun p => grid_order (upper symbol) "SELL" qty p "BOTH")
                 (elements (missing_prices "SELL" lower_price upper_price
                              levels cur open_orders))
        /\ GridBot.rebalance_loop client (upper symbol) lower_price upper_price
             levels qty interval (Datatypes.S k) s
           = (Ok tt, state_of pass, tk ++ events_of pass)).
Proof.
  intros Hk Hloop. split.
  - intros e s' t' Hfetch. unfold GridBot.monitor_and_rebalance_grid.
    replace (Z.to_nat max_iterations)
      with (k + Datatypes.S (Z.to_nat max_iterations - k - 1))%nat by lia.
    rewrite (rebalance_loop_split _ _ _ _ _ _ _ _ _ _ _ _ Hloop).
    cbn [GridBot.rebalance_loop].
    rewrite (bind_Raise _ _ _ _ _ _
               (rebalance_iteration_fetch_raises _ _ _ _ _ _ _ _ _ _ _ Hfetch)).
    reflexivity.
  - intros cur s1 t1 open_orders s2 t2 Hprice Hopen Hlevels Hinterval pass Hev.
    pose proof (rebalance_iteration_transient _ _ _ _ _ _ _ _ _ _ _ _ _
                  Hprice Hopen Hlevels Hinterval Hev) as Hpass.
    apply run_eta in Hpass. fold pass in Hpass.
    split.
    + apply (rebalance_iteration_created client _ _ _ _ _ _ _ _ _ _ _ _ _ _ _
               Hprice Hopen Hpass).
    + replace (Datatypes.S k) with (k + 1)%nat by lia.
      rewrite (rebalance_loop_split _ _ _ _ _ _ _ _ _ _ _ _ Hloop).
      cbn [GridBot.rebalance_loop].
      rewrite (bind_Ok _ _ _ _ _ _ Hpass). unfold after, ret.
      unfold result_of, state_of, events_of. cbn [fst snd].
      by rewrite app_nil_r.
Qed.

End RebalanceFetchClaim.

(** The first pass completes, the ticker call of the second pass times
    out, and the call that was to make five passes ends with that error.
    On the venue that refuses the second order it receives, the first
    pass still sends the four orders of the plan and completes. *)
Lemma rebalance_fetch_error_propagates_witness :
  result_of
    (GridBot.monitor_and_rebalance_grid Sim.client "BTCUSDT"
       (float_of_int 44000) (float_of_int 46000) 5 (float_of_Q (1 # 100)) 30 5
       venue_with_one_timeout)
  = Raise (BinanceAPIException (-1007))
  /\ (let pass := GridBot.rebalance_iteration Sim.client (upper "BTCUSDT")
                    (float_of_int 44000) (float_of_int 46000) 5
                    (float_of_Q (1 # 100)) 30 venue_refusing_second_order in
      length (created (events_of pass)) = 4%nat
      /\ length (placed (events_of pass)) = 3%nat
      /\ GridBot.rebalance_loop Sim.client (upper "BTCUSDT")
           (float_of_int 44000) (float_of_int 46000) 5 (float_of_Q (1 # 100))
           30 1 venue_refusing_second_order
         = (Ok tt, state_of pass, events_of pass)).
Proof.
  split.
  - set (pass1 := GridBot.rebalance_loop Sim.client (upper "BTCUSDT")
                    (float_of_int 44000) (float_of_int 46000) 5
                    (float_of_Q (1 # 100)) 30 1 venue_with_one_timeout).
    assert (H1 : pass1 = (Ok tt, state_of pass1, events_of pass1))
      by (vm_compute; reflexivity).
    assert (H2 : BasicBot.get_current_price Sim.client (upper "BTCUSDT")
                   (state_of pass1)
                 = (Raise (BinanceAPIException (-1007)),
                    state_of (BasicBot.get_current_price Sim.client
                                (upper "BTCUSDT") (state_of pass1)),
                    events_of (BasicBot.get_current_price Sim.client
                                 (upper "BTCUSDT") (state_of pass1))))
      by (vm_compute; reflexivity).
    destruct (rebalance_fetch_error_propagates Sim.client "BTCUSDT"
                (float_of_int 44000) (float_of_int 46000) 5
                (float_of_Q (1 # 100)) 30 5 1 _ _ _ ltac:(lia) H1)
      as [Hraise _].
    rewrite (Hraise _ _ _ (or_introl H2)). reflexivity.
  - intros pass.
    set (s0 := venue_refusing_second_order).
    set (fetch := BasicBot.get_current_price Sim.client (upper "BTCUSDT") s0).
    assert (Hprice : fetch = (Ok (float_of_int 45000), s0, events_of fetch))
      by (vm_compute; reflexivity).
    set (listing := BasicBot.get_open_orders Sim.client
                      (Some (upper "BTCUSDT")) s0).
    assert (Hopen : listing = (Ok [], s0, events_of listing))
      by (vm_compute; reflexivity).
    destruct (rebalance_fetch_error_propagates Sim.client "BTCUSDT"
                (float_of_int 44000) (float_of_int 46000) 5
                (float_of_Q (1 # 100)) 30 1 0 s0 s0 [] ltac:(lia) eq_refl)
      as [_ Hpass].
    destruct (Hpass _ _ _ _ _ _ Hprice Hopen ltac:(lia) ltac:(lia))
      as [Hsent Hloop].
    { subst pass s0. vm_compute.
      repeat (constructor; [first [exact I | split; [exact I|discriminate]]|]).
      constructor. }
    split_and!; [|vm_compute; reflexivity|exact Hloop].
    subst pass s0. rewrite Hsent. vm_compute. reflexivity.
Defined.

(** C2, counterexample.  Three passes are requested and only the first
    ticker call fails (the venue would answer the second one), yet the
    call ends with that error after a single ticker call: the error is not
    confined to the pass and the next pass never retries. *)
Lemma rebalance_fetch_error_not_retried :
  let run :=
    GridBot.monitor_and_rebalance_grid Sim.client "BTCUSDT"
      (float_of_int 44000) (float_of_int 46000) 5 (float_of_Q (1 # 100)) 30 3
      (Sim.mk (float_of_int 45000) [] 1 [Some (BinanceAPIException (-1007))] []) in
  result_of run = Raise (BinanceAPIException (-1007))
  /\ events_of run
     = [EvTicker "BTCUSDT" (Raise (BinanceAPIException (-1007)))]
  /\ Sim.ticker_faults (state_of run) = [].
Proof. vm_compute. auto. Qed.

(** * Further properties of the code *)

(** ** The single-order bots *)

Section OrderBotFacts.
Context {S : Type} (client : Client S).

Lemma validate_order_params_inv symbol side quantity price :
  BasicBot.validate_order_params symbol side quantity price = true ->
  Validator.validate_symbol symbol = true
  /\ upper side ∈ ["BUY"; "SELL"]%string
  /\ Config.MIN_QUANTITY <= quantity
  /\ (forall p, price = Some p -> Config.MIN_PRICE <= p).
Proof.
  unfold BasicBot.validate_order_params, Validator.validate_side,
    Validator.validate_quantity, Validator.validate_price.
  destruct (Validator.validate_symbol symbol); [|done]. cbn [negb].
  case_bool_decide as Hside; [|done]. case_bool_decide as Hqty; [|done].
  cbn [negb]. intros Hprice. split_and!; try done.
  intros p ->. by case_bool_decide.
Qed.

Lemma create_order_once req s :
  sends_once client req s (BasicBot.create_order client req s).
Proof.
  unfold sends_once, BasicBot.create_order, call.
  destruct (futures_create_order client req s) as [r s1]. by exists r, s1.
Qed.

(** X1. [place_market_order] either rejects its parameters with a
    [ValueError] before any call to the venue, exactly when
    [validate_order_params] rejects symbol, side or quantity, or makes
    exactly one placement call and ends as that call ends (the order it
    returns, or the exception it raises).  The request it sends is a
    MARKET order without price for the given symbol and quantity, with the
    [reduce_only] flag as given; its symbol passes validation, its side is
    BUY or SELL and its quantity is at least [MIN_QUANTITY]. *)
Theorem place_market_order_checked symbol side quantity position_side
    reduce_only s :
  let run := MarketOrderBot.place_market_order client symbol side quantity
               position_side reduce_only s in
  (BasicBot.validate_order_params symbol side quantity None = false
   /\ run = (Raise ValueError, s, []))
  \/ (exists req,
        BasicBot.validate_order_params symbol side quantity None = true
        /\ sends_once client req s run
        /\ checked_request req
        /\ Request.symbol req = symbol
        /\ Request.side req = upper side
        /\ Request.type req = "MARKET"%string
        /\ Request.quantity req = quantity
        /\ Request.price req = None
        /\ Request.positionSide req = upper position_side
        /\ Request.reduceOnly req = Some reduce_only).
Proof.
  intros run. subst run. unfold MarketOrderBot.place_market_order.
  destruct (BasicBot.validate_order_params symbol side quantity None) eqn:Hv;
    cbn [negb]; [right|by left].
  apply validate_order_params_inv in Hv as (Hsym & Hside & Hq & _).
  eexists. split; [done|]. split; [apply create_order_once|].
  pose proof (validate_symbol_upper _ Hsym) as Hup.
  cbn. rewrite Hup. by split_and!.
Qed.

(** X2. [place_limit_order] either rejects its parameters with a
    [ValueError] before any call to the venue, exactly when
    [validate_order_params] rejects symbol, side, quantity or price or the
    time in force is not one of GTC, IOC, FOK and GTX (in any letter
    case), or makes exactly one placement call and ends as that call ends.
    The request it sends is a LIMIT order at the given price, which is at
    least [MIN_PRICE], with the time in force in upper case. *)
Theorem place_limit_order_checked symbol side quantity price time_in_force
    position_side reduce_only s :
  let run := LimitOrderBot.place_limit_order client symbol side quantity price
               time_in_force position_side reduce_only s in
  ((BasicBot.validate_order_params symbol side quantity (Some price) = false
    \/ upper time_in_force ∉ ["GTC"; "IOC"; "FOK"; "GTX"]%string)
   /\ run = (Raise ValueError, s, []))
  \/ (exists req,
        BasicBot.validate_order_params symbol side quantity (Some price) = true
        /\ sends_once client req s run
        /\ checked_request req
        /\ Request.symbol req = symbol
        /\ Request.side req = upper side
        /\ Request.type req = "LIMIT"%string
        /\ Request.quantity req = quantity
        /\ Request.price req = Some price
        /\ Config.MIN_PRICE <= price
        /\ Request.stopPrice req = None
        /\ Request.timeInForce req = Some (upper time_in_force)
        /\ upper time_in_force ∈ ["GTC"; "IOC"; "FOK"; "GTX"]%string
        /\ Request.positionSide req = upper position_side
        /\ Request.reduceOnly req = Some reduce_only).
Proof.
  intros run. subst run. unfold LimitOrderBot.place_limit_order.
  destruct (BasicBot.validate_order_params symbol side quantity (Some price))
    eqn:Hv; cbn [negb]; [|left; auto].
  unfold Validator.validate_time_in_force.
  case_bool_decide as Htif; cbn [negb]; [right|left; auto].
  apply validate_order_params_inv in Hv as (Hsym & Hside & Hq & Hp).
  eexists. split; [done|]. split; [apply create_order_once|].
  pose proof (validate_symbol_upper _ Hsym) as Hup.
  cbn. rewrite Hup. split_and!; try done. by apply Hp.
Qed.

(** X3. [place_stop_limit_order] checks both of its prices: it rejects its
    parameters with a [ValueError] before any call to the venue exactly
    when [validate_order_params] rejects symbol, side, quantity or limit
    price, or the stop price is below [MIN_PRICE], or the time in force is
    not one of GTC, IOC, FOK and GTX.  Otherwise it makes exactly one
    placement call and ends as that call ends; the request is a STOP order
    whose [price] is the limit price and whose [stopPrice] is the stop
    price, both at least [MIN_PRICE]. *)
Theorem place_stop_limit_order_checked symbol side quantity stop_price
    limit_price time_in_force position_side reduce_only s :
  let run := StopLimitOrderBot.place_stop_limit_order client symbol side
               quantity stop_price limit_price time_in_force position_side
               reduce_only s in
  ((BasicBot.validate_order_params symbol side quantity (Some limit_price) = false
    \/ stop_price < Config.MIN_PRICE
    \/ upper time_in_force ∉ ["GTC"; "IOC"; "FOK"; "GTX"]%string)
   /\ run = (Raise ValueError, s, []))
  \/ (exists req,
        BasicBot.validate_order_params symbol side quantity (Some limit_price)
        = true
        /\ sends_once client req s run
        /\ checked_request req
        /\ Request.symbol req = symbol
        /\ Request.side req = upper side
        /\ Request.type req = "STOP"%string
        /\ Request.quantity req = quantity
        /\ Request.price req = Some limit_price
        /\ Config.MIN_PRICE <= limit_price
        /\ Request.stopPrice req = Some stop_price
        /\ Config.MIN_PRICE <= stop_price
        /\ Request.timeInForce req = Some (upper time_in_force)
        /\ upper time_in_force ∈ ["GTC"; "IOC"; "FOK"; "GTX"]%string
        /\ Request.positionSide req = upper position_side
        /\ Request.reduceOnly req = Some reduce_only).
Proof.
  intros run. subst run. unfold StopLimitOrderBot.place_stop_limit_order.
  destruct (BasicBot.validate_order_params symbol side quantity
              (Some limit_price)) eqn:Hv; cbn [negb]; [|left; auto].
  unfold Validator.validate_price, Validator.validate_time_in_force.
  case_bool_decide as Hstop; cbn [negb];
    [|left; split; [right; left; by apply Qcnot_le_lt|done]].
  case_bool_decide as Htif; cbn [negb]; [right|left; auto].
  apply validate_order_params_inv in Hv as (Hsym & Hside & Hq & Hp).
  eexists. split; [done|]. split; [apply create_order_once|].
  pose proof (validate_symbol_upper _ Hsym) as Hup.
  cbn. rewrite Hup. split_and!; try done. by apply Hp.
Qed.

(** The convenience methods fix what they do not take as arguments:
    every order sent by [place_market_buy] or [place_limit_buy] is a BUY,
    every order sent by [place_market_sell] or [place_limit_sell] is a
    SELL; all of them use position side BOTH and never set the
    reduce-only flag, and the limit ones are good till cancelled. *)
Lemma convenience_orders_fixed symbol quantity price s :
  let fixed side type tif req :=
    Request.side req = side /\ Request.type req = type
    /\ Request.timeInForce req = tif
    /\ Request.positionSide req = "BOTH"%string
    /\ Request.reduceOnly req = Some false in
  Forall (fixed "BUY" "MARKET" None)%string
    (created (events_of (MarketOrderBot.place_market_buy client symbol quantity s)))
  /\ Forall (fixed "SELL" "MARKET" None)%string
       (created (events_of
          (MarketOrderBot.place_market_sell client symbol quantity s)))
  /\ Forall (fixed "BUY" "LIMIT" (Some "GTC"))%string
       (created (events_of
          (LimitOrderBot.place_limit_buy client symbol quantity price s)))
  /\ Forall (fixed "SELL" "LIMIT" (Some "GTC"))%string
       (created (events_of
          (LimitOrderBot.place_limit_sell client symbol quantity price s))).
Proof.
  intros fixed.
  unfold MarketOrderBot.place_market_buy, MarketOrderBot.place_market_sell,
    LimitOrderBot.place_limit_buy, LimitOrderBot.place_limit_sell,
    MarketOrderBot.place_market_order, LimitOrderBot.place_limit_order,
    BasicBot.create_order, call.
  split_and!;
    repeat match goal with
           | |- context [if negb ?b then _ else _] =>
               destruct b; cbn [negb]; [|by constructor]
           end;
    match goal with
    | |- context [futures_create_order client ?req s] =>
        destruct (futures_create_order client req s) as [r s1]
    end; repeat constructor.
Qed.

(** X4. [get_current_price] makes at most one ticker call and never sends
    the venue a symbol that fails validation: such a symbol is a
    [ValueError] before any call.  The venue's error -1121 (invalid
    symbol) comes back as a [ValueError]; every other exception of the
    call comes back as it is, and an answer comes back as the float of its
    price. *)
Theorem get_current_price_guarded symbol s :
  let run := BasicBot.get_current_price client symbol s in
  (Validator.validate_symbol symbol = false
   /\ run = (Raise ValueError, s, []))
  \/ (Validator.validate_symbol symbol = true
      /\ exists r s1,
           futures_symbol_ticker client symbol s = (r, s1)
           /\ events_of run = [EvTicker symbol r]
           /\ state_of run = s1
           /\ result_of run
              = match r with
                | Ok v => Ok (float v)
                | Raise (BinanceAPIException code) =>
                    if bool_decide (code = (-1121)%Z) then Raise ValueError
                    else Raise (BinanceAPIException code)
                | Raise e => Raise e
                end).
Proof.
  intros run. subst run.
  destruct (get_current_price_cases client symbol s)
    as [[Hbad Hrun]|(Hv & r & s1 & Htick & Hrun)]; [by left|right].
  split; [done|]. rewrite (validate_symbol_upper _ Hv) in *.
  exists r, s1. rewrite Hrun. split_and!; try done.
  destruct r as [v|[code| | |]]; cbn; try done. by case_bool_decide.
Qed.

End OrderBotFacts.

(** ** Validation and the account methods *)

Lemma upper_char_idempotent (c : ascii) : upper_char (upper_char c) = upper_char c.
Proof. destruct c as [[] [] [] [] [] [] [] []]; reflexivity. Qed.

Lemma upper_idempotent (text : string) : upper (upper text) = upper text.
Proof.
  induction text as [|c r IH]; simpl; [done|].
  by rewrite upper_char_idempotent, IH.
Qed.

(** X5. The side, the order type and the time in force are validated
    without regard to letter case: a text is accepted exactly when its
    upper-case form is.  The symbol is not: [validate_symbol] rejects
    every text that [upper] would change, so a symbol in lower or mixed
    case is refused although the bots upper-case it before sending. *)
Theorem validation_letter_case (text : string) :
  Validator.validate_side (upper text) = Validator.validate_side text
  /\ Validator.validate_order_type (upper text)
     = Validator.validate_order_type text
  /\ Validator.validate_time_in_force (upper text)
     = Validator.validate_time_in_force text
  /\ (Validator.validate_symbol text = true -> upper text = text)
  /\ (Validator.validate_symbol (upper text) = true ->
      Validator.validate_symbol text = bool_decide (upper text = text)).
Proof.
  unfold Validator.validate_side, Validator.validate_order_type,
    Validator.validate_time_in_force.
  rewrite upper_idempotent. split_and!; try done.
  - apply validate_symbol_upper.
  - intros Hup. case_bool_decide as Heq.
    + by rewrite <- Heq.
    + destruct (Validator.validate_symbol text) eqn:Hv; [|done].
      by apply validate_symbol_upper in Hv.
Qed.

(** The side ["buy"] passes and the symbol ["btcusdt"] does not, although
    its upper-case form does. *)
Lemma validation_letter_case_witness :
  Validator.validate_symbol "btcusdt" = bool_decide (upper "btcusdt" = "btcusdt"%string)
  /\ Validator.validate_symbol "btcusdt" = false
  /\ Validator.validate_side "buy" = true.
Proof.
  split; [|split; reflexivity].
  apply (proj2 (proj2 (proj2 (proj2 (validation_letter_case "btcusdt"))))).
  reflexivity.
Defined.

Section AccountFacts.
Context {S R : Type}.
Context (futures_exchange_info : S -> res (list BasicBot.SymbolInfo) * S).
Context (futures_change_leverage : string -> Z -> S -> res R * S).

Lemma find_symbol_spec symbol symbols :
  match BasicBot.find_symbol symbol symbols with
  | Some info =>
      exists before rest,
        symbols = before ++ info :: rest
        /\ BasicBot.info_symbol info = upper symbol
        /\ Forall (fun i => BasicBot.info_symbol i <> upper symbol) before
  | None => Forall (fun i => BasicBot.info_symbol i <> upper symbol) symbols
  end.
Proof.
  induction symbols as [|info symbols IH]; simpl; [constructor|].
  case_bool_decide as Heq.
  - exists [], symbols. by split_and!.
  - destruct (BasicBot.find_symbol symbol symbols) as [found|].
    + destruct IH as (before & rest & -> & Hf & Hb).
      exists (info :: before), rest. split_and!; [done..|by constructor].
    + by constructor.
Qed.

(** X6. [get_symbol_info] never raises.  It makes one call for the
    exchange information and leaves the venue as that call leaves it.  It
    returns the first entry of the symbol table whose symbol equals the
    upper-cased argument, and [None] exactly when the call raised or no
    entry has that symbol. *)
Theorem get_symbol_info_lookup symbol s :
  let run := BasicBot.get_symbol_info futures_exchange_info symbol s in
  run.2 = (futures_exchange_info s).2
  /\ match run.1 with
     | Some info =>
         exists before rest,
           (futures_exchange_info s).1 = Ok (before ++ info :: rest)
           /\ BasicBot.info_symbol info = upper symbol
           /\ Forall (fun i => BasicBot.info_symbol i <> upper symbol) before
     | None =>
         (exists e, (futures_exchange_info s).1 = Raise e)
         \/ (exists symbols,
               (futures_exchange_info s).1 = Ok symbols
               /\ Forall (fun i => BasicBot.info_symbol i <> upper symbol)
                         symbols)
     end.
Proof.
  intros run. subst run.
  unfold BasicBot.get_symbol_info, BasicBot.get_exchange_info.
  destruct (futures_exchange_info s) as [[symbols|e] s1]; simpl.
  - split; [done|]. pose proof (find_symbol_spec symbol symbols) as Hspec.
    destruct (BasicBot.find_symbol symbol symbols) as [info|].
    + destruct Hspec as (before & rest & -> & Hf & Hb). by exists before, rest.
    + right. by exists symbols.
  - split; [done|]. left. by exists e.
Qed.

(** X7. [set_leverage] asks the venue only for a leverage from 1 to 125:
    outside these bounds it raises a [ValueError] and the venue is left
    untouched; within them (both ends included) it makes the call for the
    upper-cased symbol, whatever the symbol is, and ends as the call
    ends. *)
Theorem set_leverage_bounds symbol leverage s :
  let run := BasicBot.set_leverage futures_change_leverage symbol leverage s in
  (((leverage < 1)%Z \/ (125 < leverage)%Z) /\ run = (Raise ValueError, s))
  \/ ((1 <= leverage <= 125)%Z
      /\ run = futures_change_leverage (upper symbol) leverage s).
Proof.
  intros run. subst run. unfold BasicBot.set_leverage, Config.MAX_LEVERAGE.
  case_bool_decide as Hlow; cbn [orb]; [left; auto|].
  case_bool_decide as Hhigh; [left; auto|]. right. split; [lia|done].
Qed.

End AccountFacts.

(** ** The options of the OCO command line *)

Lemma main_options_fold (options : list string) position_side monitor :
  foldl (fun '(position_side, monitor) arg =>
           if bool_decide (upper arg ∈ ["BOTH"; "LONG"; "SHORT"]%string)
           then (arg, monitor)
           else if bool_decide (arg = "--monitor"%string)
           then (position_side, true)
           else (position_side, monitor))
        (position_side, monitor) options
  = (default position_side
       (list.last (filter (fun arg => upper arg ∈ ["BOTH"; "LONG"; "SHORT"]%string)
                     options)),
     monitor || bool_decide ("--monitor"%string ∈ options)).
Proof.
  revert position_side monitor.
  induction options as [|arg options IH]; intros position_side monitor.
  - cbn [foldl filter list_filter list.last default from_option].
    rewrite (bool_decide_false (_ ∈ [])) by apply not_elem_of_nil.
    by rewrite orb_false_r.
  - cbn [foldl]. rewrite filter_cons.
    destruct (decide (upper arg ∈ ["BOTH"; "LONG"; "SHORT"]%string))
      as [Hside|Hside].
    + rewrite (bool_decide_true _ Hside), IH. f_equal.
      * rewrite last_cons. by destruct (list.last _).
      * f_equal. apply bool_decide_ext. rewrite elem_of_cons.
        split; [auto|]. intros [Heq|H]; [subst arg|done].
        by apply (bool_decide_pack _) in Hside.
    + rewrite (bool_decide_false _ Hside).
      destruct (decide (arg = "--monitor"%string)) as [Hflag|Hflag].
      * rewrite (bool_decide_true _ Hflag), IH. f_equal. subst arg.
        rewrite (bool_decide_true (_ ∈ _ :: _)) by (apply elem_of_cons; by left).
        by rewrite orb_true_r.
      * rewrite (bool_decide_false _ Hflag), IH. do 2 f_equal.
        apply bool_decide_ext. rewrite elem_of_cons.
        split; [auto|]. by intros [Heq|Hin]; [destruct Hflag|].
Qed.

(** X8. The options of the OCO command line, read after the five
    positional arguments: the position side is the last argument that is
    BOTH, LONG or SHORT in any letter case, kept as typed, and BOTH when
    there is none; monitoring is on exactly when [--monitor] occurs among
    them; every other argument is ignored.  The position side so chosen
    is always one of the three once upper-cased, as [place_oco_order]
    does. *)
Theorem main_options_last_wins (argv : list string) :
  let sides := ["BOTH"; "LONG"; "SHORT"]%string in
  OCOOrderBot.main_options argv
  = (default "BOTH"%string
       (list.last (filter (fun arg => upper arg ∈ sides) (drop 6 argv))),
     bool_decide ("--monitor"%string ∈ drop 6 argv))
  /\ upper (OCOOrderBot.main_options argv).1 ∈ sides.
Proof.
  intros sides. unfold OCOOrderBot.main_options.
  rewrite main_options_fold. split; [done|]. cbn [fst].
  destruct (list.last _) as [arg|] eqn:Hlast; simpl.
  - apply last_Some_elem_of in Hlast.
    by apply list_elem_of_filter in Hlast as [Hside _].
  - subst sides. vm_compute. apply elem_of_cons. by left.
Qed.

(** ** The grid, as sent and as returned *)

Section GridSentFacts.
Context {S : Type} (client : Client S).

Lemma emits_impl {A} (P Q : Event -> Prop) (m : M S A) :
  (forall ev, P ev -> Q ev) -> emits P m -> emits Q m.
Proof. intros H Hm s. eapply Forall_impl; [|apply Hm]. exact H. Qed.

Lemma creates_with_impl (P Q : Request.t -> Prop) ev :
  (forall req, P req -> Q req) -> creates_with P ev -> creates_with Q ev.
Proof. intros H. destruct ev; simpl; auto. Qed.

(** What one guarded placement of a grid order does, by the answer of the
    venue. *)
Lemma grid_attempt_cases {A} req (f : Order.t -> A) (fallback : A) s :
  try_except_api
    (order <- BasicBot.create_order client req ;;
     _ <- sleep (float_of_Q (1 # 10)) ;;
     ret (f order))
    (fun _ => ret fallback) s
  = match futures_create_order client req s with
    | (Ok o, s1) =>
        (Ok (f o), s1, [EvCreateOrder req (Ok o); EvSleep (float_of_Q (1 # 10))])
    | (Raise (BinanceAPIException code), s1) =>
        (Ok fallback, s1, [EvCreateOrder req (Raise (BinanceAPIException code))])
    | (Raise e, s1) => (Raise e, s1, [EvCreateOrder req (Raise e)])
    end.
Proof.
  unfold try_except_api, bind, BasicBot.create_order, call.
  by destruct (futures_create_order client req s) as [[o|[code| | |]] s1].
Qed.

Lemma create_grid_loop_emits_levels symbol lower_price step cur qty pside range
    buys sells :
  emits (creates_with (fun req =>
           exists i side,
             i ∈ range /\ side ∈ ["BUY"; "SELL"]%string
             /\ req = grid_order symbol side qty
                        (round (lower_price + float_of_int i * step) 2) pside))
        (GridBot.create_grid_loop client symbol lower_price step cur qty pside
           range buys sells).
Proof.
  revert buys sells. induction range as [|i range IH]; intros buys sells.
  - apply emits_ret.
  - assert (Hrest : forall b sl,
              emits (creates_with (fun req =>
                       exists j side,
                         j ∈ i :: range /\ side ∈ ["BUY"; "SELL"]%string
                         /\ req = grid_order symbol side qty
                                    (round (lower_price + float_of_int j * step) 2)
                                    pside))
                    (GridBot.create_grid_loop client symbol lower_price step cur
                       qty pside range b sl)).
    { intros b sl. eapply emits_impl; [|apply IH].
      intros ev. apply creates_with_impl.
      intros req (j & side & Hj & Hside & ->). exists j, side.
      split_and!; [apply elem_of_cons; by right|done..]. }
    cbn [GridBot.create_grid_loop]. repeat case_bool_decide; [| |apply Hrest].
    + apply emits_bind; [|intros; apply Hrest].
      unfold BasicBot.create_order. repeat emits_step; try done.
      exists i, "BUY"%string. split_and!; [apply elem_of_cons; by left| |done].
      apply elem_of_cons; by left.
    + apply emits_bind; [|intros; apply Hrest].
      unfold BasicBot.create_order. repeat emits_step; try done.
      exists i, "SELL"%string. split_and!; [apply elem_of_cons; by left| |done].
      apply elem_of_cons; right. apply elem_of_cons; by left.
Qed.

Lemma create_grid_orders_emits_sides symbol lower_price upper_price levels qty
    pside :
  emits (creates_with (fun req =>
           Request.side req = "BUY"%string \/ Request.side req = "SELL"%string))
        (GridBot.create_grid_orders client symbol lower_price upper_price levels
           qty pside).
Proof.
  unfold GridBot.create_grid_orders.
  repeat (apply emits_if; [apply emits_raise|]).
  emits_step; [emits_step|].
  emits_step; [by apply get_current_price_emits|].
  eapply emits_impl; [|apply create_grid_loop_emits_levels].
  intros ev. apply creates_with_impl.
  intros req (i & side & _ & Hside & ->). cbn.
  apply elem_of_cons in Hside as [->|Hside]; [by left|].
  apply elem_of_cons in Hside as [->|Hside]; [by right|].
  by apply elem_of_nil in Hside.
Qed.

(** The checks of [create_grid_orders], read as facts about the plan. *)
Lemma create_grid_orders_valid symbol lower_price upper_price levels qty :
  bool_decide (upper_price <= lower_price) = false ->
  bool_decide (levels < 2)%Z = false ->
  BasicBot.validate_order_params symbol "BUY" qty (Some lower_price) = true ->
  lower_price < upper_price /\ (2 <= levels)%Z
  /\ Validator.validate_symbol symbol = true /\ upper symbol = symbol
  /\ Config.MIN_QUANTITY <= qty /\ Config.MIN_PRICE <= lower_price.
Proof.
  intros H1 H2 Hv.
  apply bool_decide_eq_false in H1. apply bool_decide_eq_false in H2.
  apply validate_order_params_inv in Hv as (Hsym & _ & Hq & Hp).
  split_and!; [by apply Qcnot_le_lt|lia|done|by apply validate_symbol_upper
              |done|by apply Hp].
Qed.

(** X9. Every order that [create_grid_orders] sends, however the run
    ends, is a GTC limit order for the validated symbol, with side BUY or
    SELL and the given quantity, which is at least [MIN_QUANTITY]; its
    price has two decimals (rounding it again changes nothing), is at
    least [MIN_PRICE] and is not below the rounded lower bound of the
    grid. *)
Theorem create_grid_orders_requests_checked symbol lower_price upper_price
    levels qty position_side s :
  Forall (fun req =>
            checked_request req
            /\ Request.symbol req = symbol
            /\ Request.type req = "LIMIT"%string
            /\ Request.timeInForce req = Some "GTC"%string
            /\ Request.quantity req = qty
            /\ exists p,
                 Request.price req = Some p
                 /\ round p 2 = p
                 /\ Config.MIN_PRICE <= p
                 /\ round lower_price 2 <= p)
    (created (events_of
       (GridBot.create_grid_orders client symbol lower_price upper_price levels
          qty position_side s))).
Proof.
  unfold GridBot.create_grid_orders.
  destruct (bool_decide (upper_price <= lower_price)) eqn:H1; [constructor|].
  destruct (bool_decide (levels < 2)%Z) eqn:H2; [constructor|].
  destruct (BasicBot.validate_order_params symbol "BUY" qty (Some lower_price))
    eqn:Hv; cbn [negb]; [|constructor].
  destruct (create_grid_orders_valid _ _ _ _ _ H1 H2 Hv)
    as (Hlt & Hlv & Hsym & Hup & Hq & Hp).
  rewrite truediv_nonzero by (apply float_of_int_nonzero; lia).
  rewrite (bind_Ok _ _ s _ s [] eq_refl), after_nil.
  apply Forall_created. revert s. apply emits_bind.
  { by apply get_current_price_emits. }
  intros cur. eapply emits_impl; [|apply create_grid_loop_emits_levels].
  intros ev. apply creates_with_impl.
  intros req (i & side & Hi & Hside & ->). rewrite Hup.
  apply elem_of_seqZ in Hi.
  change (lower_price + float_of_int i
          * ((upper_price - lower_price) / float_of_int (levels - 1)))
    with (exact_level lower_price upper_price levels i).
  assert (Hlo : lower_price <= exact_level lower_price upper_price levels i).
  { rewrite <- (exact_level_first lower_price upper_price levels) at 1.
    apply exact_level_mono; [done..|lia]. }
  split_and!; try done. eexists. split; [done|]. split_and!.
  - apply round_idempotent.
  - rewrite <- round_min_price. apply round_mono.
    by apply (Qcle_trans _ lower_price).
  - by apply round_mono.
Qed.

(** X10. [create_grid_orders] makes no call to the venue for a plan it
    rejects: when the upper bound does not exceed the lower bound, when
    there are fewer than two levels, or when symbol, quantity or lower
    price fail validation, it raises a [ValueError] and the venue is left
    untouched.  For every other plan its first call is the price fetch
    for the symbol. *)
Theorem create_grid_orders_guarded symbol lower_price upper_price levels qty
    position_side s :
  let run := GridBot.create_grid_orders client symbol lower_price upper_price
               levels qty position_side s in
  ((upper_price <= lower_price \/ (levels < 2)%Z
    \/ BasicBot.validate_order_params symbol "BUY" qty (Some lower_price) = false)
   /\ run = (Raise ValueError, s, []))
  \/ (lower_price < upper_price /\ (2 <= levels)%Z
      /\ BasicBot.validate_order_params symbol "BUY" qty (Some lower_price) = true
      /\ exists r rest, events_of run = EvTicker symbol r :: rest).
Proof.
  intros run. subst run. unfold GridBot.create_grid_orders.
  destruct (bool_decide (upper_price <= lower_price)) eqn:H1.
  { left. apply bool_decide_eq_true in H1. auto. }
  destruct (bool_decide (levels < 2)%Z) eqn:H2.
  { left. apply bool_decide_eq_true in H2. auto. }
  destruct (BasicBot.validate_order_params symbol "BUY" qty (Some lower_price))
    eqn:Hv; cbn [negb]; [right|left; auto].
  destruct (create_grid_orders_valid _ _ _ _ _ H1 H2 Hv)
    as (Hlt & Hlv & Hsym & Hup & Hq & Hp).
  split_and!; try done.
  rewrite truediv_nonzero by (apply float_of_int_nonzero; lia).
  rewrite (bind_Ok _ _ s _ s [] eq_refl), after_nil, bind_events, Hup.
  destruct (get_current_price_cases client symbol s)
    as [[Hbad _]|(_ & r & s1 & _ & ->)]; [congruence|].
  rewrite Hup. by exists r; eexists.
Qed.

Lemma placed_side_app side (t1 t2 : list Event) :
  placed_side side (t1 ++ t2) = placed_side side t1 ++ placed_side side t2.
Proof. apply omap_app. Qed.

(** The loop returns the lists it was given, extended by the orders that
    the venue accepted; a refusal that is a [BinanceAPIException] does
    not stop it. *)
Lemma create_grid_loop_result symbol lower_price step cur qty pside range buys
    sells s r s' evs :
  GridBot.create_grid_loop client symbol lower_price step cur qty pside range
    buys sells s = (r, s', evs) ->
  (forall b sl, r = Ok (b, sl) ->
     b = buys ++ placed_side "BUY" evs /\ sl = sells ++ placed_side "SELL" evs)
  /\ (Forall transient evs -> exists b sl, r = Ok (b, sl)).
Proof.
  revert buys sells s r s' evs.
  induction range as [|i range IH]; intros buys sells s r s' evs Hrun.
  - injection Hrun as <- _ <-. split; [|eauto].
    intros b sl [= <- <-]. by rewrite !app_nil_r.
  - cbn [GridBot.create_grid_loop] in Hrun.
    repeat case_bool_decide; [| |by apply IH in Hrun];
      unfold bind at 1 in Hrun; rewrite grid_attempt_cases in Hrun;
      (destruct (futures_create_order client _ s) as [[o|[code| | |]] s1];
       try (injection Hrun as <- _ <-; split; [done|];
            intros Ht; apply Forall_inv in Ht; done));
      destruct (GridBot.create_grid_loop _ _ _ _ _ _ _ _ _ _ _)
        as [[r2 s2] t2] eqn:Hloop;
      injection Hrun as <- _ <-; apply IH in Hloop as [Hret Hok];
      (split;
       [ intros b sl Hr; destruct (Hret b sl Hr) as [-> ->];
         unfold placed_side; cbn [omap list_omap Request.side app];
         rewrite ?bool_decide_true by done; rewrite ?bool_decide_false by done;
         by rewrite <- ?(assoc_L (++))
       | intros Ht; apply Hok;
         first [by do 2 apply Forall_inv_tail in Ht
               | by apply Forall_inv_tail in Ht] ]).
Qed.

(** X11. The two lists that [create_grid_orders] returns are exactly the
    orders that the venue accepted during the run: the accepted BUY
    orders and the accepted SELL orders, each in the order of the
    levels.  A refused order is in neither list. *)
Theorem create_grid_orders_returns_accepted symbol lower_price upper_price
    levels qty position_side s buy_orders sell_orders s' evs :
  GridBot.create_grid_orders client symbol lower_price upper_price levels qty
    position_side s = (Ok (buy_orders, sell_orders), s', evs) ->
  buy_orders = placed_side "BUY" evs
  /\ sell_orders = placed_side "SELL" evs
  /\ placed evs ≡ₚ buy_orders ++ sell_orders.
Proof.
  intros Hrun.
  assert (Hsplit : forall t, Forall (creates_with (fun req =>
                      Request.side req = "BUY"%string
                      \/ Request.side req = "SELL"%string)) t ->
                    placed t ≡ₚ placed_side "BUY" t ++ placed_side "SELL" t).
  { induction t as [|ev t IHt]; [done|]. intros Ht.
    pose proof (Forall_inv Ht) as Hev. apply Forall_inv_tail in Ht.
    specialize (IHt Ht).
    destruct ev as [| |req [o|e]| | |]; cbn; try done.
    destruct Hev as [-> | ->]; cbn.
    - by constructor.
    - rewrite IHt. apply Permutation_middle. }
  assert (Hsides : Forall (creates_with (fun req =>
                      Request.side req = "BUY"%string
                      \/ Request.side req = "SELL"%string)) evs).
  { pose proof (create_grid_orders_emits_sides symbol lower_price upper_price
                  levels qty position_side s) as Hall.
    by rewrite Hrun in Hall. }
  unfold GridBot.create_grid_orders in Hrun.
  case_bool_decide; [done|]. case_bool_decide; [done|].
  destruct (BasicBot.validate_order_params _ _ _ _); [|done]. cbn [negb] in Hrun.
  apply bind_inv_Ok in Hrun as (step & s1 & t1 & t2 & Hstep & Hrun & ->).
  apply bind_inv_Ok in Hrun as (cur & s2 & t3 & t4 & Hprice & Hrun & ->).
  unfold lift_res in Hstep. injection Hstep as _ _ <-.
  apply create_grid_loop_result in Hrun as [Hret _].
  destruct (Hret _ _ eq_refl) as [Hb Hs].
  assert (Ht3 : (forall side, placed_side side t3 = []) /\ placed t3 = []).
  { destruct (get_current_price_cases client (upper symbol) s1)
      as [[_ Hp]|(_ & r & sx & _ & Hp)]; rewrite Hp in Hprice;
      by injection Hprice as _ _ <-. }
  destruct Ht3 as [Ht3 Hp3]. cbn [app] in *.
  apply Forall_app in Hsides as [_ Hsides].
  rewrite !placed_side_app, placed_app, !Ht3, Hp3. cbn [app].
  rewrite Hb, Hs. split_and!; [done..|]. by apply Hsplit.
Qed.

(** X12. A refusal of the venue does not stop [create_grid_orders]: for a
    plan that passes the checks, once the price fetch has succeeded, the
    run ends with its two lists provided every failure in its log is a
    [BinanceAPIException]; and then every level off the current price
    has been sent, those after a refused one included. *)
Theorem create_grid_orders_survives_refusals symbol lower_price upper_price
    levels qty position_side s cur s1 t1 :
  lower_price < upper_price -> (2 <= levels)%Z ->
  BasicBot.validate_order_params symbol "BUY" qty (Some lower_price) = true ->
  BasicBot.get_current_price client symbol s = (Ok cur, s1, t1) ->
  let run := GridBot.create_grid_orders client symbol lower_price upper_price
               levels qty position_side s in
  Forall transient (events_of run) ->
  (exists buy_orders sell_orders, result_of run = Ok (buy_orders, sell_orders))
  /\ created (events_of run)
     = omap (grid_request symbol lower_price
               ((upper_price - lower_price) / float_of_int (levels - 1))
               cur qty (upper position_side))
            (seqZ 0 levels).
Proof.
  intros Hlt Hlv Hv Hprice run Hlog.
  pose proof (validate_symbol_upper _ (validate_order_params_symbol _ _ _ _ Hv))
    as Hup.
  assert (Hok : exists buy_orders sell_orders,
            result_of run = Ok (buy_orders, sell_orders)).
  { subst run. revert Hlog. unfold GridBot.create_grid_orders.
    rewrite bool_decide_false by by apply Qclt_not_le.
    rewrite bool_decide_false by lia. rewrite Hv. cbn [negb].
    rewrite truediv_nonzero by (apply float_of_int_nonzero; lia).
    rewrite (bind_Ok _ _ s _ s [] eq_refl), after_nil, Hup.
    rewrite (bind_Ok _ _ _ _ _ _ Hprice).
    destruct (GridBot.create_grid_loop _ _ _ _ _ _ _ _ _ _ _)
      as [[r s2] t2] eqn:Hloop.
    unfold after, events_of, result_of. cbn [fst snd].
    intros [_ Ht2]%Forall_app.
    by apply create_grid_loop_result in Hloop as [_ Hloop]; apply Hloop. }
  split; [done|]. destruct Hok as (buy_orders & sell_orders & Hok).
  rewrite <- Hup in Hprice.
  rewrite <- Hup at 1.
  refine (proj2 (create_grid_orders_created client symbol lower_price
                   upper_price levels qty position_side s cur s1 t1
                   (buy_orders, sell_orders) (state_of run) (events_of run)
                   Hprice _)).
  rewrite <- Hok. subst run.
  by destruct (GridBot.create_grid_orders _ _ _ _ _ _ _ _) as [[? ?] ?].
Qed.

(** X13. With a single level, [monitor_and_rebalance_grid] does not
    reject the plan as [create_grid_orders] does with a [ValueError]: its
    first pass fetches the price and the open orders and then divides by
    zero levels, so the run ends with a [ZeroDivisionError] after these
    two calls and no order sent. *)
Theorem rebalance_single_level_raises symbol lower_price upper_price qty
    interval max_iterations position_side s cur s1 t1 open_orders s2 t2 :
  (1 <= max_iterations)%Z ->
  BasicBot.get_current_price client (upper symbol) s = (Ok cur, s1, t1) ->
  BasicBot.get_open_orders client (Some (upper symbol)) s1
  = (Ok open_orders, s2, t2) ->
  GridBot.monitor_and_rebalance_grid client symbol lower_price upper_price 1
    qty interval max_iterations s
  = (Raise ZeroDivisionError, s2, t1 ++ t2)
  /\ created (t1 ++ t2) = []
  /\ GridBot.create_grid_orders client symbol lower_price upper_price 1 qty
       position_side s
     = (Raise ValueError, s, []).
Proof.
  intros Hmax Hprice Hopen. split_and!.
  - unfold GridBot.monitor_and_rebalance_grid.
    destruct (Z.to_nat max_iterations) as [|n] eqn:Hn; [lia|].
    cbn [GridBot.rebalance_loop]. apply bind_Raise.
    unfold GridBot.rebalance_iteration.
    rewrite (bind_Ok _ _ _ _ _ _ Hprice), (bind_Ok _ _ _ _ _ _ Hopen).
    unfold truediv. rewrite decide_True by (apply Qc_is_canon; reflexivity).
    rewrite (bind_Raise _ _ s2 ZeroDivisionError s2 [] eq_refl).
    unfold after, result_of, state_of, events_of. cbn [fst snd].
    by rewrite app_nil_r.
  - pose proof (get_current_price_created client (upper symbol) s) as Hc1.
    pose proof (get_open_orders_created client (Some (upper symbol)) s1) as Hc2.
    rewrite Hprice in Hc1. rewrite Hopen in Hc2. simpl in Hc1, Hc2.
    by rewrite created_app, Hc1, Hc2.
  - unfold GridBot.create_grid_orders. case_bool_decide; [done|].
    by rewrite bool_decide_true by lia.
Qed.

End GridSentFacts.

(** Five levels around 45000 on a venue that refuses the second order it
    receives: all four orders are sent, three are accepted, and the run
    ends with its lists. *)
Lemma create_grid_orders_survives_refusals_witness :
  let run := GridBot.create_grid_orders Sim.client "BTCUSDT"
               (float_of_int 44000) (float_of_int 46000) 5
               (float_of_Q (1 # 100)) "BOTH" venue_refusing_second_order in
  (exists buy_orders sell_orders, result_of run = Ok (buy_orders, sell_orders))
  /\ length (created (events_of run)) = 4%nat
  /\ length (placed (events_of run)) = 3%nat.
Proof.
  intros run.
  destruct (create_grid_orders_survives_refusals Sim.client "BTCUSDT"
              (float_of_int 44000) (float_of_int 46000) 5
              (float_of_Q (1 # 100)) "BOTH" venue_refusing_second_order
              (float_of_int 45000) venue_refusing_second_order
              [EvTicker "BTCUSDT" (Ok (VStr (float_of_int 45000)))])
    as [Hok Hsent].
  - vm_compute; reflexivity.
  - lia.
  - vm_compute; reflexivity.
  - vm_compute; reflexivity.
  - vm_compute. transient_log.
  - split; [exact Hok|]. subst run. rewrite Hsent.
    split; vm_compute; reflexivity.
Defined.

(** On the same venue the lists returned are the one accepted BUY order
    and the two accepted SELL orders; the refused BUY order is in
    neither. *)
Lemma create_grid_orders_returns_accepted_witness :
  let run := GridBot.create_grid_orders Sim.client "BTCUSDT"
               (float_of_int 44000) (float_of_int 46000) 5
               (float_of_Q (1 # 100)) "BOTH" venue_refusing_second_order in
  result_of run
  = Ok (placed_side "BUY" (events_of run), placed_side "SELL" (events_of run))
  /\ length (placed_side "BUY" (events_of run)) = 1%nat
  /\ length (placed_side "SELL" (events_of run)) = 2%nat.
Proof.
  intros run.
  set (lists := returned ([], []) (result_of run)).
  assert (Hrun : run = (Ok (lists.1, lists.2), state_of run, events_of run))
    by (vm_compute; reflexivity).
  destruct (create_grid_orders_returns_accepted Sim.client _ _ _ _ _ _ _ _ _ _ _
              Hrun) as (Hb & Hs & _).
  split; [|split; vm_compute; reflexivity].
  rewrite <- Hb, <- Hs. vm_compute; reflexivity.
Defined.

(** A one-level grid on a quiet venue: the monitor stops at the division,
    after its two fetches. *)
Lemma rebalance_single_level_raises_witness :
  GridBot.monitor_and_rebalance_grid Sim.client "BTCUSDT" (float_of_int 44000)
    (float_of_int 46000) 1 (float_of_Q (1 # 100)) 30 3
    (Sim.quiet (float_of_int 45000))
  = (Raise ZeroDivisionError, Sim.quiet (float_of_int 45000),
     [EvTicker "BTCUSDT" (Ok (VStr (float_of_int 45000)));
      EvOpenOrders (Some "BTCUSDT"%string) (Ok [])]).
Proof.
  refine (proj1 (rebalance_single_level_raises Sim.client "BTCUSDT"
                   (float_of_int 44000) (float_of_int 46000)
                   (float_of_Q (1 # 100)) 30 3 "BOTH"
                   (Sim.quiet (float_of_int 45000)) (float_of_int 45000)
                   (Sim.quiet (float_of_int 45000))
                   [EvTicker "BTCUSDT" (Ok (VStr (float_of_int 45000)))]
                   [] (Sim.quiet (float_of_int 45000))
                   [EvOpenOrders (Some "BTCUSDT"%string) (Ok [])] _ _ _)).
  - lia.
  - vm_compute; reflexivity.
  - vm_compute; reflexivity.
Defined.

(** ** What the strategies never do, and how long they run *)

Section NeverFacts.
Context {S : Type} (client : Client S).
Context (P : Event -> Prop).
Hypothesis P_ticker : forall symbol r, P (EvTicker symbol r).
Hypothesis P_open : forall symbol r, P (EvOpenOrders symbol r).
Hypothesis P_create : forall req r, P (EvCreateOrder req r).
Hypothesis P_sleep : forall d, P (EvSleep d).

Lemma create_grid_loop_emits_any symbol lower_price step cur qty pside range
    buys sells :
  emits P (GridBot.create_grid_loop client symbol lower_price step cur qty pside
             range buys sells).
Proof.
  revert buys sells. induction range as [|i range IH]; intros buys sells;
    cbn [GridBot.create_grid_loop].
  - apply emits_ret.
  - repeat case_bool_decide; [| |apply IH];
      (apply emits_bind; [|intros; apply IH]); unfold BasicBot.create_order;
      repeat emits_step; auto.
Qed.

Lemma replace_loop_emits_any symbol side qty prices :
  emits P (GridBot.replace_loop client symbol side qty prices).
Proof.
  induction prices as [|price prices IH]; cbn [GridBot.replace_loop].
  - apply emits_ret.
  - apply emits_bind; [|intros; apply IH]. unfold BasicBot.create_order.
    repeat emits_step; auto.
Qed.

Lemma rebalance_iteration_emits_any symbol lower_price upper_price levels qty
    interval :
  emits P (GridBot.rebalance_iteration client symbol lower_price upper_price
             levels qty interval).
Proof.
  unfold GridBot.rebalance_iteration.
  emits_step; [by apply get_current_price_emits|].
  emits_step; [by apply get_open_orders_emits|].
  emits_step; [emits_step|].
  destruct (GridBot.expected_prices_loop _ _ _ _ _ _) as [eb es].
  emits_step; [apply replace_loop_emits_any|].
  emits_step; [apply replace_loop_emits_any|].
  by emits_step.
Qed.

Lemma rebalance_loop_emits_any symbol lower_price upper_price levels qty
    interval n :
  emits P (GridBot.rebalance_loop client symbol lower_price upper_price levels
             qty interval n).
Proof.
  induction n as [|n IH]; cbn [GridBot.rebalance_loop].
  - apply emits_ret.
  - apply emits_bind; [apply rebalance_iteration_emits_any | intros _; apply IH].
Qed.

Lemma create_grid_orders_emits_any symbol lower_price upper_price levels qty
    pside :
  emits P (GridBot.create_grid_orders client symbol lower_price upper_price
             levels qty pside).
Proof.
  unfold GridBot.create_grid_orders.
  repeat (apply emits_if; [apply emits_raise|]).
  emits_step; [emits_step|].
  emits_step; [by apply get_current_price_emits|].
  apply create_grid_loop_emits_any.
Qed.

Lemma twap_loop_emits_any symbol side size interval num pside use_limit pct
    range acc :
  emits P (TWAPBot.twap_loop client symbol side size interval num pside
             use_limit pct range acc).
Proof.
  revert acc. induction range as [|i range IH]; intros acc;
    cbn [TWAPBot.twap_loop].
  - apply emits_ret.
  - apply emits_bind.
    + apply emits_try_except_api; [|intros; apply emits_ret].
      apply emits_bind; [by apply get_current_price_emits|intros cur].
      apply emits_bind; [|intros; apply emits_ret].
      destruct use_limit; unfold BasicBot.create_order; by apply emits_call.
    + intros [order|]; [|apply IH].
      apply emits_bind; [|intros; apply IH].
      case_bool_decide; [by apply emits_sleep | apply emits_ret].
Qed.

Lemma execute_twap_emits_any symbol side total dur num pside use_limit pct :
  emits P (TWAPBot.execute_twap client symbol side total dur num pside
             use_limit pct).
Proof.
  unfold TWAPBot.execute_twap.
  repeat (apply emits_if; [apply emits_raise|]).
  emits_step; [emits_step|]. emits_step; [emits_step|].
  emits_step; [apply twap_loop_emits_any|].
  emits_step; [emits_step|]. emits_step.
Qed.

Lemma place_oco_order_emits_any symbol side qty tp sl pside :
  emits P (OCOOrderBot.place_oco_order client symbol side qty tp sl pside).
Proof.
  unfold OCOOrderBot.place_oco_order.
  apply emits_if; [apply emits_raise|].
  emits_step; [by apply get_current_price_emits|].
  unfold BasicBot.create_order. repeat emits_step; auto.
Qed.

End NeverFacts.

Section NeverClaims.
Context {S : Type} (client : Client S).

(** X14. Of the strategies, only the OCO monitor ever cancels or queries
    an order.  [create_grid_orders], [monitor_and_rebalance_grid],
    [execute_twap] and [place_oco_order] fetch prices and open orders,
    place orders and sleep, and nothing else: the grid monitor never
    cancels an order that has left the grid, the TWAP run never cancels
    an unfilled slice, and [place_oco_order] does not take back the
    take-profit leg when the stop-loss leg fails. *)
Theorem strategies_leave_orders symbol side lower_price upper_price levels qty
    interval max_iterations dur num position_side use_limit pct tp sl s :
  Forall leaves_orders
    (events_of (GridBot.create_grid_orders client symbol lower_price upper_price
                  levels qty position_side s))
  /\ Forall leaves_orders
       (events_of (GridBot.monitor_and_rebalance_grid client symbol lower_price
                     upper_price levels qty interval max_iterations s))
  /\ Forall leaves_orders
       (events_of (TWAPBot.execute_twap client symbol side qty dur num
                     position_side use_limit pct s))
  /\ Forall leaves_orders
       (events_of (OCOOrderBot.place_oco_order client symbol side qty tp sl
                     position_side s)).
Proof.
  split_and!.
  - by apply create_grid_orders_emits_any.
  - by apply rebalance_loop_emits_any.
  - by apply execute_twap_emits_any.
  - by apply place_oco_order_emits_any.
Qed.

Lemma tickers_nil_of_emits {A} (m : M S A) s :
  emits (fun ev => match ev with EvTicker _ _ => False | _ => True end) m ->
  tickers (events_of (m s)) = [].
Proof.
  intros Hm. specialize (Hm s). induction Hm as [|ev evs Hev _ IH]; [done|].
  destruct ev; cbn; try done.
Qed.

(** A pass fetches the price once, at its start. *)
Lemma rebalance_iteration_tickers symbol lower_price upper_price levels qty
    interval s :
  let run := GridBot.rebalance_iteration client symbol lower_price upper_price
               levels qty interval s in
  (length (tickers (events_of run)) <= 1)%nat
  /\ (forall u, result_of run = Ok u -> length (tickers (events_of run)) = 1%nat).
Proof.
  intros run. subst run. unfold GridBot.rebalance_iteration.
  rewrite bind_events, tickers_app.
  set (rest := match result_of _ with Ok a => _ | Raise _ => [] end).
  assert (Hrest : tickers rest = []).
  { subst rest. destruct (result_of _) as [cur|e]; [|done].
    apply tickers_nil_of_emits.
    emits_step; [by apply get_open_orders_emits|].
    emits_step; [emits_step|].
    destruct (GridBot.expected_prices_loop _ _ _ _ _ _) as [eb es].
    emits_step; [by apply replace_loop_emits_any|].
    emits_step; [by apply replace_loop_emits_any|].
    by emits_step. }
  rewrite length_app, Hrest. cbn [length]. rewrite Nat.add_0_r.
  destruct (get_current_price_cases client symbol s)
    as [[_ Hp]|(_ & r & s1 & _ & Hp)].
  - split; [rewrite Hp; cbn; lia|]. intros u.
    rewrite (bind_Raise _ _ _ _ _ _ Hp). done.
  - rewrite Hp. cbn. split; [lia|done].
Qed.

(** X15. [monitor_and_rebalance_grid] runs at most [max_iterations]
    passes, each starting with one price fetch: the log never holds more
    price fetches than that, and holds exactly that many when the run
    ends normally.  With [max_iterations] zero or negative it returns at
    once, without any call to the venue. *)
Theorem rebalance_passes_bounded symbol lower_price upper_price levels qty
    interval max_iterations s :
  let run := GridBot.monitor_and_rebalance_grid client symbol lower_price
               upper_price levels qty interval max_iterations s in
  (length (tickers (events_of run)) <= Z.to_nat max_iterations)%nat
  /\ (result_of run = Ok tt ->
      length (tickers (events_of run)) = Z.to_nat max_iterations)
  /\ ((max_iterations <= 0)%Z -> run = (Ok tt, s, [])).
Proof.
  intros run. subst run. unfold GridBot.monitor_and_rebalance_grid.
  split_and!.
  - generalize (Z.to_nat max_iterations). intros n. revert s.
    induction n as [|n IH]; intros s; cbn [GridBot.rebalance_loop]; [done|].
    rewrite bind_events, tickers_app, length_app.
    pose proof (rebalance_iteration_tickers (upper symbol) lower_price
                  upper_price levels qty interval s) as [Hle _].
    destruct (result_of _); [|cbn; lia].
    specialize (IH (GridBot.rebalance_iteration client (upper symbol) lower_price
                      upper_price levels qty interval s).1.2).
    lia.
  - generalize (Z.to_nat max_iterations). intros n. revert s.
    induction n as [|n IH]; intros s; cbn [GridBot.rebalance_loop]; [done|].
    pose proof (rebalance_iteration_tickers (upper symbol) lower_price
                  upper_price levels qty interval s) as [_ Heq].
    destruct (GridBot.rebalance_iteration client (upper symbol) lower_price
                upper_price levels qty interval s) as [[[[]|e] s1] t1] eqn:Hit.
    + rewrite (bind_Ok _ _ _ _ _ _ Hit).
      unfold after, result_of, events_of. cbn [fst snd]. intros Hok.
      rewrite tickers_app, length_app.
      unfold result_of, events_of in Heq. cbn [fst snd] in Heq.
      rewrite (Heq tt eq_refl).
      f_equal. apply IH. exact Hok.
    + by rewrite (bind_Raise _ _ _ _ _ _ Hit).
  - intros Hz. by replace (Z.to_nat max_iterations) with 0%nat by lia.
Qed.

End NeverClaims.

(** Three passes on a quiet venue: three price fetches. *)
Lemma rebalance_passes_bounded_witness :
  let run := GridBot.monitor_and_rebalance_grid Sim.client "BTCUSDT"
               (float_of_int 44000) (float_of_int 46000) 5
               (float_of_Q (1 # 100)) 30 3 (Sim.quiet (float_of_int 45000)) in
  length (tickers (events_of run)) = 3%nat
  /\ GridBot.monitor_and_rebalance_grid Sim.client "BTCUSDT"
       (float_of_int 44000) (float_of_int 46000) 5 (float_of_Q (1 # 100)) 30 0
       (Sim.quiet (float_of_int 45000))
     = (Ok tt, Sim.quiet (float_of_int 45000), []).
Proof.
  intros run. split.
  - apply (proj1 (proj2 (rebalance_passes_bounded Sim.client "BTCUSDT"
                           (float_of_int 44000) (float_of_int 46000) 5
                           (float_of_Q (1 # 100)) 30 3
                           (Sim.quiet (float_of_int 45000))))).
    vm_compute; reflexivity.
  - apply (proj2 (proj2 (rebalance_passes_bounded Sim.client "BTCUSDT"
                           (float_of_int 44000) (float_of_int 46000) 5
                           (float_of_Q (1 # 100)) 30 0
                           (Sim.quiet (float_of_int 45000))))).
    lia.
Defined.

Section RebalanceSentFacts.
Context {S : Type} (client : Client S).

Lemma expected_prices_sides lower_price upper_price levels cur p :
  (p ∈ (expected_prices lower_price upper_price levels cur).1 -> p < cur)
  /\ (p ∈ (expected_prices lower_price upper_price levels cur).2 -> cur < p).
Proof.
  unfold expected_prices. rewrite expected_prices_loop_spec. cbn [fst snd].
  rewrite !elem_of_union, !elem_of_list_to_set, !list_elem_of_filter.
  split; (intros [H|[H _]]; [by apply elem_of_empty in H|done]).
Qed.

(** X16. A pass of the reconciliation that completes sends no order
    twice, and none where the venue has just reported an open order of
    the same side at the same price (to two decimals).  Every order it
    sends is a grid order for the symbol and quantity with position side
    BOTH, at a price of two decimals: strictly below the fetched price
    for a BUY, strictly above it for a SELL. *)
Theorem rebalance_sends_no_duplicate symbol lower_price upper_price levels qty
    interval s cur s1 t1 open_orders s2 t2 s' evs :
  BasicBot.get_current_price client symbol s = (Ok cur, s1, t1) ->
  BasicBot.get_open_orders client (Some symbol) s1 = (Ok open_orders, s2, t2) ->
  GridBot.rebalance_iteration client symbol lower_price upper_price levels qty
    interval s = (Ok tt, s', evs) ->
  NoDup (created evs)
  /\ forall req, req ∈ created evs ->
       exists p,
         req = grid_order symbol (Request.side req) qty p "BOTH"
         /\ round p 2 = p
         /\ (Request.side req = "BUY"%string /\ p < cur
             \/ Request.side req = "SELL"%string /\ cur < p)
         /\ forall o, o ∈ open_orders -> Order.side o = Request.side req ->
                      round (float (Order.price o)) 2 <> p.
Proof.
  intros Hprice Hopen Hrun.
  rewrite (rebalance_iteration_created client _ _ _ _ _ _ _ _ _ _ _ _ _ _ _
             Hprice Hopen Hrun).
  assert (Hinj : forall side, Inj (=) (=)
            (fun p => grid_order symbol side qty p "BOTH")).
  { intros side p q Heq. by injection Heq. }
  split.
  - apply list.NoDup_app. split_and!.
    + apply (NoDup_fmap_2 _), NoDup_elements.
    + intros req (p & -> & _)%list_elem_of_fmap (q & Heq & _)%list_elem_of_fmap.
      discriminate Heq.
    + apply (NoDup_fmap_2 _), NoDup_elements.
  - intros req [(p & -> & Hp)%list_elem_of_fmap|(p & -> & Hp)%list_elem_of_fmap]
      %elem_of_app; apply elem_of_elements in Hp; unfold missing_prices in Hp;
      [rewrite bool_decide_true in Hp by done
      |rewrite bool_decide_false in Hp by done];
      apply elem_of_difference in Hp as [Hexp Hnot]; exists p; cbn [Request.side grid_order].
    + split_and!; [done| |left|].
      * apply (expected_prices_rounded lower_price upper_price levels cur).
        by left.
      * split; [done|].
        by apply (expected_prices_sides lower_price upper_price levels cur).
      * intros o Ho Hside Heq. apply Hnot, elem_of_open_prices. by exists o.
    + split_and!; [done| |right|].
      * apply (expected_prices_rounded lower_price upper_price levels cur).
        by right.
      * split; [done|].
        by apply (expected_prices_sides lower_price upper_price levels cur).
      * intros o Ho Hside Heq. apply Hnot, elem_of_open_prices. by exists o.
Qed.

End RebalanceSentFacts.

(** A first pass on a quiet venue, with a five-level grid around 45000:
    the four orders it sends are pairwise distinct. *)
Lemma rebalance_sends_no_duplicate_witness :
  let run := GridBot.rebalance_iteration Sim.client "BTCUSDT"
               (float_of_int 44000) (float_of_int 46000) 5
               (float_of_Q (1 # 100)) 30 (Sim.quiet (float_of_int 45000)) in
  NoDup (created (events_of run)) /\ length (created (events_of run)) = 4%nat.
Proof.
  intros run. split; [|vm_compute; reflexivity].
  set (s0 := Sim.quiet (float_of_int 45000)).
  assert (Hrun : run = (Ok tt, state_of run, events_of run))
    by (vm_compute; reflexivity).
  subst run.
  refine (proj1 (rebalance_sends_no_duplicate Sim.client "BTCUSDT"
                   (float_of_int 44000) (float_of_int 46000) 5
                   (float_of_Q (1 # 100)) 30 s0 (float_of_int 45000) s0
                   [EvTicker "BTCUSDT" (Ok (VStr (float_of_int 45000)))]
                   [] s0 [EvOpenOrders (Some "BTCUSDT"%string) (Ok [])]
                   _ _ _ _ Hrun)).
  - vm_compute; reflexivity.
  - vm_compute; reflexivity.
Defined.

(** ** The TWAP run, as sent *)

Section TwapSentFacts.
Context {S : Type} (client : Client S).

(** The orders accepted are among the orders sent. *)
Lemma placed_le_created (evs : list Event) :
  (length (placed evs) <= length (created evs))%nat.
Proof.
  unfold placed, created.
  induction evs as [|[| |req [o|e]| | |] evs IH]; cbn [omap list_omap length];
    lia.
Qed.

(** An index of the loop sends at most one order. *)
Lemma twap_loop_created_count symbol side size interval num pside use_limit pct
    range acc s :
  (length (created (events_of
     (TWAPBot.twap_loop client symbol side size interval num pside use_limit
        pct range acc s))) <= length range)%nat.
Proof.
  revert acc s. induction range as [|i range IH]; intros acc s;
    cbn [TWAPBot.twap_loop]; [done|].
  set (attempt := try_except_api _ _).
  assert (Hatt : (length (created (events_of (attempt s))) <= 1)%nat).
  { subst attempt. rewrite try_except_api_events, created_app, length_app.
    rewrite bind_events, created_app, length_app, get_current_price_created.
    assert (Hhandler : forall (r : res (option Order.t)) (s1 : S),
              created (match r with
                       | Raise (BinanceAPIException code) =>
                           events_of (ret (S:=S) (@None Order.t) s1)
                       | _ => []
                       end) = []).
    { by intros [|[]] s1. }
    rewrite Hhandler. cbn [length]. rewrite Nat.add_0_r.
    destruct (result_of _) as [cur|e]; [|cbn; lia].
    destruct use_limit; unfold bind, BasicBot.create_order, call;
      match goal with
      | |- context [futures_create_order client ?req ?s1] =>
          destruct (futures_create_order client req s1) as [[o|e] s2]
      end; cbn; lia. }
  rewrite bind_events, created_app, length_app. cbn [length].
  destruct (result_of (attempt s)) as [[order|]|e].
  - rewrite bind_events, created_app, length_app.
    assert (Hs : created (events_of
              ((if bool_decide (i < num - 1)%Z then sleep interval else ret tt)
                 (attempt s).1.2)) = []).
    { case_bool_decide; [|done]. unfold sleep. by case_bool_decide. }
    rewrite Hs. cbn [length].
    destruct (result_of _); [|cbn; lia].
    match goal with
    | |- context [TWAPBot.twap_loop _ _ _ _ _ _ _ _ _ _ ?a ?s1] =>
        specialize (IH a s1)
    end. lia.
  - specialize (IH acc (attempt s).1.2). lia.
  - cbn. lia.
Qed.

(** X17. [execute_twap] sends at most [num_orders] orders, whatever the
    venue answers: the loop makes one attempt per index and an attempt
    sends one order at most.  The orders accepted are no more than the
    orders sent, and the ledger returned has at most [num_orders]
    entries. *)
Theorem twap_sends_at_most_num_orders symbol side total dur num pside use_limit
    pct s :
  let run := TWAPBot.execute_twap client symbol side total dur num pside
               use_limit pct s in
  (length (created (events_of run)) <= Z.to_nat num)%nat
  /\ (length (placed (events_of run)) <= length (created (events_of run)))%nat
  /\ (length (returned [] (result_of run)) <= Z.to_nat num)%nat.
Proof.
  intros run.
  assert (Hcount : (length (created (events_of run)) <= Z.to_nat num)%nat).
  { subst run.
    destruct (execute_twap_cases client symbol side total dur num pside
                use_limit pct s) as [->|(Hv & Hn & Hd & Hsym & ->)].
    - cbn [events_of snd created omap list_omap length]. lia.
    - etrans; [apply twap_loop_created_count|]. by rewrite length_seqZ. }
  pose proof (placed_le_created (events_of run)) as Hplaced.
  split_and!; [done..|].
  subst run.
  destruct (execute_twap_cases client symbol side total dur num pside use_limit
              pct s) as [Hrun|(Hv & Hn & Hd & Hsym & Hrun)];
    rewrite Hrun in *; [cbn; lia|].
  destruct (TWAPBot.twap_loop _ _ _ _ _ _ _ _ _ _ _ s) as [[[ledger|e] s1] t1]
    eqn:Hloop; [|cbn; lia].
  apply twap_loop_ledger in Hloop; [|done]. subst ledger.
  unfold result_of, events_of in *. cbn [fst snd returned app] in *. lia.
Qed.

(** X18. The quantity check of [execute_twap] bears on the total, not on
    the slice.  For a plan that passes the checks and whose slice
    [total_quantity / num_orders] is below [MIN_QUANTITY], the minimum
    that the single-order bots enforce, every order sent has a quantity
    below [MIN_QUANTITY]; and such an order is sent as soon as the first
    price fetch answers, with the slice as its quantity. *)
Theorem twap_slice_unchecked symbol side total dur num pside use_limit pct s :
  BasicBot.validate_order_params symbol side total None = true ->
  (1 <= num)%Z -> (1 <= dur)%Z ->
  total / float_of_int num < Config.MIN_QUANTITY ->
  let run := TWAPBot.execute_twap client symbol side total dur num pside
               use_limit pct s in
  Forall (fun req => Request.quantity req < Config.MIN_QUANTITY)
    (created (events_of run))
  /\ (forall v s1,
        futures_symbol_ticker client (upper symbol) s = (Ok v, s1) ->
        exists req r rest,
          events_of run
          = EvTicker (upper symbol) (Ok v) :: EvCreateOrder req r :: rest
          /\ Request.quantity req = total / float_of_int num
          /\ Request.quantity req < Config.MIN_QUANTITY).
Proof.
  intros Hv Hn Hd Hsmall run. subst run.
  rewrite (execute_twap_unfold client) by done.
  split.
  { apply Forall_created. eapply Forall_impl; [|apply twap_loop_emits].
    intros [| |req r| | |] [Hq _]; cbn in *; try done. by rewrite Hq. }
  intros v s1 Htick.
  assert (Hsym : Validator.validate_symbol (upper symbol) = true).
  { apply validate_order_params_symbol in Hv.
    by rewrite (validate_symbol_upper _ Hv). }
  rewrite (seqZ_cons 0 num) by lia. cbn [TWAPBot.twap_loop].
  set (attempt := try_except_api _ _).
  assert (Hatt : exists req r,
            events_of (attempt s)
            = [EvTicker (upper symbol) (Ok v); EvCreateOrder req r]
            /\ Request.quantity req = total / float_of_int num).
  { destruct (get_current_price_cases client (upper symbol) s)
      as [[Hbad _]|(_ & r & s1' & Htick' & Hprice)]; [congruence|].
    rewrite upper_idempotent in Htick', Hprice.
    rewrite Htick in Htick'. injection Htick' as <- <-.
    subst attempt. unfold try_except_api, bind. rewrite Hprice.
    destruct use_limit; unfold BasicBot.create_order, call;
      match goal with
      | |- context [futures_create_order client ?req ?s2] =>
          destruct (futures_create_order client req s2) as [[o|[code| | |]] s3]
      end; cbn; eexists _, _; split; reflexivity. }
  destruct Hatt as (req & r & Hatt & Hq).
  rewrite bind_events, Hatt. cbn [app].
  eexists req, r, _. split_and!; [reflexivity|done|by rewrite Hq].
Qed.

(** X19. [execute_twap] makes no call to the venue for a plan it rejects:
    when symbol, side or total quantity fail validation, or when the
    number of orders or the duration is below one, it raises a
    [ValueError] and the venue is left untouched.  For every other plan
    its first call is the price fetch for the symbol. *)
Theorem execute_twap_guarded symbol side total dur num pside use_limit pct s :
  let run := TWAPBot.execute_twap client symbol side total dur num pside
               use_limit pct s in
  ((BasicBot.validate_order_params symbol side total None = false
    \/ (num < 1)%Z \/ (dur < 1)%Z)
   /\ run = (Raise ValueError, s, []))
  \/ (BasicBot.validate_order_params symbol side total None = true
      /\ (1 <= num)%Z /\ (1 <= dur)%Z
      /\ exists r rest, events_of run = EvTicker symbol r :: rest).
Proof.
  intros run. subst run.
  destruct (BasicBot.validate_order_params symbol side total None) eqn:Hv;
    [|left; split; [auto|apply execute_twap_invalid; auto]].
  destruct (decide (num < 1)%Z);
    [left; split; [auto|apply execute_twap_invalid; auto]|].
  destruct (decide (dur < 1)%Z);
    [left; split; [auto|apply execute_twap_invalid; auto]|].
  right. split_and!; [done|lia|lia|].
  rewrite execute_twap_unfold by (done || lia).
  pose proof (validate_symbol_upper _ (validate_order_params_symbol _ _ _ _ Hv))
    as Hup.
  rewrite Hup. destruct (seqZ 0 num) as [|i range] eqn:Hseq.
  { apply (f_equal length) in Hseq. rewrite length_seqZ in Hseq.
    cbn in Hseq. lia. }
  cbn [TWAPBot.twap_loop]. rewrite bind_events, try_except_api_events.
  rewrite bind_events.
  destruct (get_current_price_cases client symbol s)
    as [[Hbad _]|(_ & r & s1 & _ & ->)].
  { apply validate_order_params_symbol in Hv. congruence. }
  rewrite Hup. cbn [events_of snd app]. by exists r; eexists.
Qed.

Lemma priced_from_weaken request latest evs :
  priced_from request None evs -> priced_from request latest evs.
Proof.
  induction evs as [|ev evs IH]; [done|].
  destruct ev as [sym [v|e]| | | | |]; cbn [priced_from]; done.
Qed.

Lemma priced_from_app request latest t1 t2 :
  priced_from request latest t1 ->
  priced_from request (latest_price latest t1) t2 ->
  priced_from request latest (t1 ++ t2).
Proof.
  revert latest. induction t1 as [|ev t1 IH]; intros latest; [done|].
  destruct ev as [sym [v|e]| |req r| | |]; cbn [priced_from latest_price foldl app];
    try apply IH.
  destruct latest as [price|]; [|done]. intros [Hreq H1] H2.
  split; [done|]. by apply IH.
Qed.

Lemma twap_loop_priced symbol side size interval num pside use_limit pct range
    acc s :
  priced_from (twap_request symbol side size pside use_limit pct) None
    (events_of (TWAPBot.twap_loop client symbol side size interval num pside
                  use_limit pct range acc s)).
Proof.
  revert acc s. induction range as [|i range IH]; intros acc s;
    cbn [TWAPBot.twap_loop]; [done|].
  set (attempt := try_except_api _ _).
  rewrite bind_events.
  assert (Hatt : priced_from (twap_request symbol side size pside use_limit pct)
                   None (events_of (attempt s))).
  { subst attempt. unfold try_except_api, bind.
    destruct (get_current_price_cases client symbol s)
      as [[_ ->]|(_ & r & s1 & _ & ->)]; [done|].
    destruct r as [v|[code| | |]]; cbn; try done.
    - unfold twap_request.
      destruct use_limit; unfold BasicBot.create_order, call;
        match goal with
        | |- context [futures_create_order client ?req ?s1] =>
            destruct (futures_create_order client req s1) as [[o|[code| | |]] s2]
        end; by cbn.
    - by case_bool_decide. }
  apply priced_from_app; [done|]. apply priced_from_weaken.
  destruct (result_of (attempt s)) as [[order|]|e]; [|apply IH|done].
  rewrite bind_events. apply priced_from_app.
  - case_bool_decide; [|done]. unfold sleep. by case_bool_decide.
  - apply priced_from_weaken. destruct (result_of _); [apply IH|done].
Qed.

(** X20. Every order of a TWAP run is built from the price answered by
    the fetch that precedes it, and each fetch serves one order at most.
    In limit mode the order is a GTC limit order at that price moved by
    [limit_offset_pct] percent, up when the (upper-cased) side is BUY and
    down otherwise, rounded to two decimals; in market mode it is a
    MARKET order without price.  Symbol, side and position side are sent
    in upper case and the quantity is the slice. *)
Theorem twap_orders_priced_from_fetch symbol side total dur num pside use_limit
    pct s :
  priced_from
    (twap_request (upper symbol) (upper side) (total / float_of_int num)
       (upper pside) use_limit pct)
    None
    (events_of (TWAPBot.execute_twap client symbol side total dur num pside
                  use_limit pct s)).
Proof.
  destruct (execute_twap_cases client symbol side total dur num pside use_limit
              pct s) as [->|(Hv & Hn & Hd & Hsym & ->)]; [done|].
  apply twap_loop_priced.
Qed.

End TwapSentFacts.

(** A total of 0.001, the minimum, in five slices on a quiet venue: the
    plan passes the checks and five orders of 0.0002 are sent, the first
    one right after the first price fetch. *)
Lemma twap_slice_unchecked_witness :
  let run := TWAPBot.execute_twap Sim.client "BTCUSDT" "BUY"
               (float_of_Q (1 # 1000)) 10 5 "BOTH" false
               (float_of_Q (1 # 10)) (Sim.quiet (float_of_int 45000)) in
  length (created (events_of run)) = 5%nat
  /\ Forall (fun req => Request.quantity req < Config.MIN_QUANTITY)
       (created (events_of run))
  /\ exists req r rest,
       events_of run
       = EvTicker "BTCUSDT" (Ok (VStr (float_of_int 45000)))
           :: EvCreateOrder req r :: rest
       /\ Request.quantity req < Config.MIN_QUANTITY.
Proof.
  intros run.
  destruct (twap_slice_unchecked Sim.client "BTCUSDT" "BUY"
              (float_of_Q (1 # 1000)) 10 5 "BOTH" false (float_of_Q (1 # 10))
              (Sim.quiet (float_of_int 45000)))
    as [Hall Hfirst]; [vm_compute; reflexivity|lia|lia|vm_compute; reflexivity|].
  split_and!; [vm_compute; reflexivity|exact Hall|].
  destruct (Hfirst (VStr (float_of_int 45000)) (Sim.quiet (float_of_int 45000)))
    as (req & r & rest & Hevs & _ & Hq); [vm_compute; reflexivity|].
  by exists req, r, rest.
Defined.

(** ** The TWAP summary, field by field *)

Section SummaryFacts.

Lemma min_spec (xs : list Qc) (p : Qc) :
  TWAPBot.min xs p <= p /\ Forall (fun x => TWAPBot.min xs p <= x) xs.
Proof.
  unfold TWAPBot.min. revert p. induction xs as [|x xs IH]; intros p;
    cbn [foldl].
  - split; [apply Qcle_refl|constructor].
  - set (q := if bool_decide (x < p) then x else p).
    destruct (IH q) as [H1 H2].
    assert (Hq : q <= p /\ q <= x).
    { subst q. case_bool_decide as Hlt.
      - split; [by apply Qclt_le_weak|apply Qcle_refl].
      - split; [apply Qcle_refl|by apply Qcnot_lt_le]. }
    destruct Hq as [Hp Hx].
    split; [by apply (Qcle_trans _ q)|].
    constructor; [by apply (Qcle_trans _ q)|done].
Qed.

Lemma max_spec (xs : list Qc) (p : Qc) :
  p <= TWAPBot.max xs p /\ Forall (fun x => x <= TWAPBot.max xs p) xs.
Proof.
  unfold TWAPBot.max. revert p. induction xs as [|x xs IH]; intros p;
    cbn [foldl].
  - split; [apply Qcle_refl|constructor].
  - set (q := if bool_decide (p < x) then x else p).
    destruct (IH q) as [H1 H2].
    assert (Hq : p <= q /\ x <= q).
    { subst q. case_bool_decide as Hlt.
      - split; [by apply Qclt_le_weak|apply Qcle_refl].
      - split; [apply Qcle_refl|by apply Qcnot_lt_le]. }
    destruct Hq as [Hp Hx].
    split; [by apply (Qcle_trans _ q)|].
    constructor; [by apply (Qcle_trans _ q)|done].
Qed.

Lemma min_in (xs : list Qc) (p : Qc) : TWAPBot.min xs p ∈ p :: xs.
Proof.
  unfold TWAPBot.min. revert p. induction xs as [|x xs IH]; intros p;
    cbn [foldl]; [by left|].
  set (q := if bool_decide (x < p) then x else p).
  specialize (IH q). apply elem_of_cons in IH as [->|IH].
  - subst q. destruct (bool_decide (x < p)); [right|]; by left.
  - by do 2 right.
Qed.

Lemma max_in (xs : list Qc) (p : Qc) : TWAPBot.max xs p ∈ p :: xs.
Proof.
  unfold TWAPBot.max. revert p. induction xs as [|x xs IH]; intros p;
    cbn [foldl]; [by left|].
  set (q := if bool_decide (p < x) then x else p).
  specialize (IH q). apply elem_of_cons in IH as [->|IH].
  - subst q. destruct (bool_decide (p < x)); [right|]; by left.
  - by do 2 right.
Qed.

(** The summary of a ledger that is not empty, field by field. *)
Lemma twap_summary_shape (orders : list Order.t) :
  orders <> [] ->
  let prices := map TWAPBot.avg_price_of
                  (filter (fun o => TWAPBot.has_avg_price o = true) orders) in
  let total := TWAPBot.total_executed orders in
  let avg := if bool_decide (0 < total) then TWAPBot.total_value orders / total
             else 0 in
  let lo := match prices with p :: ps => TWAPBot.min ps p | [] => 0 end in
  let hi := match prices with p :: ps => TWAPBot.max ps p | [] => 0 end in
  let pct := if bool_decide (0 < avg) then (hi - lo) / avg * float_of_int 100
             else 0 in
  exists d,
    TWAPBot.get_twap_summary orders = Ok d
    /\ d !! "total_orders"%string = Some (float_of_int (Z.of_nat (length orders)))
    /\ d !! "total_quantity"%string = Some total
    /\ d !! "average_price"%string = Some avg
    /\ d !! "min_price"%string = Some lo
    /\ d !! "max_price"%string = Some hi
    /\ d !! "price_range_pct"%string = Some pct.
Proof.
  intros Hne prices total avg lo hi pct. unfold TWAPBot.get_twap_summary.
  rewrite bool_decide_false by done.
  fold total. fold prices. fold lo. fold hi.
  assert (Havg : (if bool_decide (0 < total)
                  then truediv (TWAPBot.total_value orders) total else Ok 0)
                 = Ok avg).
  { subst avg. destruct (decide (0 < total)) as [Hpos|Hpos].
    - rewrite !(bool_decide_true _ Hpos).
      by rewrite truediv_nonzero by by apply pos_nonzero.
    - by rewrite !(bool_decide_false _ Hpos). }
  rewrite Havg. cbn [TWAPBot.res_bind].
  assert (Hpct : (if bool_decide (0 < avg)
                  then TWAPBot.res_bind (truediv (hi - lo) avg)
                         (fun ratio => Ok (ratio * float_of_int 100))
                  else Ok 0) = Ok pct).
  { subst pct. destruct (decide (0 < avg)) as [Hpos|Hpos].
    - rewrite !(bool_decide_true _ Hpos).
      by rewrite truediv_nonzero by by apply pos_nonzero.
    - by rewrite !(bool_decide_false _ Hpos). }
  rewrite Hpct. cbn [TWAPBot.res_bind].
  eexists. split; [done|]. split_and!.
  - by rewrite lookup_insert_eq.
  - rewrite lookup_insert_ne by done. by rewrite lookup_insert_eq.
  - do 2 (rewrite lookup_insert_ne by done). by rewrite lookup_insert_eq.
  - do 3 (rewrite lookup_insert_ne by done). by rewrite lookup_insert_eq.
  - do 4 (rewrite lookup_insert_ne by done). by rewrite lookup_insert_eq.
  - do 5 (rewrite lookup_insert_ne by done). by rewrite lookup_insert_eq.
Qed.

(** X21. In the summary of a ledger that is not empty the minimum price
    is not above the maximum price and the price range is not negative.
    The two bound the prices the summary is computed from: the average
    price of every order that reports one lies between the minimum and
    the maximum, and when some order reports one, each of the two is the
    average price of such an order; when none does, both are 0. *)
Theorem twap_summary_ordered (orders : list Order.t) :
  orders <> [] ->
  exists d lo hi pct,
    TWAPBot.get_twap_summary orders = Ok d
    /\ d !! "min_price"%string = Some lo
    /\ d !! "max_price"%string = Some hi
    /\ d !! "price_range_pct"%string = Some pct
    /\ lo <= hi /\ 0 <= pct
    /\ (forall o, o ∈ orders -> TWAPBot.has_avg_price o = true ->
          lo <= TWAPBot.avg_price_of o /\ TWAPBot.avg_price_of o <= hi)
    /\ ((exists o, o ∈ orders /\ TWAPBot.has_avg_price o = true) ->
        exists o1 o2,
          o1 ∈ orders /\ TWAPBot.has_avg_price o1 = true
          /\ TWAPBot.avg_price_of o1 = lo
          /\ o2 ∈ orders /\ TWAPBot.has_avg_price o2 = true
          /\ TWAPBot.avg_price_of o2 = hi)
    /\ ((forall o, o ∈ orders -> TWAPBot.has_avg_price o = false) ->
        lo = 0 /\ hi = 0).
Proof.
  intros Hne.
  destruct (twap_summary_shape orders Hne)
    as (d & Hd & _ & _ & _ & Hlo & Hhi & Hpct).
  set (priced := filter (fun o => TWAPBot.has_avg_price o = true) orders) in *.
  set (prices := map TWAPBot.avg_price_of priced) in *.
  set (lo := match prices with p :: ps => TWAPBot.min ps p | [] => 0 end) in *.
  set (hi := match prices with p :: ps => TWAPBot.max ps p | [] => 0 end) in *.
  set (avg := if bool_decide (0 < TWAPBot.total_executed orders) then _ else _)
    in *.
  assert (Hin : forall o, o ∈ orders -> TWAPBot.has_avg_price o = true ->
                          TWAPBot.avg_price_of o ∈ prices).
  { intros o Ho Hp. subst prices priced.
    apply list_elem_of_fmap. exists o. split; [done|].
    by apply list_elem_of_filter. }
  assert (Hfrom : forall p, p ∈ prices ->
            exists o, o ∈ orders /\ TWAPBot.has_avg_price o = true
                      /\ TWAPBot.avg_price_of o = p).
  { intros p Hp. subst prices priced.
    apply list_elem_of_fmap in Hp as (o & -> & Ho).
    apply list_elem_of_filter in Ho as [Hpr Ho]. by exists o. }
  assert (Hbounds : lo <= hi /\ Forall (fun p => lo <= p /\ p <= hi) prices).
  { subst lo hi. destruct prices as [|p ps];
      [split; [apply Qcle_refl|constructor]|].
    destruct (min_spec ps p) as [Hm1 Hm2]. destruct (max_spec ps p) as [HM1 HM2].
    split; [by apply (Qcle_trans _ p)|].
    constructor; [done|]. apply list.Forall_forall. intros x Hx.
    rewrite list.Forall_forall in Hm2, HM2. split; [by apply Hm2|by apply HM2]. }
  destruct Hbounds as [Hlohi Hall].
  assert (Hattained : prices <> [] -> lo ∈ prices /\ hi ∈ prices).
  { subst lo hi. destruct prices as [|p ps]; [done|]. intros _.
    split; [apply min_in|apply max_in]. }
  assert (Hnone : prices = [] -> lo = 0 /\ hi = 0).
  { subst lo hi. by intros ->. }
  clearbody lo hi.
  exists d, lo, hi. eexists. split_and!; [done..| | | |].
  - destruct (decide (0 < avg)) as [Hpos|Hpos];
      [rewrite (bool_decide_true _ Hpos)
      |rewrite (bool_decide_false _ Hpos); apply Qcle_refl].
    apply Qcmult_nonneg_nonneg; [|by apply float_of_int_nonneg].
    apply Qcmult_nonneg_nonneg; [|by apply Qclt_le_weak, Qcinv_pos].
    clear -Hlohi. qc_linear.
  - intros o Ho Hp. rewrite list.Forall_forall in Hall. by apply Hall, Hin.
  - intros (o & Ho & Hp).
    destruct Hattained as [Hl Hh].
    { intros Hnil. specialize (Hin o Ho Hp). rewrite Hnil in Hin.
      by apply elem_of_nil in Hin. }
    destruct (Hfrom lo Hl) as (o1 & ? & ? & ?).
    destruct (Hfrom hi Hh) as (o2 & ? & ? & ?).
    by exists o1, o2.
  - intros Hnone'. apply Hnone.
    destruct prices as [|p ps]; [done|].
    destruct (Hfrom p) as (o & Ho & Hp & _); [by left|].
    rewrite (Hnone' o Ho) in Hp. discriminate.
Qed.

End SummaryFacts.

(** Two fills of 0.02 at 45000 and 45100: the minimum is 45000, the
    maximum 45100, and each fill is priced between them. *)
Lemma twap_summary_ordered_witness :
  exists d lo hi,
    TWAPBot.get_twap_summary two_fills = Ok d
    /\ d !! "min_price"%string = Some lo
    /\ d !! "max_price"%string = Some hi
    /\ lo <= hi
    /\ Forall (fun o => lo <= TWAPBot.avg_price_of o
                        /\ TWAPBot.avg_price_of o <= hi) two_fills.
Proof.
  destruct (twap_summary_ordered two_fills ltac:(discriminate))
    as (d & lo & hi & pct & Hd & Hlo & Hhi & _ & Hle & _ & Hin & _).
  exists d, lo, hi. split_and!; [done..|].
  apply list.Forall_forall. intros o Ho. apply Hin; [done|].
  unfold two_fills in Ho.
  apply elem_of_cons in Ho as [->|Ho]; [reflexivity|].
  apply elem_of_cons in Ho as [->|Ho]; [reflexivity|].
  by apply elem_of_nil in Ho.
Defined.

(** X22. The report printed after a TWAP run reads the summary with
    defaults and so never fails: whatever the ledger, the empty one
    included, it shows the number of its entries and the sum of their
    executed quantities, followed by the average price, the minimum, the
    maximum and the price range; for the empty ledger all six are zero. *)
Theorem twap_report_total (orders : list Order.t) :
  (exists avg lo hi pct,
     twap_report orders
     = Ok [float_of_int (Z.of_nat (length orders));
           TWAPBot.total_executed orders; avg; lo; hi; pct])
  /\ twap_report [] = Ok [0; 0; 0; 0; 0; 0].
Proof.
  split; [|reflexivity].
  destruct orders as [|o orders].
  { exists 0, 0, 0, 0. unfold twap_report. cbn. do 2 f_equal.
    apply Qc_is_canon. reflexivity. }
  destruct (twap_summary_shape (o :: orders) ltac:(done))
    as (d & Hd & H1 & H2 & H3 & H4 & H5 & H6).
  do 4 eexists. unfold twap_report. rewrite Hd.
  cbn [TWAPBot.res_bind map]. rewrite H1, H2, H3, H4, H5, H6. reflexivity.
Qed.

(** ** The OCO monitor, pass by pass *)

Section OcoPassFacts.
Context {S : Type} (client : Client S).

(** One pass of the monitor, by the answers of the venue. *)
Lemma oco_check_cases symbol tp_id sl_id s :
  OCOOrderBot.oco_check client symbol tp_id sl_id s
  = match futures_get_order client symbol tp_id s with
    | (Raise e, s1) => (status_handler e, s1, [EvGetOrder symbol tp_id (Raise e)])
    | (Ok tp_order, s1) =>
        match futures_get_order client symbol sl_id s1 with
        | (Raise e, s2) =>
            (status_handler e, s2,
             [EvGetOrder symbol tp_id (Ok tp_order);
              EvGetOrder symbol sl_id (Raise e)])
        | (Ok sl_order, s2) =>
            let queries := [EvGetOrder symbol tp_id (Ok tp_order);
                            EvGetOrder symbol sl_id (Ok sl_order)] in
            if bool_decide (Order.status tp_order = "FILLED"%string) then
              match futures_cancel_order client (upper symbol) sl_id s2 with
              | (Ok ack, s3) =>
                  (Ok (Some (Some "TP"%string)), s3,
                   queries ++ [EvCancelOrder (upper symbol) sl_id (Ok ack)])
              | (Raise e, s3) =>
                  (status_handler e, s3,
                   queries ++ [EvCancelOrder (upper symbol) sl_id (Raise e)])
              end
            else if bool_decide (Order.status sl_order = "FILLED"%string) then
              match futures_cancel_order client (upper symbol) tp_id s2 with
              | (Ok ack, s3) =>
                  (Ok (Some (Some "SL"%string)), s3,
                   queries ++ [EvCancelOrder (upper symbol) tp_id (Ok ack)])
              | (Raise e, s3) =>
                  (status_handler e, s3,
                   queries ++ [EvCancelOrder (upper symbol) tp_id (Raise e)])
              end
            else if bool_decide (Order.status tp_order
                                 ∈ ["CANCELED"; "EXPIRED"]%string)
                    && bool_decide (Order.status sl_order
                                    ∈ ["CANCELED"; "EXPIRED"]%string)
            then (Ok (Some None), s2, queries)
            else (Ok None, s2, queries)
        end
    end.
Proof.
  unfold OCOOrderBot.oco_check, try_except_api, bind, BasicBot.get_order,
    BasicBot.cancel_order, call.
  destruct (futures_get_order client symbol tp_id s) as [[tp_order|[code| | |]] s1];
    try done.
  destruct (futures_get_order client symbol sl_id s1)
    as [[sl_order|[code| | |]] s2]; try done.
  cbn zeta.
  destruct (bool_decide (Order.status tp_order = "FILLED"%string)).
  { by destruct (futures_cancel_order client (upper symbol) sl_id s2)
      as [[ack|[code| | |]] s3]. }
  destruct (bool_decide (Order.status sl_order = "FILLED"%string)).
  { by destruct (futures_cancel_order client (upper symbol) tp_id s2)
      as [[ack|[code| | |]] s3]. }
  by destruct (_ && _).
Qed.

(** A pass that decides for a leg has seen that leg FILLED and has had
    the cancellation of the other leg acknowledged. *)
Lemma oco_check_decides symbol tp_id sl_id s r s' evs :
  OCOOrderBot.oco_check client symbol tp_id sl_id s = (Ok (Some (Some r)), s', evs) ->
  exists tp_order sl_order other ack,
    evs = [EvGetOrder symbol tp_id (Ok tp_order);
           EvGetOrder symbol sl_id (Ok sl_order);
           EvCancelOrder (upper symbol) other (Ok ack)]
    /\ (r = "TP"%string /\ other = sl_id
        /\ Order.status tp_order = "FILLED"%string
        \/ r = "SL"%string /\ other = tp_id
           /\ Order.status sl_order = "FILLED"%string
           /\ Order.status tp_order <> "FILLED"%string).
Proof.
  rewrite oco_check_cases.
  destruct (futures_get_order client symbol tp_id s) as [[tp_order|e] s1];
    [|by destruct e].
  destruct (futures_get_order client symbol sl_id s1) as [[sl_order|e] s2];
    [|by destruct e].
  cbn zeta. case_bool_decide as Htp.
  { destruct (futures_cancel_order client (upper symbol) sl_id s2)
      as [[ack|e] s3]; [|by destruct e].
    intros [= <- <- <-]. exists tp_order, sl_order, sl_id, ack.
    split; [done|]. by left. }
  case_bool_decide as Hsl.
  { destruct (futures_cancel_order client (upper symbol) tp_id s2)
      as [[ack|e] s3]; [|by destruct e].
    intros [= <- <- <-]. exists tp_order, sl_order, tp_id, ack.
    split; [done|]. by right. }
  by destruct (_ && _).
Qed.

(** What a pass can leave in the log: at most three calls, none of them a
    placement, at most one cancellation, of one of the two legs. *)
Lemma oco_check_events symbol tp_id sl_id s :
  let evs := events_of (OCOOrderBot.oco_check client symbol tp_id sl_id s) in
  (length evs <= 3)%nat
  /\ (length (cancelled evs) <= 1)%nat
  /\ Forall (fun oid => oid = tp_id \/ oid = sl_id) (cancelled evs)
  /\ Forall (fun ev => match ev with
                       | EvGetOrder _ _ _ | EvCancelOrder _ _ _ => True
                       | _ => False
                       end) evs.
Proof.
  assert (Hshape : forall (r : res (option (option string))) (s' : S) evs,
            (length evs <= 3)%nat ->
            (cancelled evs = [] \/ cancelled evs = [tp_id]
             \/ cancelled evs = [sl_id]) ->
            Forall (fun ev => match ev with
                              | EvGetOrder _ _ _ | EvCancelOrder _ _ _ => True
                              | _ => False
                              end) evs ->
            let evs' := events_of (r, s', evs) in
            (length evs' <= 3)%nat
            /\ (length (cancelled evs') <= 1)%nat
            /\ Forall (fun oid => oid = tp_id \/ oid = sl_id) (cancelled evs')
            /\ Forall (fun ev => match ev with
                                 | EvGetOrder _ _ _ | EvCancelOrder _ _ _ => True
                                 | _ => False
                                 end) evs').
  { intros r s' evs Hlen Hcan Hkind evs'. subst evs'. unfold events_of.
    cbn [snd]. split_and!; [done| | |done].
    - destruct Hcan as [->|[->| ->]]; cbn; lia.
    - destruct Hcan as [->|[->| ->]];
        [constructor|constructor; [by left|constructor]
        |constructor; [by right|constructor]]. }
  rewrite oco_check_cases.
  destruct (futures_get_order client symbol tp_id s) as [[tp_order|e] s1];
    [|apply Hshape; [cbn; lia|by left|by repeat constructor]].
  destruct (futures_get_order client symbol sl_id s1) as [[sl_order|e] s2];
    [|apply Hshape; [cbn; lia|by left|by repeat constructor]].
  cbn zeta. case_bool_decide as Htp.
  { destruct (futures_cancel_order client (upper symbol) sl_id s2) as [[ack|e] s3];
      (apply Hshape; [cbn; lia|by right; right|by repeat constructor]). }
  case_bool_decide as Hsl.
  { destruct (futures_cancel_order client (upper symbol) tp_id s2) as [[ack|e] s3];
      (apply Hshape; [cbn; lia|by right; left|by repeat constructor]). }
  destruct (_ && _); (apply Hshape; [cbn; lia|by left|by repeat constructor]).
Qed.

(** X23. When [monitor_and_cancel_oco] returns ['TP'] or ['SL'], its last
    pass has seen that leg FILLED and the venue has acknowledged the
    cancellation of the other leg: the log ends with the two status
    queries of that pass and the acknowledged cancel.  ['SL'] is only
    returned when the take-profit leg was not FILLED in that pass, so the
    take-profit leg wins when both are. *)
Theorem oco_result_sound symbol tp_id sl_id interval max_checks s r s' evs :
  OCOOrderBot.monitor_and_cancel_oco client symbol tp_id sl_id interval
    max_checks s = (Ok (Some r), s', evs) ->
  exists before tp_order sl_order other ack,
    evs = before
          ++ [EvGetOrder (upper symbol) tp_id (Ok tp_order);
              EvGetOrder (upper symbol) sl_id (Ok sl_order);
              EvCancelOrder (upper symbol) other (Ok ack)]
    /\ (r = "TP"%string /\ other = sl_id
        /\ Order.status tp_order = "FILLED"%string
        \/ r = "SL"%string /\ other = tp_id
           /\ Order.status sl_order = "FILLED"%string
           /\ Order.status tp_order <> "FILLED"%string).
Proof.
  unfold OCOOrderBot.monitor_and_cancel_oco.
  generalize (Z.to_nat max_checks). intros n. revert s evs.
  induction n as [|n IH]; intros s evs Hrun; [done|].
  cbn [OCOOrderBot.oco_loop] in Hrun.
  apply bind_inv_Ok in Hrun as (decision & s1 & t1 & t2 & Hcheck & Hrest & ->).
  destruct decision as [result|].
  - injection Hrest as -> <- <-.
    apply oco_check_decides in Hcheck
      as (tp_order & sl_order & other & ack & -> & Hcase).
    rewrite upper_idempotent. exists [], tp_order, sl_order, other, ack.
    by rewrite app_nil_r.
  - apply bind_inv_Ok in Hrest as ([] & s2 & t3 & t4 & _ & Hrest & ->).
    apply IH in Hrest as (before & tp_order & sl_order & other & ack & -> & Hcase).
    exists (t1 ++ t3 ++ before), tp_order, sl_order, other, ack.
    split; [by rewrite <- !(assoc_L (++))|done].
Qed.

(** X24. [monitor_and_cancel_oco] makes at most [max_checks] passes.  A
    pass makes at most three calls and is followed by at most one sleep,
    so the log has at most four events per pass; it holds at most one
    cancellation per pass, always of one of the two orders it was given,
    and never a placement.  With [max_checks] zero or negative the method
    returns [None] at once, without any call. *)
Theorem oco_monitor_bounded symbol tp_id sl_id interval max_checks s :
  let run := OCOOrderBot.monitor_and_cancel_oco client symbol tp_id sl_id
               interval max_checks s in
  (length (events_of run) <= 4 * Z.to_nat max_checks)%nat
  /\ (length (cancelled (events_of run)) <= Z.to_nat max_checks)%nat
  /\ Forall (fun oid => oid = tp_id \/ oid = sl_id) (cancelled (events_of run))
  /\ created (events_of run) = []
  /\ ((max_checks <= 0)%Z -> run = (Ok None, s, [])).
Proof.
  intros run. subst run. unfold OCOOrderBot.monitor_and_cancel_oco.
  assert (Hloop : forall n s,
    let evs := events_of (OCOOrderBot.oco_loop client (upper symbol) tp_id sl_id
                            interval n s) in
    (length evs <= 4 * n)%nat
    /\ (length (cancelled evs) <= n)%nat
    /\ Forall (fun oid => oid = tp_id \/ oid = sl_id) (cancelled evs)
    /\ created evs = []).
  { induction n as [|n IH]; intros s0; cbn [OCOOrderBot.oco_loop].
    { cbn. split_and!; [lia|lia|constructor|done]. }
    cbn zeta. rewrite bind_events.
    destruct (oco_check_events (upper symbol) tp_id sl_id s0)
      as (Hlen & Hcan & Hids & Hkind).
    set (t1 := events_of (OCOOrderBot.oco_check client (upper symbol) tp_id
                            sl_id s0)) in *.
    assert (Hc1 : created t1 = []).
    { clear -Hkind. induction Hkind as [|ev evs Hev _ IHk]; [done|].
      by destruct ev. }
    set (rest := match result_of _ with Ok a => _ | Raise _ => [] end).
    assert (Hrest : (length rest <= 1 + 4 * n)%nat
                    /\ (length (cancelled rest) <= n)%nat
                    /\ Forall (fun oid => oid = tp_id \/ oid = sl_id)
                          (cancelled rest)
                    /\ created rest = []).
    { subst rest. destruct (result_of _) as [[result|]|e];
        [cbn; split_and!; [lia|lia|constructor|done]|
        |cbn; split_and!; [lia|lia|constructor|done]].
      rewrite bind_events.
      set (s1 := (OCOOrderBot.oco_check client (upper symbol) tp_id sl_id s0).1.2).
      destruct (sleep_cases (float_of_int interval) s1) as [[_ ->]|[_ ->]].
      { cbn. split_and!; [lia|lia|constructor|done]. }
      destruct (IH s1) as (IH1 & IH2 & IH3 & IH4).
      unfold events_of at 1, result_of, state_of. cbn [fst snd].
      rewrite length_app, cancelled_app, created_app, IH4. cbn [length].
      split_and!; [lia|by cbn|by cbn|done]. }
    destruct Hrest as (R1 & R2 & R3 & R4).
    rewrite length_app, cancelled_app, length_app, created_app, Hc1, R4.
    split_and!; [lia|lia|by apply Forall_app|done]. }
  destruct (Hloop (Z.to_nat max_checks) s) as (H1 & H2 & H3 & H4).
  split_and!; [done..|].
  intros Hz. by replace (Z.to_nat max_checks) with 0%nat by lia.
Qed.

(** X25. When a pass finds neither leg FILLED and each of them CANCELED
    or EXPIRED, [monitor_and_cancel_oco] stops there and returns [None]:
    it sends no cancel and does not sleep.  [None] is also what it
    returns when [max_checks] passes have gone by. *)
Theorem oco_both_terminated symbol tp_id sl_id interval max_checks s tp_order s1
    sl_order s2 :
  (1 <= max_checks)%Z ->
  futures_get_order client (upper symbol) tp_id s = (Ok tp_order, s1) ->
  futures_get_order client (upper symbol) sl_id s1 = (Ok sl_order, s2) ->
  Order.status tp_order ∈ ["CANCELED"; "EXPIRED"]%string ->
  Order.status sl_order ∈ ["CANCELED"; "EXPIRED"]%string ->
  OCOOrderBot.monitor_and_cancel_oco client symbol tp_id sl_id interval
    max_checks s
  = (Ok None, s2,
     [EvGetOrder (upper symbol) tp_id (Ok tp_order);
      EvGetOrder (upper symbol) sl_id (Ok sl_order)]).
Proof.
  intros Hmax Htp Hsl Htps Hsls. unfold OCOOrderBot.monitor_and_cancel_oco.
  destruct (Z.to_nat max_checks) as [|n] eqn:Hn; [lia|].
  cbn [OCOOrderBot.oco_loop]. unfold bind. rewrite oco_check_cases, Htp, Hsl.
  cbn zeta.
  assert (Hnot : forall status : string,
            status ∈ ["CANCELED"; "EXPIRED"]%string -> status <> "FILLED"%string).
  { intros status Hin ->. by apply (bool_decide_pack _) in Hin. }
  rewrite !bool_decide_false by by apply Hnot.
  by rewrite !bool_decide_true by done.
Qed.

(** X26. A status query that fails does not end the monitor when the
    failure is a [BinanceAPIException]: the pass is given up, the monitor
    sleeps for the interval and goes on with the next pass, one check
    used.  Any other exception of the query leaves the method at once.
    This holds of the query for the take-profit leg and of the query for
    the stop-loss leg that follows it. *)
Theorem oco_query_failure symbol tp_id sl_id interval n s :
  ~ float_of_int interval < 0 ->
  (forall e s1,
     futures_get_order client symbol tp_id s = (Raise e, s1) ->
     OCOOrderBot.oco_loop client symbol tp_id sl_id interval (Datatypes.S n) s
     = match e with
       | BinanceAPIException _ =>
           after [EvGetOrder symbol tp_id (Raise e);
                  EvSleep (float_of_int interval)]
             (OCOOrderBot.oco_loop client symbol tp_id sl_id interval n s1)
       | _ => (Raise e, s1, [EvGetOrder symbol tp_id (Raise e)])
       end)
  /\ (forall tp_order s1 e s2,
        futures_get_order client symbol tp_id s = (Ok tp_order, s1) ->
        futures_get_order client symbol sl_id s1 = (Raise e, s2) ->
        OCOOrderBot.oco_loop client symbol tp_id sl_id interval (Datatypes.S n) s
        = match e with
          | BinanceAPIException _ =>
              after [EvGetOrder symbol tp_id (Ok tp_order);
                     EvGetOrder symbol sl_id (Raise e);
                     EvSleep (float_of_int interval)]
                (OCOOrderBot.oco_loop client symbol tp_id sl_id interval n s2)
          | _ => (Raise e, s2,
                  [EvGetOrder symbol tp_id (Ok tp_order);
                   EvGetOrder symbol sl_id (Raise e)])
          end).
Proof.
  intros Hint.
  assert (Hsleep : forall s1 : S,
            sleep (float_of_int interval) s1
            = (Ok tt, s1, [EvSleep (float_of_int interval)])).
  { intros s1. by destruct (sleep_cases (float_of_int interval) s1)
                 as [[? _]|[_ Hs]]. }
  split.
  - intros e s1 Hq. cbn [OCOOrderBot.oco_loop]. unfold bind at 1.
    rewrite oco_check_cases, Hq.
    destruct e as [code| | |]; cbn [status_handler]; try done.
    rewrite (bind_Ok _ _ _ _ _ _ (Hsleep s1)).
    by destruct (OCOOrderBot.oco_loop _ _ _ _ _ _ _) as [[r s2] t2].
  - intros tp_order s1 e s2 Htp Hq. cbn [OCOOrderBot.oco_loop]. unfold bind at 1.
    rewrite oco_check_cases, Htp, Hq.
    destruct e as [code| | |]; cbn [status_handler]; try done.
    rewrite (bind_Ok _ _ _ _ _ _ (Hsleep s2)).
    by destruct (OCOOrderBot.oco_loop _ _ _ _ _ _ _) as [[r s3] t3].
Qed.

End OcoPassFacts.

(** The take-profit leg has filled and the stop-loss leg is open: the
    monitor cancels the stop-loss leg and returns ['TP']. *)
Lemma oco_result_sound_witness :
  let run := OCOOrderBot.monitor_and_cancel_oco Sim.client "BTCUSDT" 1 2 5 3
               pair_with_open_stop in
  result_of run = Ok (Some "TP"%string)
  /\ exists before tp_order sl_order ack,
       events_of run
       = before ++ [EvGetOrder "BTCUSDT" 1 (Ok tp_order);
                    EvGetOrder "BTCUSDT" 2 (Ok sl_order);
                    EvCancelOrder "BTCUSDT" 2 (Ok ack)]
       /\ Order.status tp_order = "FILLED"%string.
Proof.
  intros run.
  assert (Hrun : run = (Ok (Some "TP"%string), state_of run, events_of run))
    by (vm_compute; reflexivity).
  split; [vm_compute; reflexivity|].
  destruct (oco_result_sound Sim.client "BTCUSDT" 1 2 5 3 pair_with_open_stop
              "TP" (state_of run) (events_of run) Hrun)
    as (before & tp_order & sl_order & other & ack & Hevs & Hcase).
  destruct Hcase as [(_ & -> & Hfilled)|(Hsl & _)]; [|discriminate Hsl].
  by exists before, tp_order, sl_order, ack.
Defined.

(** Three checks allowed, none allowed: at most twelve events, and none. *)
Lemma oco_monitor_bounded_witness :
  (length (events_of
     (OCOOrderBot.monitor_and_cancel_oco Sim.client "BTCUSDT" 1 2 5 3
        pair_with_expired_stop)) <= 12)%nat
  /\ OCOOrderBot.monitor_and_cancel_oco Sim.client "BTCUSDT" 1 2 5 0
       pair_with_expired_stop
     = (Ok None, pair_with_expired_stop, []).
Proof.
  split.
  - apply (proj1 (oco_monitor_bounded Sim.client "BTCUSDT" 1 2 5 3
                    pair_with_expired_stop)).
  - apply (proj2 (proj2 (proj2 (proj2
             (oco_monitor_bounded Sim.client "BTCUSDT" 1 2 5 0
                pair_with_expired_stop))))).
    lia.
Defined.

(** One leg cancelled and the other expired: the monitor returns [None]
    after its first two queries. *)
Lemma oco_both_terminated_witness :
  let run := OCOOrderBot.monitor_and_cancel_oco Sim.client "BTCUSDT" 1 2 5 3
               pair_terminated in
  result_of run = Ok None /\ length (events_of run) = 2%nat
  /\ cancelled (events_of run) = [] /\ slept (events_of run) = [].
Proof.
  intros run. subst run.
  set (tp_order := Order.mk 1 "SELL" (VStr (float_of_int 46000)) "CANCELED"
                     (Some (VStr 0)) (Some (VStr 0))).
  set (sl_order := Order.mk 2 "SELL" (VStr 0) "EXPIRED" (Some (VStr 0))
                     (Some (VStr 0))).
  rewrite (oco_both_terminated Sim.client "BTCUSDT" 1 2 5 3 pair_terminated
             tp_order pair_terminated sl_order pair_terminated).
  - by split_and!.
  - lia.
  - vm_compute; reflexivity.
  - vm_compute; reflexivity.
  - apply elem_of_cons. by left.
  - apply elem_of_cons. right. apply elem_of_cons. by left.
Defined.

(** A query for an order that the venue does not know (error -2013): the
    pass is given up and the monitor sleeps. *)
Lemma oco_query_failure_witness :
  OCOOrderBot.oco_loop Sim.client "BTCUSDT" 7 8 5 1 (Sim.quiet (float_of_int 45000))
  = (Ok None, Sim.quiet (float_of_int 45000),
     [EvGetOrder "BTCUSDT" 7 (Raise (BinanceAPIException (-2013)));
      EvSleep (float_of_int 5)]).
Proof.
  assert (Hint : ~ float_of_int 5 < 0) by by vm_compute.
  rewrite (proj1 (oco_query_failure Sim.client "BTCUSDT" 7 8 5 0
                    (Sim.quiet (float_of_int 45000)) Hint)
             (BinanceAPIException (-2013)) (Sim.quiet (float_of_int 45000))).
  - reflexivity.
  - vm_compute; reflexivity.
Defined.

Section OcoPlaceFacts.
Context {S : Type} (client : Client S).

(** X27. [place_oco_order] is not atomic.  When the venue refuses the
    take-profit leg the error is raised and the stop-loss leg is never
    sent.  When the take-profit leg is accepted and the stop-loss leg
    fails, the error is raised after the three steps (placement, sleep of
    0.1 s, failed placement) and nothing more: no call is made for the
    accepted take-profit order, which stays at the venue. *)
Theorem place_oco_order_not_atomic symbol side qty tp sl pside s cur s1 t1 :
  BasicBot.validate_order_params symbol side qty (Some tp) = true ->
  BasicBot.get_current_price client (upper symbol) s = (Ok cur, s1, t1) ->
  let tp_leg := take_profit_leg symbol side qty tp pside in
  let sl_leg := stop_loss_leg symbol side qty sl pside in
  let run := OCOOrderBot.place_oco_order client symbol side qty tp sl pside s in
  (forall e s2,
     futures_create_order client tp_leg s1 = (Raise e, s2) ->
     run = (Raise e, s2, t1 ++ [EvCreateOrder tp_leg (Raise e)]))
  /\ (forall tp_order s2 e s3,
        futures_create_order client tp_leg s1 = (Ok tp_order, s2) ->
        futures_create_order client sl_leg s2 = (Raise e, s3) ->
        run = (Raise e, s3,
               t1 ++ [EvCreateOrder tp_leg (Ok tp_order);
                      EvSleep (float_of_Q (1 # 10));
                      EvCreateOrder sl_leg (Raise e)])).
Proof.
  intros Hv Hprice tp_leg sl_leg run. subst run.
  unfold OCOOrderBot.place_oco_order. rewrite Hv. cbn [negb].
  rewrite (bind_Ok _ _ _ _ _ _ Hprice).
  unfold bind, BasicBot.create_order, call.
  fold (take_profit_leg symbol side qty tp pside).
  fold (stop_loss_leg symbol side qty sl pside).
  fold tp_leg. fold sl_leg. split.
  - intros e s2 Htp. by rewrite Htp.
  - intros tp_order s2 e s3 Htp Hsl. by rewrite Htp, sleep_tenth, Hsl.
Qed.

End OcoPlaceFacts.

(** On a venue that refuses the second order it receives, the stop-loss
    leg fails, the call raises, and the take-profit order is the one
    order left at the venue. *)
Lemma place_oco_order_not_atomic_witness :
  let run := OCOOrderBot.place_oco_order Sim.client "BTCUSDT" "SELL"
               (float_of_Q (1 # 100)) (float_of_int 46000) (float_of_int 44000)
               "BOTH" venue_refusing_second_order in
  result_of run = Raise (BinanceAPIException (-2019))
  /\ length (events_of run) = 4%nat
  /\ length (Sim.orders (state_of run)) = 1%nat.
Proof.
  intros run. subst run.
  set (s0 := venue_refusing_second_order).
  set (tp_leg := take_profit_leg "BTCUSDT" "SELL" (float_of_Q (1 # 100))
                   (float_of_int 46000) "BOTH").
  rewrite (proj2 (place_oco_order_not_atomic Sim.client "BTCUSDT" "SELL"
                    (float_of_Q (1 # 100)) (float_of_int 46000)
                    (float_of_int 44000) "BOTH" s0 (float_of_int 45000) s0
                    [EvTicker "BTCUSDT" (Ok (VStr (float_of_int 45000)))]
                    eq_refl eq_refl)
             (Sim.accept tp_leg s0) (Sim.create tp_leg s0).2
             (BinanceAPIException (-2019))
             (Sim.create (stop_loss_leg "BTCUSDT" "SELL" (float_of_Q (1 # 100))
                            (float_of_int 44000) "BOTH")
                (Sim.create tp_leg s0).2).2).
  - split_and!; vm_compute; reflexivity.
  - vm_compute; reflexivity.
  - vm_compute; reflexivity.
Defined.

(** ** Which errors of the venue reach the caller *)

Section ApiErrorFacts.
Context {S : Type} (client : Client S).

Lemma never_api_ret {A} (a : A) : never_api (ret (S:=S) a).
Proof. by intros s code. Qed.

Lemma never_api_raise {A} (e : exn) :
  (forall code, e <> BinanceAPIException code) ->
  never_api (raise (S:=S) (A:=A) e).
Proof. intros He s code [= Heq]. by apply (He code). Qed.

Lemma never_api_sleep (d : Qc) : never_api (sleep (S:=S) d).
Proof. intros s code. unfold sleep. by case_bool_decide. Qed.

Lemma never_api_truediv (x y : Qc) : never_api (lift_res (S:=S) (truediv x y)).
Proof. intros s code. unfold lift_res, truediv. by case_decide. Qed.

Lemma never_api_bind {A B} (m : M S A) (k : A -> M S B) :
  never_api m -> (forall a, never_api (k a)) -> never_api (bind m k).
Proof.
  intros Hm Hk s code. unfold bind. specialize (Hm s).
  destruct (m s) as [[[a|e] s1] t1].
  - specialize (Hk a s1 code). by destruct (k a s1) as [[r s2] t2].
  - intros [= ->]. by apply (Hm code).
Qed.

(** A handler for [BinanceAPIException] that does not raise one itself
    keeps every such exception of its body from the caller. *)
Lemma never_api_try {A} (body : M S A) (handler : Z -> M S A) :
  (forall code, never_api (handler code)) ->
  never_api (try_except_api body handler).
Proof.
  intros Hh s code. unfold try_except_api.
  destruct (body s) as [[[a|[code'| | |]] s1] t1]; try done.
  specialize (Hh code' s1 code). by destruct (handler code' s1) as [[r s2] t2].
Qed.

Lemma never_api_if {A} (b : bool) (m1 m2 : M S A) :
  never_api m1 -> never_api m2 -> never_api (if b then m1 else m2).
Proof. by destruct b. Qed.

Lemma create_grid_loop_never_api symbol lower_price step cur qty pside range
    buys sells :
  never_api (GridBot.create_grid_loop client symbol lower_price step cur qty
               pside range buys sells).
Proof.
  revert buys sells. induction range as [|i range IH]; intros buys sells;
    cbn [GridBot.create_grid_loop].
  - apply never_api_ret.
  - repeat case_bool_decide; [| |apply IH];
      (apply never_api_bind; [|intros; apply IH]);
      apply never_api_try; intros; apply never_api_ret.
Qed.

Lemma replace_loop_never_api symbol side qty prices :
  never_api (GridBot.replace_loop client symbol side qty prices).
Proof.
  induction prices as [|price prices IH]; cbn [GridBot.replace_loop].
  - apply never_api_ret.
  - apply never_api_bind; [|intros; apply IH].
    apply never_api_try; intros; apply never_api_ret.
Qed.

Lemma twap_loop_never_api symbol side size interval num pside use_limit pct
    range acc :
  never_api (TWAPBot.twap_loop client symbol side size interval num pside
               use_limit pct range acc).
Proof.
  revert acc. induction range as [|i range IH]; intros acc;
    cbn [TWAPBot.twap_loop].
  - apply never_api_ret.
  - apply never_api_bind.
    + apply never_api_try; intros; apply never_api_ret.
    + intros [order|]; [|apply IH].
      apply never_api_bind; [|intros; apply IH].
      apply never_api_if; [apply never_api_sleep|apply never_api_ret].
Qed.

Lemma oco_loop_never_api symbol tp_id sl_id interval n :
  never_api (OCOOrderBot.oco_loop client symbol tp_id sl_id interval n).
Proof.
  induction n as [|n IH]; cbn [OCOOrderBot.oco_loop].
  - apply never_api_ret.
  - apply never_api_bind.
    + apply never_api_try; intros; apply never_api_ret.
    + intros [result|]; [apply never_api_ret|].
      apply never_api_bind; [apply never_api_sleep|intros; apply IH].
Qed.

(** X28. No [BinanceAPIException] ever leaves [execute_twap] or
    [monitor_and_cancel_oco]: every one raised by the venue during a
    slice or a pass is caught there, so a caller cannot learn from an
    exception that a slice or a cancellation was refused. *)
Theorem api_errors_contained symbol side total dur num pside use_limit pct tp_id
    sl_id interval max_checks s code :
  result_of (TWAPBot.execute_twap client symbol side total dur num pside
               use_limit pct s)
  <> Raise (BinanceAPIException code)
  /\ result_of (OCOOrderBot.monitor_and_cancel_oco client symbol tp_id sl_id
                  interval max_checks s)
     <> Raise (BinanceAPIException code).
Proof.
  split.
  - destruct (execute_twap_cases client symbol side total dur num pside
                use_limit pct s) as [->|(_ & _ & _ & _ & ->)]; [done|].
    apply twap_loop_never_api.
  - apply oco_loop_never_api.
Qed.

Lemma api_only_from_fetch_never {A} (m : M S A) :
  never_api m -> api_only_from_fetch m.
Proof.
  intros Hm s code s' evs Hrun. specialize (Hm s code). by rewrite Hrun in Hm.
Qed.

Lemma api_only_from_fetch_bind {A B} (m : M S A) (k : A -> M S B) :
  api_only_from_fetch m -> (forall a, api_only_from_fetch (k a)) ->
  api_only_from_fetch (bind m k).
Proof.
  intros Hm Hk s code s' evs. unfold bind.
  destruct (m s) as [[[a|e] s1] t1] eqn:Hms.
  - destruct (k a s1) as [[r s2] t2] eqn:Hks. intros [= -> -> <-].
    destruct (Hk a s1 code _ _ Hks) as (before & ev & -> & Hev).
    exists (t1 ++ before), ev. by rewrite (assoc_L (++)).
  - intros [= -> -> <-]. by apply (Hm s code _ _ Hms).
Qed.

Lemma get_current_price_fetch symbol :
  api_only_from_fetch (BasicBot.get_current_price client symbol).
Proof.
  intros s code s' evs.
  destruct (get_current_price_cases client symbol s)
    as [[_ ->]|(_ & r & s1 & _ & ->)]; [done|].
  destruct r as [v|[code'| | |]]; cbn; try done.
  case_bool_decide; [done|]. intros [= -> -> <-].
  by exists [], (EvTicker (upper symbol) (Raise (BinanceAPIException code))).
Qed.

Lemma get_open_orders_fetch symbol :
  api_only_from_fetch (BasicBot.get_open_orders client symbol).
Proof.
  intros s code s' evs. unfold BasicBot.get_open_orders, call.
  destruct symbol as [sym|]; [case_bool_decide|];
    match goal with
    | |- context [futures_get_open_orders client ?q s] =>
        destruct (futures_get_open_orders client q s) as [r s1]
    end; intros [= -> -> <-]; by eexists [], _.
Qed.

Lemma rebalance_loop_fetch symbol lower_price upper_price levels qty interval n :
  api_only_from_fetch
    (GridBot.rebalance_loop client symbol lower_price upper_price levels qty
       interval n).
Proof.
  induction n as [|n IH]; cbn [GridBot.rebalance_loop].
  - by apply api_only_from_fetch_never, never_api_ret.
  - apply api_only_from_fetch_bind; [|intros; apply IH].
    unfold GridBot.rebalance_iteration.
    apply api_only_from_fetch_bind; [apply get_current_price_fetch|intros cur].
    apply api_only_from_fetch_bind; [apply get_open_orders_fetch|intros orders].
    apply api_only_from_fetch_never.
    apply never_api_bind; [apply never_api_truediv|intros step].
    destruct (GridBot.expected_prices_loop _ _ _ _ _ _) as [eb es].
    apply never_api_bind; [apply replace_loop_never_api|intros].
    apply never_api_bind; [apply replace_loop_never_api|intros].
    apply never_api_sleep.
Qed.

(** X29. A [BinanceAPIException] leaves the grid methods only as the error
    of a fetch; the refusal of an order never does.  When
    [create_grid_orders] raises one, it is the error of its price fetch
    and that failed fetch is the whole log: no order was sent.  When
    [monitor_and_rebalance_grid] raises one, the log ends with the failed
    fetch of the price or of the open orders. *)
Theorem grid_api_errors_from_fetch symbol lower_price upper_price levels qty
    position_side interval max_iterations s code s' evs :
  (GridBot.create_grid_orders client symbol lower_price upper_price levels qty
     position_side s = (Raise (BinanceAPIException code), s', evs) ->
   evs = [EvTicker symbol (Raise (BinanceAPIException code))])
  /\ (GridBot.monitor_and_rebalance_grid client symbol lower_price upper_price
        levels qty interval max_iterations s
      = (Raise (BinanceAPIException code), s', evs) ->
      exists before ev, evs = before ++ [ev] /\ fetch_failed code ev).
Proof.
  split.
  - unfold GridBot.create_grid_orders.
    destruct (bool_decide (upper_price <= lower_price)) eqn:H1; [done|].
    destruct (bool_decide (levels < 2)%Z) eqn:H2; [done|].
    destruct (BasicBot.validate_order_params symbol "BUY" qty (Some lower_price))
      eqn:Hv; cbn [negb]; [|done].
    destruct (create_grid_orders_valid _ _ _ _ _ H1 H2 Hv)
      as (_ & Hlv & Hsym & Hup & _).
    rewrite truediv_nonzero by (apply float_of_int_nonzero; lia).
    rewrite (bind_Ok _ _ s _ s [] eq_refl), after_nil, Hup.
    destruct (get_current_price_cases client symbol s)
      as [[Hbad _]|(_ & r & s1 & _ & Hprice)]; [congruence|].
    rewrite Hup in Hprice. destruct r as [v|e].
    + rewrite (bind_Ok _ _ _ _ _ _ Hprice). intros Hrun.
      apply after_inv in Hrun as (t2 & Hloop & _).
      pose proof (create_grid_loop_never_api symbol lower_price
                    ((upper_price - lower_price) / float_of_int (levels - 1))
                    (float v) qty (upper position_side) (seqZ 0 levels) [] []
                    s1 code) as Hnever.
      by rewrite Hloop in Hnever.
    + cbn iota in Hprice. rewrite (bind_Raise _ _ _ _ _ _ Hprice).
      clear Hprice H1 H2. destruct e as [code'| | |]; unfold price_error; try done.
      case_bool_decide; [done|]. by intros [= -> _ <-].
  - apply rebalance_loop_fetch.
Qed.

End ApiErrorFacts.

(** The ticker of the venue times out (error -1007) at the second pass:
    the monitor raises that error and its log ends with the failed
    fetch. *)
Lemma grid_api_errors_from_fetch_witness :
  let run := GridBot.monitor_and_rebalance_grid Sim.client "BTCUSDT"
               (float_of_int 44000) (float_of_int 46000) 5
               (float_of_Q (1 # 100)) 30 3 venue_with_one_timeout in
  result_of run = Raise (BinanceAPIException (-1007))
  /\ exists before ev,
       events_of run = before ++ [ev] /\ fetch_failed (-1007) ev.
Proof.
  intros run.
  assert (Hrun : run = (Raise (BinanceAPIException (-1007)), state_of run,
                        events_of run)) by (vm_compute; reflexivity).
  split; [vm_compute; reflexivity|].
  exact (proj2 (grid_api_errors_from_fetch Sim.client "BTCUSDT"
                  (float_of_int 44000) (float_of_int 46000) 5
                  (float_of_Q (1 # 100)) "BOTH" 30 3 venue_with_one_timeout
                  (-1007) (state_of run) (events_of run)) Hrun).
Defined.
